(** * Woxxy build scripts: the metadata consistency checker and the desktop packager

    A shallow embedding of [scripts/flutter_check.py] and of
    [zip_release_folder] from [scripts/build_windows.py] and
    [scripts/build_linux.py], with the properties their specification
    states about them.

    Conventions of the model:
    - a Python [str] is a [string]; its characters are code points below 256;
    - the text of a file is what [read()] returns (newlines already
      translated to the line feed);
    - the working directory is a tree of named files and directories, each
      directory listing its entries in the order [os.scandir] reports them;
    - the command line has been parsed: a run starts after
      [parser.parse_args()] returned;
    - the [tar] that the Linux packager starts is GNU tar, on regular files
      and directories, and the names of the working directory and of the
      archive hold no character that the shell treats specially. *)

From Stdlib Require Import String Ascii List ZArith Bool.
From stdpp Require Import gmap strings.

Local Open Scope string_scope.
Local Open Scope list_scope.
Set Warnings "-register-all".

(** ** Python string operations used by the scripts *)

Module Py.

(** The line feed, the double quote and the few separators, as characters. *)
Definition LF : ascii := ascii_of_nat 10.
Definition DQUOTE : ascii := ascii_of_nat 34.
Definition SQUOTE : ascii := ascii_of_nat 39.

Definition chr (c : ascii) : string := String c EmptyString.

(** [sub in s] on two [str]: [sub] occurs in [s] as a contiguous run. *)
Fixpoint contains (sub s : string) : bool :=
  String.prefix sub s ||
  match s with
  | EmptyString => false
  | String _ s' => contains sub s'
  end.

(** [s.startswith(p)] *)
Definition startswith (s p : string) : bool := String.prefix p s.

(** [s.split(sep)] for a separator of one character: never the empty list. *)
Fixpoint split (sep : ascii) (s : string) : list string :=
  match s with
  | EmptyString => [EmptyString]
  | String c s' =>
      if Ascii.eqb c sep then EmptyString :: split sep s'
      else match split sep s' with
           | [] => [chr c]
           | piece :: pieces => String c piece :: pieces
           end
  end.

(** [sep.join(pieces)] for a separator of one character. *)
Fixpoint join (sep : ascii) (pieces : list string) : string :=
  match pieces with
  | [] => EmptyString
  | [piece] => piece
  | piece :: rest => piece +:+ String sep (join sep rest)
  end.

(** [f.readlines()]: the lines of a text, each keeping its line feed. *)
Fixpoint readlines (s : string) : list string :=
  match s with
  | EmptyString => []
  | String c s' =>
      if Ascii.eqb c LF then chr c :: readlines s'
      else match readlines s' with
           | [] => [chr c]
           | line :: lines => String c line :: lines
           end
  end.

(** [c.isspace()] on the code points below 256: the control characters
    9..13 and 28..31, the space, NEL (133) and the no-break space (160). *)
Definition isspace (c : ascii) : bool :=
  let n := nat_of_ascii c in
  ((9 <=? n)%nat && (n <=? 13)%nat) || ((28 <=? n)%nat && (n <=? 32)%nat)
  || (n =? 133)%nat || (n =? 160)%nat.

Fixpoint lstrip (s : string) : string :=
  match s with
  | EmptyString => EmptyString
  | String c s' => if isspace c then lstrip s' else s
  end.

Fixpoint rstrip (s : string) : string :=
  match s with
  | EmptyString => EmptyString
  | String c s' =>
      match rstrip s' with
      | EmptyString => if isspace c then EmptyString else chr c
      | kept => String c kept
      end
  end.

(** [s.strip()] *)
Definition strip (s : string) : string := lstrip (rstrip s).

(** [s.replace(old, new)] for two strings of one character each. *)
Fixpoint replace (old new : ascii) (s : string) : string :=
  match s with
  | EmptyString => EmptyString
  | String c s' =>
      String (if Ascii.eqb c old then new else c) (replace old new s')
  end.

(** [x in xs] on a list of [str]. *)
Definition mem (x : string) (xs : list string) : bool :=
  existsb (String.eqb x) xs.

(** [s.endswith(p)] for a [p] of one character. *)
Fixpoint endswith (s : string) (c : ascii) : bool :=
  match s with
  | EmptyString => false
  | String d EmptyString => Ascii.eqb d c
  | String _ s' => endswith s' c
  end.

End Py.

(** ** The working directory

    A directory lists its entries in the order [os.scandir] reports them;
    a name is looked up from the front of the list. *)

Inductive node : Type :=
| File (text : string)
| Dir (entries : list (string * node)).

(** The exceptions the scripts can leave uncaught.  The interpreter then
    writes a traceback to standard error (nothing to standard output) and
    the process ends with status 1. *)
Inductive exn : Type :=
| FileNotFoundError (path : string)
| NotADirectoryError (path : string)
| IsADirectoryError (path : string)
| JSONLoadError (path : string)
| KeyError (key : string)
| NameError (name : string)
| IndexError.

Module Fs.

Fixpoint lookup (name : string) (entries : list (string * node)) : option node :=
  match entries with
  | [] => None
  | (n, x) :: rest => if String.eqb n name then Some x else lookup name rest
  end.

(** A path component that names nothing: the empty one (doubled or trailing
    slashes) and the dot. *)
Definition void (c : string) : bool :=
  String.eqb c EmptyString || String.eqb c ".".

(** The components of a relative path.  Paths with a [..] component are
    outside the model. *)
Definition components (path : string) : list string :=
  List.filter (fun c => negb (void c)) (Py.split "/" path).

Inductive located : Type :=
| Found (x : node)
| Missing
| ThroughFile.

Fixpoint locate (here : node) (comps : list string) : located :=
  match comps with
  | [] => Found here
  | name :: rest =>
      match here with
      | File _ => ThroughFile
      | Dir entries =>
          match lookup name entries with
          | Some x => locate x rest
          | None => Missing
          end
      end
  end.

(** [open(path).read()] from the directory whose entries are [root]. *)
Definition read (root : list (string * node)) (path : string) : exn + string :=
  match locate (Dir root) (components path) with
  | Found (File text) => inr text
  | Found (Dir _) => inl (IsADirectoryError path)
  | Missing => inl (FileNotFoundError path)
  | ThroughFile => inl (NotADirectoryError path)
  end.

(** [os.path.join(a, b)] (POSIX). *)
Definition path_join (a b : string) : string :=
  if Py.startswith b "/" then b
  else if String.eqb a EmptyString || Py.endswith a "/" then a +:+ b
  else a +:+ "/" +:+ b.

Definition dirnames (entries : list (string * node)) : list string :=
  flat_map (fun e => match snd e with Dir _ => [fst e] | File _ => [] end) entries.

Definition filenames (entries : list (string * node)) : list string :=
  flat_map (fun e => match snd e with File _ => [fst e] | Dir _ => [] end) entries.

(** One item of [os.walk]: [(root, dirs, files)]. *)
Definition walk_item : Type := string * list string * list string.

(** [os.walk(top)] below a directory node, top-down, links not followed:
    the directory itself, then each sub-directory's walk in listing order. *)
Fixpoint walk_dir (top : string) (x : node) : list walk_item :=
  match x with
  | File _ => []
  | Dir entries =>
      (top, dirnames entries, filenames entries)
      :: flat_map (fun e => walk_dir (path_join top (fst e)) (snd e)) entries
  end.

Fixpoint strip_common (p s : list string) : list string * list string :=
  match p, s with
  | x :: p', y :: s' => if String.eqb x y then strip_common p' s' else (p, s)
  | _, _ => (p, s)
  end.

(** [os.path.relpath(path, start)] for two paths relative to the working
    directory: the common leading components go, one [..] climbs out of each
    remaining component of [start]. *)
Definition relpath (path start : string) : string :=
  let '(p, s) := strip_common (components path) (components start) in
  match (map (fun _ => "..") s ++ p)%list with
  | [] => "."
  | rel => Py.join "/" rel
  end.

(** [list(os.walk(top))]: errors of [scandir] are ignored, so a [top] that
    is missing or is no directory gives no item at all. *)
Definition walk (root : list (string * node)) (top : string) : list walk_item :=
  match locate (Dir root) (components top) with
  | Found x => walk_dir top x
  | _ => []
  end.

End Fs.

(** ** The script as a tree of its actions

    A script is the tree of what it does to the outside world: reading a
    file, walking a directory, loading the JSON descriptor, printing a line,
    adding a file to the archive being written, ending the process.
    [exit(n)] and an uncaught exception have no continuation. *)

Inductive script (A : Type) : Type :=
| Ret (a : A)
| Open (path : string) (k : string -> script A)
| OsWalk (top : string) (k : list Fs.walk_item -> script A)
| JsonLoad (path : string) (k : gmap string string -> script A)
| Print (text : string) (k : script A)
| ZipWrite (filename arcname : string) (k : script A)
| Exit (status : Z)
| Raise (e : exn).

Arguments Ret {A} a.
Arguments Open {A} path k.
Arguments OsWalk {A} top k.
Arguments JsonLoad {A} path k.
Arguments Print {A} text k.
Arguments ZipWrite {A} filename arcname k.
Arguments Exit {A} status.
Arguments Raise {A} e.

Fixpoint bind {A B : Type} (m : script A) (f : A -> script B) : script B :=
  match m with
  | Ret a => f a
  | Open path k => Open path (fun text => bind (k text) f)
  | OsWalk top k => OsWalk top (fun items => bind (k items) f)
  | JsonLoad path k => JsonLoad path (fun d => bind (k d) f)
  | Print text k => Print text (bind k f)
  | ZipWrite filename arcname k => ZipWrite filename arcname (bind k f)
  | Exit status => Exit status
  | Raise e => Raise e
  end.

Declare Scope script_scope.
Delimit Scope script_scope with script.
Bind Scope script_scope with script.
Notation "x <- m ;; k" := (bind m (fun x => k))
  (at level 100, m at next level, k at level 200, right associativity)
  : script_scope.
Notation "m ;; k" := (bind m (fun _ => k))
  (at level 100, k at level 200, right associativity) : script_scope.
Local Open Scope script_scope.

Definition open_read (path : string) : script string := Open path Ret.
Definition os_walk (top : string) : script (list Fs.walk_item) := OsWalk top Ret.
Definition json_load (path : string) : script (gmap string string) := JsonLoad path Ret.
Definition print (text : string) : script unit := Print text (Ret tt).
Definition zip_write (filename arcname : string) : script unit :=
  ZipWrite filename arcname (Ret tt).
Definition exit {A : Type} (status : Z) : script A := Exit status.
Definition pass : script unit := Ret tt.

(** [d[key]] on a dict: [KeyError] when the key is absent. *)
Definition getitem (d : gmap string string) (key : string) : script string :=
  match d !! key with
  | Some v => Ret v
  | None => Raise (KeyError key)
  end.

(** [xs[i]] on a list: [IndexError] when out of range. *)
Definition index (xs : list string) (i : nat) : script string :=
  match nth_error xs i with
  | Some x => Ret x
  | None => Raise IndexError
  end.

(** ** Running a script in a world *)

(** The world of a run: the entries of the working directory, and what
    [json.load(open(path))] gives for each path ([None] when the file cannot
    be opened or does not parse).  The descriptor is a JSON object whose
    values are strings. *)
Record world : Type := World {
  cwd : list (string * node);
  descriptor : string -> option (gmap string string)
}.

Inductive event : Type :=
| Opened (path : string)
| Walked (top : string)
| Loaded (path : string)
| Printed (text : string)
| Stored (arcname text : string).

Inductive outcome (A : Type) : Type :=
| Returned (a : A)
| Exited (status : Z)
| Raised (e : exn).

Arguments Returned {A} a.
Arguments Exited {A} status.
Arguments Raised {A} e.

(** The events of a run, in order, and how it ends. *)
Fixpoint exec {A : Type} (w : world) (s : script A) : list event * outcome A :=
  match s with
  | Ret a => ([], Returned a)
  | Open path k =>
      match Fs.read (cwd w) path with
      | inr text => let '(t, r) := exec w (k text) in (Opened path :: t, r)
      | inl e => ([Opened path], Raised e)
      end
  | OsWalk top k =>
      let '(t, r) := exec w (k (Fs.walk (cwd w) top)) in (Walked top :: t, r)
  | JsonLoad path k =>
      match descriptor w path with
      | Some d => let '(t, r) := exec w (k d) in (Loaded path :: t, r)
      | None => ([Loaded path], Raised (JSONLoadError path))
      end
  | Print text k => let '(t, r) := exec w k in (Printed text :: t, r)
  | ZipWrite filename arcname k =>
      match Fs.read (cwd w) filename with
      | inr text => let '(t, r) := exec w k in (Stored arcname text :: t, r)
      | inl e => ([], Raised e)
      end
  | Exit status => ([], Exited status)
  | Raise e => ([], Raised e)
  end.

(** Standard output: the printed texts (each is followed by a line feed). *)
Definition stdout (t : list event) : list string :=
  flat_map (fun e => match e with Printed text => [text] | _ => [] end) t.

(** The archive a run wrote: its members, name and content, in order. *)
Definition archive (t : list event) : list (string * string) :=
  flat_map (fun e => match e with
                     | Stored arcname text => [(arcname, text)]
                     | _ => []
                     end) t.

(** The artifacts a run touched: the paths it opened or walked. *)
Definition touched (t : list event) : list string :=
  flat_map (fun e => match e with
                     | Opened path | Walked path => [path]
                     | _ => []
                     end) t.

(** The status the process ends with: 0 at the end of the script, the
    argument of [exit], 1 after an uncaught exception. *)
Definition exit_status (r : outcome unit) : Z :=
  match r with
  | Returned _ => 0
  | Exited status => status
  | Raised _ => 1
  end.

(** [if cond: body] where [body] ends the process or falls through. *)
Definition when (cond : bool) (body : script unit) : script unit :=
  if cond then body else pass.

(** ** scripts/flutter_check.py *)

Module FlutterCheck.

Import Py.

(** The parsed command line. *)
Record args : Type := Args {
  app_info : string;
  skip_ios : bool;
  skip_android : bool;
  skip_kotlin : bool
}.

(** Lines 55-61: the loop over the lines of version.dart; the result is
    the final value of [VERSION_DART], which starts as the empty string. *)
Fixpoint scan_version_dart (lines : list string) : script string :=
  match lines with
  | [] => Ret EmptyString
  | line :: rest =>
      if contains "APP_VERSION" line then
        if contains (chr SQUOTE) line then index (split SQUOTE line) 1
        else if contains (chr DQUOTE) line then index (split DQUOTE line) 1
        else Ret EmptyString
      else scan_version_dart rest
  end.

(** Lines 64-67: the loop over the lines of pubspec.yaml. *)
Fixpoint scan_version_pubspec (lines : list string) : script string :=
  match lines with
  | [] => Ret EmptyString
  | line :: rest =>
      if startswith line "version:" then
        field <- index (split ":" line) 1;;
        Ret (strip field)
      else scan_version_pubspec rest
  end.

(** Lines 51-73. *)
Definition version_check : script unit :=
  version_dart <- open_read "lib/config/version.dart";;
  VERSION_DART <- scan_version_dart (readlines version_dart);;
  pubspec <- open_read "pubspec.yaml";;
  VERSION_PUBSPEC <- scan_version_pubspec (readlines pubspec);;
  when (negb (String.eqb VERSION_DART VERSION_PUBSPEC))
    (print "Error: version number in version.dart and pubspec.yaml are different";;
     print ("       version.dart: " +:+ VERSION_DART);;
     print ("       pubspec.yaml: " +:+ VERSION_PUBSPEC);;
     exit 1).

(** Lines 83-107: the two manifests.  The second name test reads
    [android_manifest], as the source does. *)
Definition android_manifest_checks (app_info : gmap string string) : script unit :=
  android_manifest <- open_read "android/app/src/main/AndroidManifest.xml";;
  name <- getitem app_info "name";;
  when (negb (contains name android_manifest))
    (print "Error: app name not found in main / AndroidManifest.xml (android:label)";;
     print "       check: android/app/src/main/AndroidManifest.xml";;
     exit 1);;
  android_debug_manifest <- open_read "android/app/src/debug/AndroidManifest.xml";;
  name <- getitem app_info "name";;
  when (negb (contains name android_manifest))
    (print "Error: app name not found in debug / AndroidManifest.xml (android:label)";;
     print "       check: android/app/src/debug/AndroidManifest.xml";;
     exit 1);;
  package <- getitem app_info "package";;
  when (negb (contains package android_manifest))
    (print "Error: package name not found in main / AndroidManifest.xml (package)";;
     print "       check: android/app/src/main/AndroidManifest.xml";;
     exit 1);;
  package <- getitem app_info "package";;
  when (negb (contains package android_debug_manifest))
    (print "Error: package name not found in debug / AndroidManifest.xml (package)";;
     print "       check: android/app/src/debug/AndroidManifest.xml";;
     exit 1).

(** Lines 122-127: [for dir in dirs]. *)
Fixpoint check_dirs (split_package dirs : list string) : script unit :=
  match dirs with
  | [] => pass
  | dir :: rest =>
      when (negb (mem dir split_package))
        (print ("Error: package name not found in folder structure (android/app/src/main/kotlin/"
                +:+ dir +:+ ")");;
         exit 1);;
      check_dirs split_package rest
  end.

(** Lines 121-127: [for root, dirs, files in android_dir_tree].  The result
    is the binding of [files] that the loop leaves behind: the one of the
    last item, or [files] as it was when there is no item. *)
Fixpoint check_tree (split_package : list string) (items : list Fs.walk_item)
    (files : option (list string)) : script (option (list string)) :=
  match items with
  | [] => Ret files
  | (_, dirs, files') :: rest =>
      check_dirs split_package dirs;;
      check_tree split_package rest (Some files')
  end.

(** Lines 113-154. *)
Definition kotlin_checks (app_info : gmap string string) : script unit :=
  android_dir_tree <- os_walk "android/app/src/main/kotlin/";;
  package <- getitem app_info "package";;
  let split_package := split "." package in
  files <- check_tree split_package android_dir_tree None;;
  files <- match files with
           | Some files => Ret files
           | None => Raise (NameError "files")
           end;;
  when (negb (mem "MainActivity.kt" files))
    (print "Error: MainActivity.kt not found in android/app/src/main/kotlin/";;
     exit 1);;
  package <- getitem app_info "package";;
  let dname := "android/app/src/main/kotlin/" +:+ replace "." "/" package in
  main_activity <- open_read (dname +:+ "/MainActivity.kt");;
  package <- getitem app_info "package";;
  when (negb (contains package main_activity))
    (package <- getitem app_info "package";;
     print ("Error: package name not found in MainActivity.kt (package " +:+ package +:+ ")");;
     exit 1);;
  when (negb (contains "FlutterFragmentActivity" main_activity))
    (print "Error: FlutterFragmentActivity not found in MainActivity.kt";;
     print ("       check: android/app/src/main/kotlin/" +:+ dname +:+ "/MainActivity.kt");;
     exit 1).

Definition keystore_snippet : string :=
  join LF
    [EmptyString;
     "    Open android/app/build.gradle and add the following lines before the android { ... } block:";
     EmptyString;
     "    def keystoreProperties = new Properties()";
     "    def keystorePropertiesFile = rootProject.file('key.properties')";
     "    if (keystorePropertiesFile.exists()) {";
     "        keystoreProperties.load(new FileInputStream(keystorePropertiesFile))";
     "    }";
     "    "].

Definition signing_snippet : string :=
  join LF
    [EmptyString;
     "    Open android/app/build.gradle and add the following lines inside the android { ... } block,";
     "    DELETE buildTypes { ... } block and replace everything with:";
     EmptyString;
     "        signingConfigs {";
     "        release {";
     "            keyAlias keystoreProperties['keyAlias']";
     "            keyPassword keystoreProperties['keyPassword']";
     "            storeFile keystoreProperties['storeFile'] ? file(keystoreProperties['storeFile']) : null";
     "            storePassword keystoreProperties['storePassword']";
     "        }";
     "        }";
     EmptyString;
     "        buildTypes {";
     "            release {";
     "                signingConfig signingConfigs.release";
     "            }";
     "        }";
     EmptyString;
     "    "].

(** Lines 158-218. *)
Definition build_gradle_checks (app_info : gmap string string) : script unit :=
  build_gradle <- open_read "android/app/build.gradle";;
  when (negb (contains "keystoreProperties" build_gradle))
    (print "Error: keystoreProperties not found in android/app/build.gradle";;
     print keystore_snippet;;
     exit 1);;
  when (negb (contains "signingConfigs {" build_gradle))
    (print "Error: signingConfigs not found in android/app/build.gradle";;
     print signing_snippet;;
     exit 1);;
  package <- getitem app_info "package";;
  when (negb (contains package build_gradle))
    (package <- getitem app_info "package";;
     print ("Error: package name not found in android/app/build.gradle (applicationId "
            +:+ package +:+ ")");;
     exit 1);;
  when (contains "flutterVersionCode.toInteger()" build_gradle)
    (print "Error: versionCode must be a real number in android/app/build.gradle";;
     print "       check: android/app/build.gradle  - change flutterVersionCode.toInteger() to a real number";;
     exit 1).

(** Lines 82-218: the body of [if not args.skip_android]. *)
Definition android_checks (a : args) (app_info : gmap string string) : script unit :=
  android_manifest_checks app_info;;
  when (negb (skip_kotlin a)) (kotlin_checks app_info);;
  build_gradle_checks app_info.

(** Lines 221-243: the body of [if not args.skip_ios].  The default of
    [app_info.get] is evaluated before the call. *)
Definition ios_checks (app_info : gmap string string) : script unit :=
  info_plist <- open_read "ios/Runner/Info.plist";;
  name <- getitem app_info "name";;
  when (negb (contains name info_plist))
    (print "Error: app name not found in Info.plist (CFBundleDisplayName / CFBundleName)";;
     print "       check: ios/Runner/Info.plist";;
     exit 1);;
  package <- getitem app_info "package";;
  let pname := default package (app_info !! "ios-package") in
  project_pbxproj <- open_read "ios/Runner.xcodeproj/project.pbxproj";;
  when (negb (contains pname project_pbxproj))
    (print ("Error: app name '" +:+ pname
            +:+ "' not found in ios/Runner.xcodeproj/project.pbxproj (PRODUCT_NAME and PRODUCT_BUNDLE_IDENTIFIER)");;
     exit 1).

(** Lines 78-243: the descriptor and the two platforms. *)
Definition platform_checks (a : args) : script unit :=
  app_info <- json_load (app_info a);;
  when (negb (skip_android a)) (android_checks a app_info);;
  when (negb (skip_ios a)) (ios_checks app_info).

(** The whole script, from line 51 to its end. *)
Definition flutter_check (a : args) : script unit :=
  version_check;;
  platform_checks a.

End FlutterCheck.

(** ** scripts/build_windows.py: the archive of the release folder *)

Module BuildWindows.

Definition BASE_DIR : string := "build/windows/x64/runner/Release".

(** Lines 50-55: [for file in files]. *)
Fixpoint zip_files (root : string) (files : list string) : script unit :=
  match files with
  | [] => pass
  | file :: rest =>
      print ("Zipping " +:+ Fs.path_join root file);;
      zip_write (Fs.path_join root file)
                (Fs.relpath (Fs.path_join root file) BASE_DIR);;
      zip_files root rest
  end.

(** Lines 49-55: [for root, _, files in os.walk(BASE_DIR)]. *)
Fixpoint zip_tree (items : list Fs.walk_item) : script unit :=
  match items with
  | [] => pass
  | (root, _, files) :: rest => zip_files root files;; zip_tree rest
  end.

(** Lines 46-55.  The archive file itself is created in the working
    directory, outside [BASE_DIR].  Paths are joined with the slash; where
    [os.sep] is the backslash, [zipfile] turns it into the slash in the
    names of the members, which are therefore the same. *)
Definition zip_release_folder : script unit :=
  items <- os_walk BASE_DIR;;
  zip_tree items.

End BuildWindows.

(** ** Extracting an archive

    What the round trip of the specification compares with the bundle: the
    tree that unpacking the members of an archive into an empty directory
    leaves.  Each member is written at the components of its name, the
    directories on the way being made when they are missing; a file where a
    directory is needed, or a directory where the file should go, stops the
    extraction. *)

Module Unzip.

Fixpoint put (name : string) (x : node) (entries : list (string * node))
    : list (string * node) :=
  match entries with
  | [] => [(name, x)]
  | (n, y) :: rest =>
      if String.eqb n name then (name, x) :: rest else (n, y) :: put name x rest
  end.

Fixpoint write_file (comps : list string) (text : string)
    (entries : list (string * node)) : option (list (string * node)) :=
  match comps with
  | [] => None
  | name :: rest =>
      match rest with
      | [] =>
          match Fs.lookup name entries with
          | Some (Dir _) => None
          | _ => Some (put name (File text) entries)
          end
      | _ :: _ =>
          match Fs.lookup name entries with
          | Some (File _) => None
          | Some (Dir sub) =>
              sub' ← write_file rest text sub; Some (put name (Dir sub') entries)
          | None =>
              sub' ← write_file rest text []; Some (put name (Dir sub') entries)
          end
      end
  end.

Fixpoint extract_into (members : list (string * string))
    (entries : list (string * node)) : option (list (string * node)) :=
  match members with
  | [] => Some entries
  | (arcname, text) :: rest =>
      entries' ← write_file (Fs.components arcname) text entries;
      extract_into rest entries'
  end.

Definition extractall (members : list (string * string))
    : option (list (string * node)) :=
  extract_into members [].

End Unzip.

(** ** Trees as they are compared *)

(** What a relative path, given by its components, names in a directory. *)
Inductive kind : Type :=
| IsFile (text : string)
| IsDir
| Nothing.

Definition kind_at (entries : list (string * node)) (comps : list string) : kind :=
  match Fs.locate (Dir entries) comps with
  | Fs.Found (File text) => IsFile text
  | Fs.Found (Dir _) => IsDir
  | _ => Nothing
  end.

(** Two directories hold the same tree: every relative path names the same
    thing in both. *)
Definition same_tree (t1 t2 : list (string * node)) : Prop :=
  forall comps : list string, kind_at t1 comps = kind_at t2 comps.

(** [p] is an initial segment of the path [c]. *)
Fixpoint initial (p c : list string) : bool :=
  match p, c with
  | [], _ => true
  | x :: p', y :: c' => String.eqb x y && initial p' c'
  | _ :: _, [] => false
  end.

(** Names as a file system has them: not empty, not the dot, without a
    slash; and no name twice in a directory. *)
Definition good_name (name : string) : bool :=
  negb (Fs.void name) && negb (Py.contains "/" name).

Fixpoint distinct (names : list string) : bool :=
  match names with
  | [] => true
  | n :: rest => negb (Py.mem n rest) && distinct rest
  end.

Fixpoint well_formed (x : node) : bool :=
  match x with
  | File _ => true
  | Dir entries =>
      distinct (map fst entries)
      && forallb (fun e => good_name (fst e) && well_formed (snd e)) entries
  end.

(** ** Notions the properties are stated with *)

(** A diagnostic of the checker: a first line that announces the error,
    followed by lines that announce none. *)
Definition diagnostic (lines : list string) : Prop :=
  exists first more,
    lines = first :: more
    /\ Py.startswith first "Error: " = true
    /\ Forall (fun l => Py.startswith l "Error:" = false) more.

(** How a run of the checker may end: at the end of the script or on an
    uncaught exception with nothing printed, or at [exit(1)] right after the
    lines of one diagnostic, everything before them being reads. *)
Definition orderly_end {A : Type} (run : list event * outcome A) : Prop :=
  match run with
  | (t, Returned _) => stdout t = []
  | (t, Exited status) =>
      status = 1%Z
      /\ exists reads lines,
           t = (reads ++ map Printed lines)%list
           /\ stdout reads = []
           /\ diagnostic lines
  | (t, Raised _) => stdout t = []
  end.

Definition orderly {A : Type} (s : script A) : Prop :=
  forall w : world, orderly_end (exec w s).

(** The entry of the working directory a path goes through. *)
Definition entry_of (path : string) : option string :=
  head (Fs.components path).

(** A script that never opens, walks or archives a path through the entry
    [d] of the working directory, whatever it reads elsewhere. *)
Inductive avoids {A : Type} (d : string) : script A -> Prop :=
| avoids_Ret a : avoids d (Ret a)
| avoids_Open path k c :
    entry_of path = Some c -> c <> d ->
    (forall text, avoids d (k text)) -> avoids d (Open path k)
| avoids_OsWalk top k c :
    entry_of top = Some c -> c <> d ->
    (forall items, avoids d (k items)) -> avoids d (OsWalk top k)
| avoids_JsonLoad path k :
    (forall info, avoids d (k info)) -> avoids d (JsonLoad path k)
| avoids_Print text k : avoids d k -> avoids d (Print text k)
| avoids_ZipWrite filename arcname k c :
    entry_of filename = Some c -> c <> d ->
    avoids d k -> avoids d (ZipWrite filename arcname k)
| avoids_Exit status : avoids d (Exit status)
| avoids_Raise e : avoids d (Raise e).

(** Two worlds that differ at most in the entry [d] of the working
    directory. *)
Definition agree_outside (d : string) (w w' : world) : Prop :=
  (forall name, name <> d -> Fs.lookup name (cwd w) = Fs.lookup name (cwd w'))
  /\ (forall path, descriptor w path = descriptor w' path).

Module Reach.

Import FlutterCheck.

(** The script up to line 156, where build.gradle is opened, for a run with
    the Android checks: its value is the descriptor. *)
Definition build_gradle (a : args) : script (gmap string string) :=
  version_check;;
  info <- json_load (app_info a);;
  android_manifest_checks info;;
  when (negb (skip_kotlin a)) (kotlin_checks info);;
  Ret info.

(** The script up to line 221, where the iOS block starts. *)
Definition ios (a : args) : script (gmap string string) :=
  version_check;;
  info <- json_load (app_info a);;
  when (negb (skip_android a)) (android_checks a info);;
  Ret info.

End Reach.

(** ** A sample project *)

Module Sample.

Definition nl : string := Py.chr Py.LF.

Definition woxxy : gmap string string :=
  <["name" := "Woxxy"]> (<["package" := "com.example.woxxy"]> ∅).

Definition woxxy_ios : gmap string string :=
  <["ios-package" := "org.woxxy.ios"]> woxxy.

Definition version_dart : string :=
  "// generated" +:+ nl +:+ "const String APP_VERSION = '1.0.0';" +:+ nl.

(** The marker in a comment: a line without any quote. *)
Definition version_dart_unquoted : string :=
  "// APP_VERSION is set by the release job" +:+ nl.

Definition pubspec (version : string) : string :=
  "name: woxxy" +:+ nl +:+ "version: " +:+ version +:+ nl +:+ "environment:" +:+ nl.

Definition pubspec_unversioned : string :=
  "name: woxxy" +:+ nl +:+ "environment:" +:+ nl.

Definition manifest : string :=
  "<manifest package='com.example.woxxy'><application android:label='Woxxy'/></manifest>".

Definition manifest_unlabelled : string :=
  "<manifest package='com.example.woxxy'><application/></manifest>".

Definition main_activity : string :=
  "package com.example.woxxy" +:+ nl
  +:+ "class MainActivity: FlutterFragmentActivity()" +:+ nl.

(** kotlin/com/example/woxxy/MainActivity.kt *)
Definition kotlin : list (string * node) :=
  [("com", Dir [("example", Dir [("woxxy", Dir [("MainActivity.kt", File main_activity)])])])].

(** kotlin/com/example/woxxy/woxxy/MainActivity.kt: the file is one
    directory too deep. *)
Definition kotlin_misplaced : list (string * node) :=
  [("com", Dir [("example", Dir [("woxxy",
      Dir [("woxxy", Dir [("MainActivity.kt", File main_activity)])])])])].

(** kotlin/com/example/woxxy/MainActivity.kt and an empty directory
    kotlin/com/example/woxxy/example next to it. *)
Definition kotlin_nested : list (string * node) :=
  [("com", Dir [("example", Dir [("woxxy",
      Dir [("MainActivity.kt", File main_activity); ("example", Dir [])])])])].

Definition gradle : string :=
  "def keystoreProperties = new Properties()" +:+ nl
  +:+ "android { signingConfigs { release { } }" +:+ nl
  +:+ "defaultConfig { applicationId 'com.example.woxxy' versionCode 7 } }" +:+ nl.

Definition gradle_unsigned : string :=
  "android { defaultConfig { applicationId 'com.example.woxxy' versionCode 7 } }" +:+ nl.

Definition android (debug_manifest : string) (kotlin : list (string * node))
    (gradle : string) : node :=
  Dir [("app", Dir [("src", Dir [("main", Dir [("AndroidManifest.xml", File manifest);
                                               ("kotlin", Dir kotlin)]);
                                 ("debug", Dir [("AndroidManifest.xml", File debug_manifest)])]);
                    ("build.gradle", File gradle)])].

Definition ios (pbxproj : string) : node :=
  Dir [("Runner", Dir [("Info.plist", File "<key>CFBundleName</key><string>Woxxy</string>")]);
       ("Runner.xcodeproj", Dir [("project.pbxproj", File pbxproj)])].

Definition lib (version_dart : string) : node :=
  Dir [("config", Dir [("version.dart", File version_dart)])].

(** A Windows release bundle: the executable, a data directory with one
    asset, and a directory that holds nothing. *)
Definition bundle : list (string * node) :=
  [("woxxy.exe", File "MZ");
   ("data", Dir [("app.so", File "ELF");
                 ("flutter_assets", Dir [("AssetManifest.json", File "{}")])]);
   ("logs", Dir [])].

Definition build (bundle : list (string * node)) : node :=
  Dir [("windows", Dir [("x64", Dir [("runner", Dir [("Release", Dir bundle)])])])].

Definition pbxproj : string := "PRODUCT_BUNDLE_IDENTIFIER = com.example.woxxy;".

Definition project (version_dart pubspec debug_manifest : string)
    (kotlin : list (string * node)) (gradle pbxproj : string)
    : list (string * node) :=
  [("lib", lib version_dart);
   ("pubspec.yaml", File pubspec);
   ("android", android debug_manifest kotlin gradle);
   ("ios", ios pbxproj);
   ("build", build bundle)].

(** [json.load(open(path))] in the samples: [app.json] holds the descriptor. *)
Definition load (info : gmap string string) (path : string)
    : option (gmap string string) :=
  if String.eqb path "app.json" then Some info else None.

(** The project with everything in order. *)
Definition good : world :=
  World (project version_dart (pubspec "1.0.0") manifest kotlin gradle pbxproj)
        (load woxxy).

(** The manifest says 1.0.1, the source 1.0.0. *)
Definition version_bumped : world :=
  World (project version_dart (pubspec "1.0.1") manifest kotlin gradle pbxproj)
        (load woxxy).

(** No version anywhere. *)
Definition unversioned : world :=
  World (project version_dart_unquoted pubspec_unversioned manifest kotlin gradle pbxproj)
        (load woxxy).

(** The debug manifest has the package but no label. *)
Definition debug_unlabelled : world :=
  World (project version_dart (pubspec "1.0.0") manifest_unlabelled kotlin gradle pbxproj)
        (load woxxy).

(** MainActivity.kt lies one directory below the package directory. *)
Definition misplaced : world :=
  World (project version_dart (pubspec "1.0.0") manifest kotlin_misplaced gradle pbxproj)
        (load woxxy).

(** MainActivity.kt is in place, next to an empty directory. *)
Definition nested : world :=
  World (project version_dart (pubspec "1.0.0") manifest kotlin_nested gradle pbxproj)
        (load woxxy).

(** The descriptor names an iOS bundle identifier of its own, which the
    project file does not hold. *)
Definition ios_renamed : world :=
  World (project version_dart (pubspec "1.0.0") manifest kotlin gradle pbxproj)
        (load woxxy_ios).

(** build.gradle without the signing directives. *)
Definition unsigned : world :=
  World (project version_dart (pubspec "1.0.0") manifest kotlin gradle_unsigned pbxproj)
        (load woxxy).

(** The same project after the android directory was deleted, and after
    the ios directory was replaced by a stray file. *)
Definition without_android : world :=
  World [("lib", lib version_dart);
         ("pubspec.yaml", File (pubspec "1.0.0"));
         ("ios", ios pbxproj);
         ("build", build bundle)]
        (load woxxy).

Definition broken_ios : world :=
  World [("lib", lib version_dart);
         ("pubspec.yaml", File (pubspec "1.0.0"));
         ("android", android manifest kotlin gradle);
         ("ios", File "not a directory");
         ("build", build bundle)]
        (load woxxy).

(** All checks on. *)
Definition all_checks : FlutterCheck.args := FlutterCheck.Args "app.json" false false false.

End Sample.

(** ** scripts/build_windows.py and scripts/build_linux.py: the version
    and the name of the archive *)

Module AppVersion.

Import Py.

(** [os.path.exists(path)]: something is there, file or directory. *)
Definition path_exists (root : list (string * node)) (path : string) : bool :=
  match Fs.locate (Dir root) (Fs.components path) with
  | Fs.Found _ => true
  | _ => false
  end.

(** build_windows.py lines 32-35, build_linux.py lines 31-34:
    [for line in f]; the result is the final value of the global
    [APP_VERSION]. *)
Fixpoint scan_app_version (lines : list string) (APP_VERSION : option string)
    : script (option string) :=
  match lines with
  | [] => Ret APP_VERSION
  | line :: rest =>
      if contains "const String APP_VERSION" line then
        version <- index (split SQUOTE line) 1;;
        Ret (Some version)
      else scan_app_version rest APP_VERSION
  end.

(** [f"{APP_VERSION}"]: the string itself, or [None] spelled out. *)
Definition format (APP_VERSION : option string) : string :=
  match APP_VERSION with
  | Some version => version
  | None => "None"
  end.

(** build_windows.py lines 29-37, build_linux.py lines 28-36:
    [get_app_version], for the suffix the script gives the archive; the
    result is the pair of the globals [APP_VERSION] and [FINAL_ZIP] it
    leaves, [APP_VERSION] being [None] before the call. *)
Definition get_app_version_for (suffix : string) : script (option string * string) :=
  version_dart <- open_read "lib/config/version.dart";;
  APP_VERSION <- scan_app_version (readlines version_dart) None;;
  Ret (APP_VERSION, "woxxy-" +:+ format APP_VERSION +:+ suffix).

(** build_windows.py lines 23-26, build_linux.py lines 22-25, followed by
    the call of [get_app_version] that opens [__main__]: the script leaves
    with status 1 when it is not started in the root of the project. *)
Definition start_for (suffix : string) (w : world)
    : list event * outcome (option string * string) :=
  if negb (path_exists (cwd w) "lib/config/version.dart")
  then ([Printed "Please run this script from the root of the project."], Exited 1)
  else exec w (get_app_version_for suffix).

End AppVersion.

Module BuildWindowsStart.

(** build_windows.py, lines 29-37. *)
Definition get_app_version : script (option string * string) :=
  AppVersion.get_app_version_for "-windows-x64.zip".

(** build_windows.py, lines 23-26 and 68. *)
Definition start : world -> list event * outcome (option string * string) :=
  AppVersion.start_for "-windows-x64.zip".

End BuildWindowsStart.

Module BuildLinuxStart.

(** build_linux.py, lines 28-36. *)
Definition get_app_version : script (option string * string) :=
  AppVersion.get_app_version_for "-linux-x64.tar.bz2".

(** build_linux.py, lines 22-25 and 69. *)
Definition start : world -> list event * outcome (option string * string) :=
  AppVersion.start_for "-linux-x64.tar.bz2".

End BuildLinuxStart.

(** ** scripts/build_linux.py: the archive of the release folder *)

Module Tar.

(** A member of a tar archive: a directory or a regular file, under its
    name.  Links and special files are outside the model. *)
Inductive member : Type :=
| Directory (name : string)
| Regular (name text : string).

Definition name_of (m : member) : string :=
  match m with
  | Directory name => name
  | Regular name _ => name
  end.

(** [tar c name] where [name] names [x]: a directory goes in under its
    name followed by a slash, and after it what it holds, entry by entry in
    the order of the listing; a file goes in under its name. *)
Fixpoint create (name : string) (x : node) : list member :=
  match x with
  | File text => [Regular name text]
  | Dir entries =>
      Directory (name +:+ "/")
      :: flat_map (fun e => create (name +:+ "/" +:+ fst e) (snd e)) entries
  end.

(** Where a member goes when the archive is unpacked: the components of its
    name, and its text when it is a file. *)
Definition target (m : member) : list string * option string :=
  match m with
  | Directory name => (Fs.components name, None)
  | Regular name text => (Fs.components name, Some text)
  end.

(** [mkdir -p] *)
Fixpoint make_dir (comps : list string) (entries : list (string * node))
    : option (list (string * node)) :=
  match comps with
  | [] => Some entries
  | name :: rest =>
      match Fs.lookup name entries with
      | Some (File _) => None
      | Some (Dir sub) =>
          sub' ← make_dir rest sub; Some (Unzip.put name (Dir sub') entries)
      | None =>
          sub' ← make_dir rest []; Some (Unzip.put name (Dir sub') entries)
      end
  end.

Definition place (t : list string * option string) (entries : list (string * node))
    : option (list (string * node)) :=
  match snd t with
  | None => make_dir (fst t) entries
  | Some text => Unzip.write_file (fst t) text entries
  end.

Fixpoint extract_into (targets : list (list string * option string))
    (entries : list (string * node)) : option (list (string * node)) :=
  match targets with
  | [] => Some entries
  | t :: rest => entries' ← place t entries; extract_into rest entries'
  end.

(** [tar x] in an empty directory: the members are unpacked one after the
    other; a file where a directory is needed, or a directory where a file
    should go, stops the extraction. *)
Definition extract (members : list member) : option (list (string * node)) :=
  extract_into (map target members) [].

(** What a tree holds, by the path from its root: [None] for a directory,
    the text for a file. *)
Fixpoint listing (x : node) : list (list string * option string) :=
  match x with
  | File text => [([], Some text)]
  | Dir entries =>
      ([], None)
      :: flat_map (fun e => map (fun t => (fst e :: fst t, snd t)) (listing (snd e)))
           entries
  end.

(** The member that brings in what is at the path [fst t] below the
    directory named by the components [top]. *)
Definition named (top : list string) (t : list string * option string) : member :=
  match snd t with
  | Some text => Regular (Py.join "/" (top ++ fst t)) text
  | None => Directory (Py.join "/" (top ++ fst t) +:+ "/")
  end.

End Tar.

Module BuildLinux.

Definition BASE_DIR : string := "build/linux/x64/release/bundle".

(** Lines 45-58.  The value is the archive that the [tar] process, started
    in the release folder on [.], writes to [current_dir/FINAL_ZIP], which
    lies outside the folder; with the option [v] it lists the names of the
    members on standard output.  [os.system] does not look at how the
    command ended, and [os.chdir] fails on a file. *)
Definition zip_release_folder (w : world) : list event * outcome (list Tar.member) :=
  if negb (AppVersion.path_exists (cwd w) BASE_DIR)
  then ([Printed "Release folder not found. Please run the build_linux() function first."],
        Exited 1)
  else
    match Fs.locate (Dir (cwd w)) (Fs.components BASE_DIR) with
    | Fs.Found (Dir bundle) =>
        let members := Tar.create "." (Dir bundle) in
        (map (fun m => Printed (Tar.name_of m)) members, Returned members)
    | _ => ([], Raised (NotADirectoryError BASE_DIR))
    end.

End BuildLinux.

(** ** More notions the properties are stated with *)

(** A script that opens and archives only files whose path satisfies [R]
    and walks only directories whose path satisfies [W]. *)
Inductive confined {A : Type} (R W : string -> Prop) : script A -> Prop :=
| confined_Ret a : confined R W (Ret a)
| confined_Open path k :
    R path -> (forall text, confined R W (k text)) -> confined R W (Open path k)
| confined_OsWalk top k :
    W top -> (forall items, confined R W (k items)) -> confined R W (OsWalk top k)
| confined_JsonLoad path k :
    (forall info, confined R W (k info)) -> confined R W (JsonLoad path k)
| confined_Print text k : confined R W k -> confined R W (Print text k)
| confined_ZipWrite filename arcname k :
    R filename -> confined R W k -> confined R W (ZipWrite filename arcname k)
| confined_Exit status : confined R W (Exit status)
| confined_Raise e : confined R W (Raise e).

(** Two worlds that give the same to whoever opens a path that satisfies
    [R] or walks one that satisfies [W], and that hold the same
    descriptors. *)
Definition agree_on (R W : string -> Prop) (w w' : world) : Prop :=
  (forall path, R path -> Fs.read (cwd w) path = Fs.read (cwd w') path)
  /\ (forall top, W top -> Fs.walk (cwd w) top = Fs.walk (cwd w') top)
  /\ (forall path, descriptor w path = descriptor w' path).

(** The files the checker can open when the Kotlin block is off. *)
Definition fixed_artifacts : list string :=
  ["lib/config/version.dart"; "pubspec.yaml";
   "android/app/src/main/AndroidManifest.xml";
   "android/app/src/debug/AndroidManifest.xml";
   "android/app/build.gradle";
   "ios/Runner/Info.plist";
   "ios/Runner.xcodeproj/project.pbxproj"].

(** The directories named in the items of a walk, in order. *)
Definition walked_dirs (items : list Fs.walk_item) : list string :=
  flat_map (fun item => snd (fst item)) items.

(** The paths of the files named in the items of a walk, in order. *)
Definition walked_files (items : list Fs.walk_item) : list string :=
  flat_map (fun item => map (Fs.path_join (fst (fst item))) (snd item)) items.

(** The files of the last item of a walk. *)
Definition last_files (items : list Fs.walk_item) : option (list string) :=
  List.last (map (fun item => Some (snd item)) items) None.

(** What the checker asks of the artifacts, block by block, as the tests
    of the source put it. *)
Module Accepts.

Definition manifests (name package android_manifest android_debug_manifest : string)
    : bool :=
  Py.contains name android_manifest
  && Py.contains package android_manifest
  && Py.contains package android_debug_manifest.

Definition kotlin (package : string) (android_dir_tree : list Fs.walk_item)
    (main_activity : string) : bool :=
  forallb (fun dir => Py.mem dir (Py.split "." package)) (walked_dirs android_dir_tree)
  && match last_files android_dir_tree with
     | Some files => Py.mem "MainActivity.kt" files
     | None => false
     end
  && Py.contains package main_activity
  && Py.contains "FlutterFragmentActivity" main_activity.

Definition build_gradle (package build_gradle : string) : bool :=
  Py.contains "keystoreProperties" build_gradle
  && Py.contains "signingConfigs {" build_gradle
  && Py.contains package build_gradle
  && negb (Py.contains "flutterVersionCode.toInteger()" build_gradle).

Definition ios (name pname info_plist project_pbxproj : string) : bool :=
  Py.contains name info_plist && Py.contains pname project_pbxproj.

End Accepts.

(** ** The checks of the checker, one by one *)

Module Checklist.

Import Py FlutterCheck.

(** A check: whether it passes, and the lines it prints when it does
    not. *)
Record check : Type := Check {
  passes : bool;
  report : list string
}.

(** What the checks look at: the text of a file that can be read, the
    value of a key that the descriptor has, the value that a loop of the
    version check leaves. *)
Definition text (w : world) (path : string) : string :=
  match Fs.read (cwd w) path with
  | inr s => s
  | inl _ => EmptyString
  end.

Definition value (info : gmap string string) (key : string) : string :=
  default EmptyString (info !! key).

Definition token (s : script string) : string :=
  match s with
  | Ret v => v
  | _ => EmptyString
  end.

(** Lines 69-73. *)
Definition version (VERSION_DART VERSION_PUBSPEC : string) : list check :=
  [Check (String.eqb VERSION_DART VERSION_PUBSPEC)
     ["Error: version number in version.dart and pubspec.yaml are different";
      "       version.dart: " +:+ VERSION_DART;
      "       pubspec.yaml: " +:+ VERSION_PUBSPEC]].

(** Lines 84-107, in the order of the source.  The second check tests
    [android_manifest], as line 90 does. *)
Definition manifests (name package android_manifest android_debug_manifest : string)
    : list check :=
  [Check (contains name android_manifest)
     ["Error: app name not found in main / AndroidManifest.xml (android:label)";
      "       check: android/app/src/main/AndroidManifest.xml"];
   Check (contains name android_manifest)
     ["Error: app name not found in debug / AndroidManifest.xml (android:label)";
      "       check: android/app/src/debug/AndroidManifest.xml"];
   Check (contains package android_manifest)
     ["Error: package name not found in main / AndroidManifest.xml (package)";
      "       check: android/app/src/main/AndroidManifest.xml"];
   Check (contains package android_debug_manifest)
     ["Error: package name not found in debug / AndroidManifest.xml (package)";
      "       check: android/app/src/debug/AndroidManifest.xml"]].

(** Lines 123-127: the check of one directory name. *)
Definition folder (split_package : list string) (dir : string) : check :=
  Check (mem dir split_package)
    ["Error: package name not found in folder structure (android/app/src/main/kotlin/"
     +:+ dir +:+ ")"].

(** Lines 113-154: one check for each directory name of the walk, in the
    order of the walk, then the three checks of MainActivity.kt; the first
    of them looks at the files of the last item of the walk, as line 131
    does. *)
Definition kotlin (package : string) (android_dir_tree : list Fs.walk_item)
    (main_activity : string) : list check :=
  let dname := "android/app/src/main/kotlin/" +:+ replace "." "/" package in
  map (folder (split "." package)) (walked_dirs android_dir_tree)
  ++ [Check (mem "MainActivity.kt" (default [] (last_files android_dir_tree)))
        ["Error: MainActivity.kt not found in android/app/src/main/kotlin/"];
      Check (contains package main_activity)
        ["Error: package name not found in MainActivity.kt (package " +:+ package +:+ ")"];
      Check (contains "FlutterFragmentActivity" main_activity)
        ["Error: FlutterFragmentActivity not found in MainActivity.kt";
         "       check: android/app/src/main/kotlin/" +:+ dname +:+ "/MainActivity.kt"]].

(** Lines 158-218. *)
Definition build_gradle (package build_gradle : string) : list check :=
  [Check (contains "keystoreProperties" build_gradle)
     ["Error: keystoreProperties not found in android/app/build.gradle";
      keystore_snippet];
   Check (contains "signingConfigs {" build_gradle)
     ["Error: signingConfigs not found in android/app/build.gradle";
      signing_snippet];
   Check (contains package build_gradle)
     ["Error: package name not found in android/app/build.gradle (applicationId "
      +:+ package +:+ ")"];
   Check (negb (contains "flutterVersionCode.toInteger()" build_gradle))
     ["Error: versionCode must be a real number in android/app/build.gradle";
      "       check: android/app/build.gradle  - change flutterVersionCode.toInteger() to a real number"]].

(** Lines 223-243. *)
Definition ios (name pname info_plist project_pbxproj : string) : list check :=
  [Check (contains name info_plist)
     ["Error: app name not found in Info.plist (CFBundleDisplayName / CFBundleName)";
      "       check: ios/Runner/Info.plist"];
   Check (contains pname project_pbxproj)
     ["Error: app name '" +:+ pname
      +:+ "' not found in ios/Runner.xcodeproj/project.pbxproj (PRODUCT_NAME and PRODUCT_BUNDLE_IDENTIFIER)"]].

(** Lines 82-218. *)
Definition android (a : args) (w : world) (info : gmap string string) : list check :=
  manifests (value info "name") (value info "package")
    (text w "android/app/src/main/AndroidManifest.xml")
    (text w "android/app/src/debug/AndroidManifest.xml")
  ++ (if skip_kotlin a then []
      else kotlin (value info "package")
             (Fs.walk (cwd w) "android/app/src/main/kotlin/")
             (text w (("android/app/src/main/kotlin/"
                       +:+ replace "." "/" (value info "package"))
                      +:+ "/MainActivity.kt")))
  ++ build_gradle (value info "package") (text w "android/app/build.gradle").






End Checklist.

(** ** More samples *)

Module Cases.

Import Sample.

(** A descriptor without the key [name], and one with nothing but an iOS
    identifier and a name. *)
Definition nameless : gmap string string :=
  <["package" := "com.example.woxxy"]> ∅.

Definition ios_only : gmap string string :=
  <["name" := "Woxxy"]> (<["ios-package" := "org.woxxy.ios"]> ∅).

(** kotlin/com/example/woxxy/MainActivity.kt next to kotlin/com/legacy and
    kotlin/com/example/woxxy/tmp. *)
Definition kotlin_stray : list (string * node) :=
  [("com", Dir [("legacy", Dir []);
                ("example", Dir [("woxxy",
                   Dir [("MainActivity.kt", File main_activity); ("tmp", Dir [])])])])].

Definition main_activity_plain : string :=
  "package com.example.woxxy" +:+ nl +:+ "class MainActivity: FlutterActivity()" +:+ nl.

Definition kotlin_plain : list (string * node) :=
  [("com", Dir [("example", Dir [("woxxy",
      Dir [("MainActivity.kt", File main_activity_plain)])])])].

Definition gradle_placeholder : string :=
  "def keystoreProperties = new Properties()" +:+ nl
  +:+ "android { signingConfigs { release { } }" +:+ nl
  +:+ "defaultConfig { applicationId 'com.example.woxxy' versionCode flutterVersionCode.toInteger() } }"
  +:+ nl.

Definition manifest_other : string :=
  "<manifest package='org.other.app'><application android:label='Woxxy'/></manifest>".

(** The version in double quotes. *)
Definition version_dart_double : string :=
  "const String APP_VERSION = " +:+ Py.chr Py.DQUOTE +:+ "1.0.0"
  +:+ Py.chr Py.DQUOTE +:+ ";" +:+ nl.

(** The version with a blank before the closing quote. *)
Definition version_dart_blank : string :=
  "const String APP_VERSION = '1.0.0 ';" +:+ nl.

Definition with_kotlin (kotlin : list (string * node)) : world :=
  World (project version_dart (pubspec "1.0.0") manifest kotlin gradle pbxproj)
        (load woxxy).

Definition with_descriptor (info : gmap string string) : world :=
  World (project version_dart (pubspec "1.0.0") manifest kotlin gradle pbxproj)
        (load info).

Definition with_gradle (gradle : string) : world :=
  World (project version_dart (pubspec "1.0.0") manifest kotlin gradle pbxproj)
        (load woxxy).

Definition with_debug_manifest (debug_manifest : string) : world :=
  World (project version_dart (pubspec "1.0.0") debug_manifest kotlin gradle pbxproj)
        (load woxxy).

Definition with_version_dart (version_dart : string) : world :=
  World (project version_dart (pubspec "1.0.0") manifest kotlin gradle pbxproj)
        (load woxxy).

(** The project before anything was built: no build directory. *)
Definition unbuilt : world :=
  World [("lib", lib version_dart);
         ("pubspec.yaml", File (pubspec "1.0.0"));
         ("android", android manifest kotlin gradle);
         ("ios", ios pbxproj)]
        (load woxxy).

(** The project without its kotlin directory. *)
Definition without_kotlin : world :=
  World [("lib", lib version_dart);
         ("pubspec.yaml", File (pubspec "1.0.0"));
         ("android",
          Dir [("app", Dir [("src", Dir [("main", Dir [("AndroidManifest.xml", File manifest)]);
                                         ("debug", Dir [("AndroidManifest.xml", File manifest)])]);
                            ("build.gradle", File gradle)])]);
         ("ios", ios pbxproj)]
        (load woxxy).

(** The project after the Linux build: the same bundle, where the Linux
    packager looks for it. *)
Definition built_for_linux : world :=
  World [("lib", lib version_dart);
         ("pubspec.yaml", File (pubspec "1.0.0"));
         ("build",
          Dir [("linux", Dir [("x64", Dir [("release", Dir [("bundle", Dir bundle)])])])])]
        (load woxxy).

(** A directory that is not the root of a project. *)
Definition elsewhere : world :=
  World [("notes.txt", File "nothing to build here")] (load woxxy).

End Cases.

(** ** The version tokens, as the text of the two files shows them *)

Module Token.

(** [token] is the text of [line] between its first [q] and the next one,
    or the end of the line when the first [q] is the only one. *)
Definition between (q : ascii) (line token : string) : Prop :=
  exists before after,
    line = before +:+ String q (token +:+ after)
    /\ Py.contains (Py.chr q) before = false
    /\ Py.contains (Py.chr q) token = false
    /\ (after = EmptyString \/ exists rest, after = String q rest).

(** [found] is the first of the [lines] that is [marked], if there is
    one. *)
Definition first_line (marked : string -> bool) (lines : list string)
    (found : option string) : Prop :=
  match found with
  | Some line =>
      exists before after,
        lines = before ++ line :: after
        /\ Forall (fun l => marked l = false) before
        /\ marked line = true
  | None => Forall (fun l => marked l = false) lines
  end.

(** The version token of version.dart: on the first line that holds
    [APP_VERSION], the text between the first two single quotes; when the
    line has no single quote, the text between the first two double quotes;
    the empty string when the line has no quote at all, or when no line
    holds the marker. *)
Definition version_dart (text token : string) : Prop :=
  exists found,
    first_line (Py.contains "APP_VERSION") (Py.readlines text) found
    /\ match found with
       | Some line =>
           between Py.SQUOTE line token
           \/ (Py.contains (Py.chr Py.SQUOTE) line = false
               /\ between Py.DQUOTE line token)
           \/ (Py.contains (Py.chr Py.SQUOTE) line = false
               /\ Py.contains (Py.chr Py.DQUOTE) line = false
               /\ token = EmptyString)
       | None => token = EmptyString
       end.

(** The version token of pubspec.yaml: on the first line that starts with
    [version:], the text between the first colon and the next one (or the
    end of the line), without the white space at its two ends; the empty
    string when no line starts with [version:]. *)
Definition pubspec (text token : string) : Prop :=
  exists found,
    first_line (fun line => Py.startswith line "version:") (Py.readlines text) found
    /\ match found with
       | Some line => exists field, between ":" line field /\ token = Py.strip field
       | None => token = EmptyString
       end.

End Token.

(** ** Runs of composed scripts *)

Section Exec.

Context {A B : Type}.

(** What follows a script runs only when the script returned: [exit] and an
    uncaught exception end the run where they happen. *)
Lemma exec_bind (w : world) (m : script A) (f : A -> script B) :
  exec w (bind m f) =
  match exec w m with
  | (t, Returned a) => let '(t', r) := exec w (f a) in (t ++ t', r)
  | (t, Exited status) => (t, Exited status)
  | (t, Raised e) => (t, Raised e)
  end.
Proof.
  induction m as [a|path k IH|top k IH|path k IH|text k IH
                  |filename arcname k IH|status|e]; simpl.
  - destruct (exec w (f a)); reflexivity.
  - destruct (Fs.read (cwd w) path) as [e|text]; [reflexivity|].
    rewrite IH. destruct (exec w (k text)) as [t [a|status|e]];
      try reflexivity. destruct (exec w (f a)); reflexivity.
  - rewrite IH. destruct (exec w (k _)) as [t [a|status|e]];
      try reflexivity. destruct (exec w (f a)); reflexivity.
  - destruct (descriptor w path) as [d|]; [|reflexivity].
    rewrite IH. destruct (exec w (k d)) as [t [a|status|e]];
      try reflexivity. destruct (exec w (f a)); reflexivity.
  - rewrite IH. destruct (exec w k) as [t [a|status|e]];
      try reflexivity. destruct (exec w (f a)); reflexivity.
  - destruct (Fs.read (cwd w) filename) as [e|text]; [reflexivity|].
    rewrite IH. destruct (exec w k) as [t [a|status|e]];
      try reflexivity. destruct (exec w (f a)); reflexivity.
  - reflexivity.
  - reflexivity.
Qed.

Lemma exec_bind_returned (w : world) (m : script A) (f : A -> script B) t a :
  exec w m = (t, Returned a) ->
  exec w (bind m f) = (t ++ fst (exec w (f a)), snd (exec w (f a))).
Proof.
  intros H. rewrite exec_bind, H. destruct (exec w (f a)); reflexivity.
Qed.

Lemma exec_bind_exited (w : world) (m : script A) (f : A -> script B) t status :
  exec w m = (t, Exited status) -> exec w (bind m f) = (t, Exited status).
Proof. intros H. rewrite exec_bind, H. reflexivity. Qed.

Lemma exec_bind_raised (w : world) (m : script A) (f : A -> script B) t e :
  exec w m = (t, Raised e) -> exec w (bind m f) = (t, Raised e).
Proof. intros H. rewrite exec_bind, H. reflexivity. Qed.

End Exec.

Lemma exec_bind_ext {A B : Type} (w : world) (m : script A)
    (f g : A -> script B) :
  (forall a, exec w (f a) = exec w (g a)) ->
  exec w (bind m f) = exec w (bind m g).
Proof.
  intros H. rewrite !exec_bind.
  destruct (exec w m) as [t [a|status|e]]; try reflexivity.
  rewrite H. reflexivity.
Qed.

Lemma exec_bind_assoc {A B C : Type} (w : world) (m : script A)
    (f : A -> script B) (g : B -> script C) :
  exec w (bind (bind m f) g) = exec w (bind m (fun a => bind (f a) g)).
Proof.
  rewrite (exec_bind w (bind m f) g), (exec_bind w m f),
    (exec_bind w m (fun a => bind (f a) g)).
  destruct (exec w m) as [t [a|status|e]]; try reflexivity.
  rewrite (exec_bind w (f a) g).
  destruct (exec w (f a)) as [t' [b|status|e]]; try reflexivity.
  destruct (exec w (g b)) as [t'' r]. rewrite app_assoc. reflexivity.
Qed.

Lemma stdout_app (t t' : list event) : stdout (t ++ t') = stdout t ++ stdout t'.
Proof. unfold stdout. rewrite !flat_map_concat_map, map_app, concat_app. reflexivity. Qed.

Lemma touched_app (t t' : list event) : touched (t ++ t') = touched t ++ touched t'.
Proof. unfold touched. rewrite !flat_map_concat_map, map_app, concat_app. reflexivity. Qed.


(** ** Facts about the string operations *)

Module PyFacts.

Import Py.

Lemma split_not_nil (sep : ascii) (s : string) : split sep s <> [].
Proof.
  induction s as [|c s IH]; simpl; [discriminate|].
  destruct (Ascii.eqb c sep); [discriminate|].
  destruct (split sep s); discriminate.
Qed.

Lemma prefix_chr (c d : ascii) (s : string) :
  String.prefix (chr c) (String d s) = Ascii.eqb c d.
Proof.
  simpl. destruct (ascii_dec c d) as [->|Hne].
  - rewrite Ascii.eqb_refl. destruct s; reflexivity.
  - symmetry. apply Ascii.eqb_neq. exact Hne.
Qed.

(** A separator that occurs leaves at least two pieces: [split(sep)[1]]
    exists. *)
Lemma split_second (sep : ascii) (s : string) :
  contains (chr sep) s = true ->
  exists piece, nth_error (split sep s) 1 = Some piece.
Proof.
  induction s as [|c s IH]; [discriminate|].
  cbn [contains split]. rewrite prefix_chr, Ascii.eqb_sym.
  destruct (Ascii.eqb c sep) eqn:Hc; cbn [orb].
  - intros _. destruct (split sep s) as [|p ps] eqn:Hs.
    + destruct (split_not_nil _ _ Hs).
    + exists p. reflexivity.
  - intros H. destruct (IH H) as [piece Hpiece].
    destruct (split sep s) as [|p ps]; [discriminate|].
    exists piece. exact Hpiece.
Qed.

Lemma prefix_append (p s : string) :
  String.prefix p s = true -> exists rest, s = p +:+ rest.
Proof.
  revert s. induction p as [|c p IH]; intros s H.
  - exists s. reflexivity.
  - destruct s as [|d s]; [discriminate|]. simpl in H.
    destruct (ascii_dec c d) as [->|]; [|discriminate].
    destruct (IH s H) as [rest ->]. exists rest. reflexivity.
Qed.

Lemma prefix_contains (p s : string) :
  String.prefix p s = true -> contains p s = true.
Proof. intros H. destruct s; cbn [contains]; rewrite H; reflexivity. Qed.

Lemma contains_append (sub a b : string) :
  contains sub b = true -> contains sub (a +:+ b) = true.
Proof.
  intros H. induction a as [|c a IH]; [exact H|].
  change (String c a +:+ b) with (String c (a +:+ b)).
  cbn [contains]. rewrite IH. apply orb_true_r.
Qed.

End PyFacts.

(** ** The version check *)

Import FlutterCheck.

Lemma scan_version_dart_returns (lines : list string) :
  exists v, scan_version_dart lines = Ret v.
Proof.
  induction lines as [|line rest IH]; simpl; [eexists; reflexivity|].
  destruct (Py.contains "APP_VERSION" line); [|exact IH].
  destruct (Py.contains (Py.chr Py.SQUOTE) line) eqn:Hs.
  { destruct (PyFacts.split_second _ _ Hs) as [v Hv].
    exists v. unfold index. rewrite Hv. reflexivity. }
  destruct (Py.contains (Py.chr Py.DQUOTE) line) eqn:Hd.
  { destruct (PyFacts.split_second _ _ Hd) as [v Hv].
    exists v. unfold index. rewrite Hv. reflexivity. }
  eexists; reflexivity.
Qed.

Lemma scan_version_pubspec_returns (lines : list string) :
  exists v, scan_version_pubspec lines = Ret v.
Proof.
  induction lines as [|line rest IH]; simpl; [eexists; reflexivity|].
  destruct (Py.startswith line "version:") eqn:Hp; [|exact IH].
  assert (Hc : Py.contains (Py.chr ":") line = true).
  { destruct (PyFacts.prefix_append _ _ Hp) as [tail ->].
    apply (PyFacts.contains_append _ "version" (String ":" tail)).
    cbn [Py.contains]. rewrite PyFacts.prefix_chr. reflexivity. }
  destruct (PyFacts.split_second _ _ Hc) as [v Hv].
  exists (Py.strip v). unfold index. rewrite Hv. reflexivity.
Qed.

(** Both loops stop at the first line that matches: the lines before it
    and after it do not count. *)
Lemma scan_version_dart_first (before after : list string) (line : string) :
  Forall (fun l => Py.contains "APP_VERSION" l = false) before ->
  Py.contains "APP_VERSION" line = true ->
  scan_version_dart (before ++ line :: after) = scan_version_dart [line].
Proof.
  intros Hb Hl. induction Hb as [|l ls Hl' _ IH]; simpl.
  - rewrite Hl. reflexivity.
  - rewrite Hl'. exact IH.
Qed.

Lemma scan_version_pubspec_first (before after : list string) (line : string) :
  Forall (fun l => Py.startswith l "version:" = false) before ->
  Py.startswith line "version:" = true ->
  scan_version_pubspec (before ++ line :: after) = scan_version_pubspec [line].
Proof.
  intros Hb Hl. induction Hb as [|l ls Hl' _ IH]; simpl.
  - rewrite Hl. reflexivity.
  - rewrite Hl'. exact IH.
Qed.

Lemma scan_version_dart_none (lines : list string) :
  Forall (fun l => Py.contains "APP_VERSION" l = false) lines ->
  scan_version_dart lines = Ret EmptyString.
Proof.
  intros H. induction H as [|l ls Hl _ IH]; simpl; [reflexivity|].
  rewrite Hl. exact IH.
Qed.

Lemma scan_version_pubspec_none (lines : list string) :
  Forall (fun l => Py.startswith l "version:" = false) lines ->
  scan_version_pubspec lines = Ret EmptyString.
Proof.
  intros H. induction H as [|l ls Hl _ IH]; simpl; [reflexivity|].
  rewrite Hl. exact IH.
Qed.

(** The run of the version check once the two files are read and the two
    loops have left their values. *)
Lemma exec_version_check (w : world) (dart pubspec vd vp : string) :
  Fs.read (cwd w) "lib/config/version.dart" = inr dart ->
  Fs.read (cwd w) "pubspec.yaml" = inr pubspec ->
  scan_version_dart (Py.readlines dart) = Ret vd ->
  scan_version_pubspec (Py.readlines pubspec) = Ret vp ->
  exec w version_check =
  if String.eqb vd vp
  then ([Opened "lib/config/version.dart"; Opened "pubspec.yaml"], Returned tt)
  else ([Opened "lib/config/version.dart"; Opened "pubspec.yaml";
         Printed "Error: version number in version.dart and pubspec.yaml are different";
         Printed ("       version.dart: " +:+ vd);
         Printed ("       pubspec.yaml: " +:+ vp)], Exited 1).
Proof.
  intros Hd Hp Hvd Hvp. unfold version_check, open_read.
  cbn [bind exec]. rewrite Hd, Hvd. cbn [bind exec]. rewrite Hp, Hvp.
  cbn [bind exec]. destruct (String.eqb vd vp); reflexivity.
Qed.

Lemma flutter_check_proceeds (a : args) (w : world) (t : list event) :
  exec w version_check = (t, Returned tt) ->
  exec w (flutter_check a)
  = (t ++ fst (exec w (platform_checks a)), snd (exec w (platform_checks a))).
Proof.
  intros H.
  exact (exec_bind_returned w version_check (fun _ => platform_checks a) t tt H).
Qed.

(** The run of the checker through the version check. *)
Lemma exec_flutter_check_version (a : args) (w : world) (dart pubspec vd vp : string) :
  Fs.read (cwd w) "lib/config/version.dart" = inr dart ->
  Fs.read (cwd w) "pubspec.yaml" = inr pubspec ->
  scan_version_dart (Py.readlines dart) = Ret vd ->
  scan_version_pubspec (Py.readlines pubspec) = Ret vp ->
  exec w (flutter_check a) =
  if String.eqb vd vp
  then ([Opened "lib/config/version.dart"; Opened "pubspec.yaml"]
          ++ fst (exec w (platform_checks a)),
        snd (exec w (platform_checks a)))
  else ([Opened "lib/config/version.dart"; Opened "pubspec.yaml";
         Printed "Error: version number in version.dart and pubspec.yaml are different";
         Printed ("       version.dart: " +:+ vd);
         Printed ("       pubspec.yaml: " +:+ vp)], Exited 1).
Proof.
  intros Hd Hp Hvd Hvp.
  pose proof (exec_version_check w dart pubspec vd vp Hd Hp Hvd Hvp) as Hrun.
  destruct (String.eqb vd vp).
  - apply flutter_check_proceeds. exact Hrun.
  - exact (exec_bind_exited w version_check (fun _ => platform_checks a) _ _ Hrun).
Qed.

(** C9. Whatever the command line, the skip flags included, two version
    tokens that differ end the run with status 1 after the three lines
    that give both values: the two version files are the only artifacts
    touched, and the descriptor is not even loaded. *)
Theorem version_mismatch_before_platforms
    (path : string) (no_ios no_android no_kotlin : bool)
    (w : world) (dart pubspec VERSION_DART VERSION_PUBSPEC : string) :
  Fs.read (cwd w) "lib/config/version.dart" = inr dart ->
  Fs.read (cwd w) "pubspec.yaml" = inr pubspec ->
  scan_version_dart (Py.readlines dart) = Ret VERSION_DART ->
  scan_version_pubspec (Py.readlines pubspec) = Ret VERSION_PUBSPEC ->
  VERSION_DART <> VERSION_PUBSPEC ->
  let run := exec w (flutter_check (Args path no_ios no_android no_kotlin)) in
  run = ([Opened "lib/config/version.dart"; Opened "pubspec.yaml";
          Printed "Error: version number in version.dart and pubspec.yaml are different";
          Printed ("       version.dart: " +:+ VERSION_DART);
          Printed ("       pubspec.yaml: " +:+ VERSION_PUBSPEC)], Exited 1)
  /\ exit_status (snd run) = 1%Z
  /\ stdout (fst run)
     = ["Error: version number in version.dart and pubspec.yaml are different";
        "       version.dart: " +:+ VERSION_DART;
        "       pubspec.yaml: " +:+ VERSION_PUBSPEC]
  /\ touched (fst run) = ["lib/config/version.dart"; "pubspec.yaml"].
Proof.
  intros Hd Hp Hvd Hvp Hne run. subst run.
  rewrite (exec_flutter_check_version _ w dart pubspec _ _ Hd Hp Hvd Hvp).
  apply String.eqb_neq in Hne. rewrite Hne.
  repeat split.
Qed.

Lemma version_mismatch_before_platforms_witness :
  exec Sample.version_bumped (flutter_check (Args "app.json" true true true))
  = ([Opened "lib/config/version.dart"; Opened "pubspec.yaml";
      Printed "Error: version number in version.dart and pubspec.yaml are different";
      Printed "       version.dart: 1.0.0";
      Printed "       pubspec.yaml: 1.0.1"], Exited 1).
Proof.
  apply (version_mismatch_before_platforms "app.json" true true true
           Sample.version_bumped Sample.version_dart (Sample.pubspec "1.0.1")
           "1.0.0" "1.0.1").
  - reflexivity.
  - reflexivity.
  - reflexivity.
  - reflexivity.
  - discriminate.
Defined.

(** C10. When no line of version.dart holds the marker, or the first one
    that does holds no quote of either kind, and no line of pubspec.yaml
    starts with [version:], both tokens are the empty string, the version
    check reports nothing and the checker goes on. *)
Theorem version_markers_absent (w : world) (dart pubspec : string) :
  Fs.read (cwd w) "lib/config/version.dart" = inr dart ->
  Fs.read (cwd w) "pubspec.yaml" = inr pubspec ->
  (Forall (fun l => Py.contains "APP_VERSION" l = false) (Py.readlines dart)
   \/ exists before line after,
        Py.readlines dart = before ++ line :: after
        /\ Forall (fun l => Py.contains "APP_VERSION" l = false) before
        /\ Py.contains "APP_VERSION" line = true
        /\ Py.contains (Py.chr Py.SQUOTE) line = false
        /\ Py.contains (Py.chr Py.DQUOTE) line = false) ->
  Forall (fun l => Py.startswith l "version:" = false) (Py.readlines pubspec) ->
  scan_version_dart (Py.readlines dart) = Ret EmptyString
  /\ scan_version_pubspec (Py.readlines pubspec) = Ret EmptyString
  /\ exec w version_check
     = ([Opened "lib/config/version.dart"; Opened "pubspec.yaml"], Returned tt)
  /\ forall a,
       exec w (flutter_check a)
       = ([Opened "lib/config/version.dart"; Opened "pubspec.yaml"]
            ++ fst (exec w (platform_checks a)),
          snd (exec w (platform_checks a))).
Proof.
  intros Hd Hp Hdart Hpub.
  assert (Hvd : scan_version_dart (Py.readlines dart) = Ret EmptyString).
  { destruct Hdart as [Hnone|(before & line & after & -> & Hb & Hm & Hs & Hq)].
    - apply scan_version_dart_none. exact Hnone.
    - rewrite (scan_version_dart_first before after line Hb Hm).
      simpl. rewrite Hm, Hs, Hq. reflexivity. }
  pose proof (scan_version_pubspec_none _ Hpub) as Hvp.
  split; [exact Hvd|]. split; [exact Hvp|]. split.
  - rewrite (exec_version_check w dart pubspec _ _ Hd Hp Hvd Hvp). reflexivity.
  - intros a.
    rewrite (exec_flutter_check_version a w dart pubspec _ _ Hd Hp Hvd Hvp).
    reflexivity.
Qed.

Lemma version_markers_absent_witness :
  exec Sample.unversioned version_check
  = ([Opened "lib/config/version.dart"; Opened "pubspec.yaml"], Returned tt).
Proof.
  apply (version_markers_absent Sample.unversioned Sample.version_dart_unquoted
           Sample.pubspec_unversioned).
  - reflexivity.
  - reflexivity.
  - right. exists [], Sample.version_dart_unquoted, [].
    repeat split; constructor.
  - repeat constructor.
Defined.

(** ** Every run ends in order *)

Section Orderly.

Lemma orderly_bind {A B : Type} (m : script A) (f : A -> script B) :
  orderly m -> (forall a, orderly (f a)) -> orderly (bind m f).
Proof.
  intros Hm Hf w. rewrite exec_bind. specialize (Hm w).
  destruct (exec w m) as [t [a|status|e]]; simpl in *; try exact Hm.
  specialize (Hf a w).
  destruct (exec w (f a)) as [t' [b|status|e]]; simpl in *.
  - rewrite stdout_app, Hm, Hf. reflexivity.
  - destruct Hf as [-> (reads & lines & -> & Hquiet & Hdiag)].
    split; [reflexivity|]. exists (t ++ reads), lines.
    rewrite app_assoc, stdout_app, Hm, Hquiet. auto.
  - rewrite stdout_app, Hm, Hf. reflexivity.
Qed.

Lemma orderly_Ret {A : Type} (a : A) : orderly (Ret a).
Proof. intros w. reflexivity. Qed.

Lemma orderly_Raise {A : Type} (e : exn) : orderly (@Raise A e).
Proof. intros w. reflexivity. Qed.

Lemma orderly_open_read (path : string) : orderly (open_read path).
Proof. intros w. simpl. destruct (Fs.read (cwd w) path); reflexivity. Qed.

Lemma orderly_os_walk (top : string) : orderly (os_walk top).
Proof. intros w. reflexivity. Qed.

Lemma orderly_json_load (path : string) : orderly (json_load path).
Proof. intros w. simpl. destruct (descriptor w path); reflexivity. Qed.

Lemma orderly_getitem (d : gmap string string) (key : string) :
  orderly (getitem d key).
Proof. unfold getitem. destruct (d !! key); [apply orderly_Ret|apply orderly_Raise]. Qed.

Lemma orderly_index (xs : list string) (i : nat) : orderly (index xs i).
Proof. unfold index. destruct (nth_error xs i); [apply orderly_Ret|apply orderly_Raise]. Qed.

Lemma orderly_when (cond : bool) (body : script unit) :
  orderly body -> orderly (when cond body).
Proof. intros H. destruct cond; [exact H|apply orderly_Ret]. Qed.

(** The lines of a diagnostic followed by [exit(1)]. *)
Lemma orderly_report1 (a : string) :
  diagnostic [a] -> orderly (Print a (@Exit unit 1)).
Proof. intros H w. split; [reflexivity|]. exists [], [a]. auto. Qed.

Lemma orderly_report2 (a b : string) :
  diagnostic [a; b] -> orderly (Print a (Print b (@Exit unit 1))).
Proof. intros H w. split; [reflexivity|]. exists [], [a; b]. auto. Qed.

Lemma orderly_report3 (a b c : string) :
  diagnostic [a; b; c] -> orderly (Print a (Print b (Print c (@Exit unit 1)))).
Proof. intros H w. split; [reflexivity|]. exists [], [a; b; c]. auto. Qed.

End Orderly.

Ltac diagnostic_lines :=
  eexists _, _; split; [reflexivity|];
  split; [reflexivity|repeat constructor].

(** Walks along the text of a script: sequencing, guards, the basic actions,
    and the blocks that print a diagnostic and leave. *)
Ltac orderly_step :=
  lazymatch goal with
  | |- orderly (bind (print _) _) =>
      cbn [bind print exit];
      first [apply orderly_report1|apply orderly_report2|apply orderly_report3];
      diagnostic_lines
  | |- orderly (bind _ _) => apply orderly_bind; [|intros ?]
  | |- orderly (when _ _) => apply orderly_when
  | |- orderly (Ret _) => apply orderly_Ret
  | |- orderly pass => apply orderly_Ret
  | |- orderly (Raise _) => apply orderly_Raise
  | |- orderly (open_read _) => apply orderly_open_read
  | |- orderly (os_walk _) => apply orderly_os_walk
  | |- orderly (json_load _) => apply orderly_json_load
  | |- orderly (getitem _ _) => apply orderly_getitem
  | |- orderly (index _ _) => apply orderly_index
  | |- orderly (match ?x with _ => _ end) => destruct x
  end.

Lemma orderly_scan_version_dart (lines : list string) :
  orderly (scan_version_dart lines).
Proof.
  destruct (scan_version_dart_returns lines) as [v ->]. apply orderly_Ret.
Qed.

Lemma orderly_scan_version_pubspec (lines : list string) :
  orderly (scan_version_pubspec lines).
Proof.
  destruct (scan_version_pubspec_returns lines) as [v ->]. apply orderly_Ret.
Qed.

Lemma orderly_version_check : orderly version_check.
Proof.
  unfold version_check.
  apply orderly_bind; [apply orderly_open_read|intros dart].
  apply orderly_bind; [apply orderly_scan_version_dart|intros vd].
  apply orderly_bind; [apply orderly_open_read|intros pubspec].
  apply orderly_bind; [apply orderly_scan_version_pubspec|intros vp].
  apply orderly_when. orderly_step.
Qed.

Lemma orderly_android_manifest_checks (info : gmap string string) :
  orderly (android_manifest_checks info).
Proof. unfold android_manifest_checks. repeat orderly_step. Qed.

Lemma orderly_check_dirs (split_package dirs : list string) :
  orderly (check_dirs split_package dirs).
Proof.
  induction dirs as [|dir rest IH]; cbn [check_dirs]; [apply orderly_Ret|].
  apply orderly_bind; [repeat orderly_step|intros _; exact IH].
Qed.

Lemma orderly_check_tree (split_package : list string)
    (items : list Fs.walk_item) (files : option (list string)) :
  orderly (check_tree split_package items files).
Proof.
  revert files.
  induction items as [|[[root dirs] files'] rest IH]; intros files;
    cbn [check_tree].
  - apply orderly_Ret.
  - apply orderly_bind; [apply orderly_check_dirs|intros _; apply IH].
Qed.

Lemma orderly_kotlin_checks (info : gmap string string) :
  orderly (kotlin_checks info).
Proof.
  unfold kotlin_checks.
  apply orderly_bind; [apply orderly_os_walk|intros tree].
  apply orderly_bind; [apply orderly_getitem|intros package]. cbv zeta.
  apply orderly_bind; [apply orderly_check_tree|intros files].
  repeat orderly_step.
Qed.

Lemma orderly_build_gradle_checks (info : gmap string string) :
  orderly (build_gradle_checks info).
Proof. unfold build_gradle_checks. repeat orderly_step. Qed.

Lemma orderly_android_checks (a : args) (info : gmap string string) :
  orderly (android_checks a info).
Proof.
  unfold android_checks.
  apply orderly_bind; [apply orderly_android_manifest_checks|intros _].
  apply orderly_bind; [apply orderly_when, orderly_kotlin_checks|intros _].
  apply orderly_build_gradle_checks.
Qed.

Lemma orderly_ios_checks (info : gmap string string) : orderly (ios_checks info).
Proof. unfold ios_checks. repeat orderly_step. Qed.

Lemma orderly_platform_checks (a : args) : orderly (platform_checks a).
Proof.
  unfold platform_checks.
  apply orderly_bind; [apply orderly_json_load|intros info].
  apply orderly_bind; [apply orderly_when, orderly_android_checks|intros _].
  apply orderly_when, orderly_ios_checks.
Qed.

Lemma orderly_flutter_check (a : args) : orderly (flutter_check a).
Proof.
  unfold flutter_check.
  apply orderly_bind; [apply orderly_version_check|intros _].
  apply orderly_platform_checks.
Qed.


(** ** What a skipped platform cannot change *)

Module PathFacts.

Import Py.

Lemma split_append (sep : ascii) (a b : string) :
  split sep (a +:+ String sep b) = split sep a ++ split sep b.
Proof.
  induction a as [|c a IH].
  - change (EmptyString +:+ String sep b) with (String sep b).
    cbn [split]. rewrite Ascii.eqb_refl. reflexivity.
  - change (String c a +:+ String sep b) with (String c (a +:+ String sep b)).
    cbn [split]. rewrite IH. destruct (Ascii.eqb c sep); [reflexivity|].
    destruct (split sep a) as [|p ps] eqn:Hs; [|reflexivity].
    destruct (PyFacts.split_not_nil _ _ Hs).
Qed.

Lemma components_append (a b : string) :
  Fs.components (a +:+ String "/" b) = Fs.components a ++ Fs.components b.
Proof. unfold Fs.components. rewrite split_append. apply List.filter_app. Qed.

End PathFacts.

Section Avoids.

Variable d : string.

Lemma read_agree (w w' : world) (path c : string) :
  agree_outside d w w' -> entry_of path = Some c -> c <> d ->
  Fs.read (cwd w) path = Fs.read (cwd w') path.
Proof.
  intros [Hfs _] Hentry Hne. unfold Fs.read, entry_of in *.
  destruct (Fs.components path) as [|c' rest]; [discriminate|].
  injection Hentry as ->. cbn [Fs.locate]. rewrite (Hfs c Hne). reflexivity.
Qed.

Lemma walk_agree (w w' : world) (top c : string) :
  agree_outside d w w' -> entry_of top = Some c -> c <> d ->
  Fs.walk (cwd w) top = Fs.walk (cwd w') top.
Proof.
  intros [Hfs _] Hentry Hne. unfold Fs.walk, entry_of in *.
  destruct (Fs.components top) as [|c' rest]; [discriminate|].
  injection Hentry as ->. cbn [Fs.locate]. rewrite (Hfs c Hne). reflexivity.
Qed.

(** A script that avoids [d] runs the same in two worlds that differ in
    [d] only. *)
Lemma exec_agree {A : Type} (s : script A) (w w' : world) :
  avoids d s -> agree_outside d w w' -> exec w s = exec w' s.
Proof.
  intros Hs Hw.
  induction Hs as [a|path k c He Hc _ IH|top k c He Hc _ IH|path k _ IH
                  |text k _ IH|filename arcname k c He Hc _ IH|status|e];
    cbn [exec]; try reflexivity.
  - rewrite (read_agree w w' path c Hw He Hc).
    destruct (Fs.read (cwd w') path) as [e|text]; [reflexivity|].
    rewrite IH. reflexivity.
  - rewrite (walk_agree w w' top c Hw He Hc), IH. reflexivity.
  - destruct Hw as [Hfs Hjson]. rewrite Hjson.
    destruct (descriptor w' path) as [info|]; [|reflexivity].
    rewrite IH. reflexivity.
  - rewrite IH. reflexivity.
  - rewrite (read_agree w w' filename c Hw He Hc).
    destruct (Fs.read (cwd w') filename) as [e|text]; [reflexivity|].
    rewrite IH. reflexivity.
Qed.

(** And nothing it touches lies in [d]. *)
Lemma touched_avoids {A : Type} (s : script A) (w : world) :
  avoids d s ->
  Forall (fun path => entry_of path <> Some d) (touched (fst (exec w s))).
Proof.
  intros Hs.
  induction Hs as [a|path k c He Hc _ IH|top k c He Hc _ IH|path k _ IH
                  |text k _ IH|filename arcname k c He Hc _ IH|status|e];
    cbn [exec]; try (constructor; fail).
  - assert (Hp : entry_of path <> Some d) by (rewrite He; congruence).
    destruct (Fs.read (cwd w) path) as [e|text].
    + repeat constructor. exact Hp.
    + specialize (IH text). destruct (exec w (k text)) as [t r].
      constructor; [exact Hp|exact IH].
  - assert (Hp : entry_of top <> Some d) by (rewrite He; congruence).
    specialize (IH (Fs.walk (cwd w) top)).
    destruct (exec w (k (Fs.walk (cwd w) top))) as [t r].
    constructor; [exact Hp|exact IH].
  - destruct (descriptor w path) as [info|]; [|constructor].
    specialize (IH info). destruct (exec w (k info)) as [t r]. exact IH.
  - destruct (exec w k) as [t r]. exact IH.
  - destruct (Fs.read (cwd w) filename) as [e|text]; [constructor|].
    destruct (exec w k) as [t r]. exact IH.
Qed.

Lemma avoids_bind {A B : Type} (m : script A) (f : A -> script B) :
  avoids d m -> (forall a, avoids d (f a)) -> avoids d (bind m f).
Proof.
  intros Hm Hf.
  induction Hm as [a|path k c He Hc _ IH|top k c He Hc _ IH|path k _ IH
                  |text k _ IH|filename arcname k c He Hc _ IH|status|e];
    cbn [bind]; try (econstructor; eassumption).
  apply Hf.
Qed.

Lemma avoids_when (cond : bool) (body : script unit) :
  avoids d body -> avoids d (when cond body).
Proof. intros H. destruct cond; [exact H|constructor]. Qed.

Lemma avoids_getitem (info : gmap string string) (key : string) :
  avoids d (getitem info key).
Proof. unfold getitem. destruct (info !! key); constructor. Qed.

Lemma avoids_scan_version_dart (lines : list string) :
  avoids d (scan_version_dart lines).
Proof. destruct (scan_version_dart_returns lines) as [v ->]. constructor. Qed.

Lemma avoids_scan_version_pubspec (lines : list string) :
  avoids d (scan_version_pubspec lines).
Proof. destruct (scan_version_pubspec_returns lines) as [v ->]. constructor. Qed.

Lemma avoids_check_dirs (split_package dirs : list string) :
  avoids d (check_dirs split_package dirs).
Proof.
  induction dirs as [|dir rest IH]; cbn [check_dirs]; [constructor|].
  apply avoids_bind; [|intros _; exact IH].
  apply avoids_when. repeat constructor.
Qed.

Lemma avoids_check_tree (split_package : list string)
    (items : list Fs.walk_item) (files : option (list string)) :
  avoids d (check_tree split_package items files).
Proof.
  revert files.
  induction items as [|[[root dirs] files'] rest IH]; intros files;
    cbn [check_tree]; [constructor|].
  apply avoids_bind; [apply avoids_check_dirs|intros _; apply IH].
Qed.

End Avoids.

Lemma entry_of_android (rest : string) :
  entry_of ("android/" +:+ rest) = Some "android".
Proof.
  unfold entry_of.
  change ("android/" +:+ rest) with ("android" +:+ String "/" rest).
  rewrite PathFacts.components_append. reflexivity.
Qed.

Ltac avoids_step :=
  lazymatch goal with
  | |- avoids _ (bind _ _) => apply avoids_bind; [|intros ?]
  | |- avoids _ (when _ _) => apply avoids_when
  | |- avoids _ (open_read _) =>
      eapply avoids_Open;
      [first [reflexivity|apply entry_of_android]|discriminate|intros ?; constructor]
  | |- avoids _ (os_walk _) =>
      eapply avoids_OsWalk; [reflexivity|discriminate|intros ?; constructor]
  | |- avoids _ (json_load _) => apply avoids_JsonLoad; intros ?; constructor
  | |- avoids _ (getitem _ _) => apply avoids_getitem
  | |- avoids _ (scan_version_dart _) => apply avoids_scan_version_dart
  | |- avoids _ (scan_version_pubspec _) => apply avoids_scan_version_pubspec
  | |- avoids _ (check_tree _ _ _) => apply avoids_check_tree
  | |- avoids _ (match ?x with _ => _ end) => destruct x
  | |- avoids _ _ => constructor
  end.

Lemma avoids_version_check (d : string) :
  d <> "lib" -> d <> "pubspec.yaml" -> avoids d version_check.
Proof.
  intros Hlib Hpub. unfold version_check.
  apply avoids_bind; [|intros dart].
  { eapply avoids_Open; [reflexivity|congruence|intros ?; constructor]. }
  apply avoids_bind; [apply avoids_scan_version_dart|intros vd].
  apply avoids_bind; [|intros pubspec].
  { eapply avoids_Open; [reflexivity|congruence|intros ?; constructor]. }
  repeat avoids_step.
Qed.

Lemma android_checks_avoid_ios (a : args) (info : gmap string string) :
  avoids "ios" (android_checks a info).
Proof.
  unfold android_checks, android_manifest_checks, kotlin_checks,
    build_gradle_checks. cbv zeta.
  repeat avoids_step.
Qed.

Lemma ios_checks_avoid_android (info : gmap string string) :
  avoids "android" (ios_checks info).
Proof. unfold ios_checks. cbv zeta. repeat avoids_step. Qed.

Lemma flutter_check_avoids_android (a : args) :
  skip_android a = true -> avoids "android" (flutter_check a).
Proof.
  intros Hskip. unfold flutter_check, platform_checks. rewrite Hskip.
  apply avoids_bind; [apply avoids_version_check; discriminate|intros _].
  apply avoids_bind; [avoids_step|intros info].
  apply avoids_bind; [constructor|intros _].
  apply avoids_when, ios_checks_avoid_android.
Qed.

Lemma flutter_check_avoids_ios (a : args) :
  skip_ios a = true -> avoids "ios" (flutter_check a).
Proof.
  intros Hskip. unfold flutter_check, platform_checks. rewrite Hskip.
  apply avoids_bind; [apply avoids_version_check; discriminate|intros _].
  apply avoids_bind; [avoids_step|intros info].
  apply avoids_bind; [apply avoids_when, android_checks_avoid_ios|intros _].
  constructor.
Qed.

(** C6. A run with the skip flag of a platform touches no path under that
    platform's directory ([android] or [ios]), and it runs the same, event
    for event and to the same end, in any other world that differs only in
    that directory: whether the platform's files are right, wrong or
    missing changes nothing. *)
Theorem skipped_platform_is_not_consulted
    (platform : string) (a : args) (w w' : world) :
  (platform = "android" /\ skip_android a = true)
  \/ (platform = "ios" /\ skip_ios a = true) ->
  agree_outside platform w w' ->
  exec w (flutter_check a) = exec w' (flutter_check a)
  /\ Forall (fun path => entry_of path <> Some platform)
       (touched (fst (exec w (flutter_check a)))).
Proof.
  intros Hskip Hw.
  assert (Ha : avoids platform (flutter_check a)).
  { destruct Hskip as [[-> H]|[-> H]].
    - apply flutter_check_avoids_android. exact H.
    - apply flutter_check_avoids_ios. exact H. }
  split.
  - apply (exec_agree platform _ w w' Ha Hw).
  - apply touched_avoids. exact Ha.
Qed.

Lemma agree_outside_android_sample :
  agree_outside "android" Sample.good Sample.without_android.
Proof.
  split; [|reflexivity]. intros name Hne.
  apply not_eq_sym, String.eqb_neq in Hne.
  unfold Sample.good, Sample.without_android, Sample.project.
  cbn [cwd Fs.lookup]. rewrite Hne. reflexivity.
Defined.

Lemma skipped_platform_is_not_consulted_witness :
  exec Sample.good (flutter_check (Args "app.json" false true false))
  = exec Sample.without_android (flutter_check (Args "app.json" false true false))
  /\ snd (exec Sample.without_android (flutter_check (Args "app.json" false true false)))
     = Returned tt.
Proof.
  split; [|reflexivity].
  apply (skipped_platform_is_not_consulted "android"
           (Args "app.json" false true false) Sample.good Sample.without_android).
  - left. split; reflexivity.
  - exact agree_outside_android_sample.
Defined.

(** The iOS side on the samples: with [--skip-ios], the project whose ios
    directory was replaced by a stray file passes like the good one. *)
Example skip_ios_ignores_broken_ios :
  exec Sample.broken_ios (flutter_check (Args "app.json" true false false))
  = exec Sample.good (flutter_check (Args "app.json" true false false))
  /\ snd (exec Sample.broken_ios (flutter_check (Args "app.json" true false false)))
     = Returned tt.
Proof. split; vm_compute; reflexivity. Qed.

(** ** The checks on build.gradle and on the iOS project file *)

(** The checker is the script up to a line followed by the rest. *)
Lemma flutter_check_from_build_gradle (a : args) (w : world) :
  skip_android a = false ->
  exec w (flutter_check a)
  = exec w (info <- Reach.build_gradle a;;
            build_gradle_checks info;;
            when (negb (skip_ios a)) (ios_checks info)).
Proof.
  intros Hskip. unfold flutter_check, platform_checks, Reach.build_gradle.
  rewrite Hskip. cbn [negb when]. unfold android_checks. symmetry.
  rewrite exec_bind_assoc. apply exec_bind_ext. intros _.
  rewrite exec_bind_assoc. apply exec_bind_ext. intros info.
  rewrite exec_bind_assoc.
  rewrite (exec_bind_assoc w (android_manifest_checks info)
             (fun _ => when (negb (skip_kotlin a)) (kotlin_checks info);;
                       build_gradle_checks info)).
  apply exec_bind_ext. intros _.
  rewrite exec_bind_assoc.
  rewrite (exec_bind_assoc w (when (negb (skip_kotlin a)) (kotlin_checks info))).
  apply exec_bind_ext. intros _. reflexivity.
Qed.

Lemma flutter_check_from_ios (a : args) (w : world) :
  exec w (flutter_check a)
  = exec w (info <- Reach.ios a;; when (negb (skip_ios a)) (ios_checks info)).
Proof.
  unfold flutter_check, platform_checks, Reach.ios. symmetry.
  rewrite exec_bind_assoc. apply exec_bind_ext. intros _.
  rewrite exec_bind_assoc. apply exec_bind_ext. intros info.
  rewrite exec_bind_assoc. reflexivity.
Qed.

(** C7. In a run with the Android checks that gets as far as build.gradle,
    the file is searched for [keystoreProperties] and then for
    [signingConfigs {]: when the first is absent, or the first is present
    and the second absent, the run prints the error line and the text that
    tells the operator what to add, and ends with status 1.  Each of the
    two texts holds the directive it is about. *)
Theorem build_gradle_signing_directives
    (a : args) (w : world) (t : list event) (info : gmap string string)
    (build_gradle : string) :
  skip_android a = false ->
  exec w (Reach.build_gradle a) = (t, Returned info) ->
  Fs.read (cwd w) "android/app/build.gradle" = inr build_gradle ->
  (Py.contains "keystoreProperties" build_gradle = false ->
   exec w (flutter_check a)
   = (t ++ [Opened "android/app/build.gradle";
            Printed "Error: keystoreProperties not found in android/app/build.gradle";
            Printed keystore_snippet], Exited 1))
  /\ (Py.contains "keystoreProperties" build_gradle = true ->
      Py.contains "signingConfigs {" build_gradle = false ->
      exec w (flutter_check a)
      = (t ++ [Opened "android/app/build.gradle";
               Printed "Error: signingConfigs not found in android/app/build.gradle";
               Printed signing_snippet], Exited 1))
  /\ Py.contains "def keystoreProperties = new Properties()" keystore_snippet = true
  /\ Py.contains "signingConfigs {" signing_snippet = true.
Proof.
  intros Hskip Hreach Hread.
  rewrite (flutter_check_from_build_gradle a w Hskip).
  rewrite (exec_bind_returned w _ _ _ _ Hreach).
  unfold build_gradle_checks, open_read. cbn [bind exec]. rewrite Hread.
  split; [|split; [|split; reflexivity]].
  - intros Hk. rewrite Hk. reflexivity.
  - intros Hk Hs. rewrite Hk. cbn [negb when bind]. rewrite Hs. reflexivity.
Qed.

Lemma build_gradle_signing_directives_witness :
  exec Sample.unsigned (flutter_check Sample.all_checks)
  = ([Opened "lib/config/version.dart"; Opened "pubspec.yaml"; Loaded "app.json";
      Opened "android/app/src/main/AndroidManifest.xml";
      Opened "android/app/src/debug/AndroidManifest.xml";
      Walked "android/app/src/main/kotlin/";
      Opened "android/app/src/main/kotlin/com/example/woxxy/MainActivity.kt"]
     ++ [Opened "android/app/build.gradle";
         Printed "Error: keystoreProperties not found in android/app/build.gradle";
         Printed keystore_snippet], Exited 1).
Proof.
  refine (proj1 (build_gradle_signing_directives Sample.all_checks Sample.unsigned
                   _ Sample.woxxy Sample.gradle_unsigned _ _ _) _).
  - reflexivity.
  - reflexivity.
  - reflexivity.
  - reflexivity.
Defined.

(** C5. In a run with the iOS checks that gets past the Info.plist check,
    project.pbxproj is searched for the value of [ios-package] when the
    descriptor has that key and for the value of [package] when it has not;
    the run ends well when the identifier is found, and prints a
    diagnostic that names it and ends with status 1 when it is not. *)
Theorem ios_project_file_identifier
    (a : args) (w : world) (t : list event) (info : gmap string string)
    (name package expected info_plist project_pbxproj : string) :
  skip_ios a = false ->
  exec w (Reach.ios a) = (t, Returned info) ->
  info !! "name" = Some name ->
  info !! "package" = Some package ->
  info !! "ios-package" = Some expected
  \/ (info !! "ios-package" = None /\ expected = package) ->
  Fs.read (cwd w) "ios/Runner/Info.plist" = inr info_plist ->
  Py.contains name info_plist = true ->
  Fs.read (cwd w) "ios/Runner.xcodeproj/project.pbxproj" = inr project_pbxproj ->
  (Py.contains expected project_pbxproj = true ->
   exec w (flutter_check a)
   = (t ++ [Opened "ios/Runner/Info.plist";
            Opened "ios/Runner.xcodeproj/project.pbxproj"], Returned tt))
  /\ (Py.contains expected project_pbxproj = false ->
      exec w (flutter_check a)
      = (t ++ [Opened "ios/Runner/Info.plist";
               Opened "ios/Runner.xcodeproj/project.pbxproj";
               Printed ("Error: app name '" +:+ expected
                        +:+ "' not found in ios/Runner.xcodeproj/project.pbxproj (PRODUCT_NAME and PRODUCT_BUNDLE_IDENTIFIER)")],
         Exited 1)).
Proof.
  intros Hskip Hreach Hname Hpackage Hexpected Hplist Hlabel Hproject.
  rewrite (flutter_check_from_ios a w).
  rewrite (exec_bind_returned w _ _ _ _ Hreach).
  rewrite Hskip. cbn [negb when].
  unfold ios_checks, open_read, getitem. cbn [bind exec].
  rewrite Hplist, Hname. cbn [bind exec]. rewrite Hlabel.
  cbn [negb when pass bind exec]. rewrite Hpackage. cbn [bind exec].
  rewrite Hproject.
  assert (Hpname : default package (info !! "ios-package") = expected).
  { destruct Hexpected as [->|[-> ->]]; reflexivity. }
  rewrite Hpname.
  split; intros Hfound; rewrite Hfound; reflexivity.
Qed.

Lemma ios_project_file_identifier_witness :
  exec Sample.ios_renamed (flutter_check Sample.all_checks)
  = ([Opened "lib/config/version.dart"; Opened "pubspec.yaml"; Loaded "app.json";
      Opened "android/app/src/main/AndroidManifest.xml";
      Opened "android/app/src/debug/AndroidManifest.xml";
      Walked "android/app/src/main/kotlin/";
      Opened "android/app/src/main/kotlin/com/example/woxxy/MainActivity.kt";
      Opened "android/app/build.gradle"]
     ++ [Opened "ios/Runner/Info.plist";
         Opened "ios/Runner.xcodeproj/project.pbxproj";
         Printed "Error: app name 'org.woxxy.ios' not found in ios/Runner.xcodeproj/project.pbxproj (PRODUCT_NAME and PRODUCT_BUNDLE_IDENTIFIER)"],
     Exited 1).
Proof.
  refine (proj2 (ios_project_file_identifier Sample.all_checks Sample.ios_renamed
                   _ Sample.woxxy_ios "Woxxy" "com.example.woxxy" "org.woxxy.ios"
                   _ Sample.pbxproj _ _ _ _ _ _ _ _) _).
  - reflexivity.
  - reflexivity.
  - reflexivity.
  - reflexivity.
  - left. reflexivity.
  - reflexivity.
  - reflexivity.
  - reflexivity.
  - reflexivity.
Defined.

(** ** Where the Android checks miss *)

(** C2. The name is looked for in the main manifest twice and in the debug
    manifest never: with a debug manifest that holds the package but not
    the name [Woxxy], every check passes and the run ends with status 0,
    nothing printed. *)
Theorem debug_manifest_name_unchecked :
  Sample.woxxy !! "name" = Some "Woxxy"
  /\ Fs.read (cwd Sample.debug_unlabelled) "android/app/src/debug/AndroidManifest.xml"
     = inr Sample.manifest_unlabelled
  /\ Py.contains "Woxxy" Sample.manifest_unlabelled = false
  /\ exec Sample.debug_unlabelled (flutter_check Sample.all_checks)
     = ([Opened "lib/config/version.dart"; Opened "pubspec.yaml"; Loaded "app.json";
         Opened "android/app/src/main/AndroidManifest.xml";
         Opened "android/app/src/debug/AndroidManifest.xml";
         Walked "android/app/src/main/kotlin/";
         Opened "android/app/src/main/kotlin/com/example/woxxy/MainActivity.kt";
         Opened "android/app/build.gradle";
         Opened "ios/Runner/Info.plist";
         Opened "ios/Runner.xcodeproj/project.pbxproj"], Returned tt)
  /\ exit_status (snd (exec Sample.debug_unlabelled (flutter_check Sample.all_checks)))
     = 0%Z.
Proof. repeat split; vm_compute; reflexivity. Qed.

(** In no world does the manifest block print the diagnostic of the debug
    manifest's label: its test repeats the one that just passed. *)
Lemma debug_label_diagnostic_unreachable (info : gmap string string) (w : world) :
  ~ In "Error: app name not found in debug / AndroidManifest.xml (android:label)"
       (stdout (fst (exec w (android_manifest_checks info)))).
Proof.
  unfold android_manifest_checks, open_read, getitem. cbn [bind exec].
  destruct (Fs.read (cwd w) "android/app/src/main/AndroidManifest.xml")
    as [e|main]; [cbn; tauto|].
  destruct (info !! "name") as [name|]; [|cbn; tauto].
  cbn [bind exec].
  destruct (Py.contains name main) eqn:Hname;
    cbn [negb when pass bind exec print exit].
  2:{ cbn. intros [H|[H|[]]]; discriminate H. }
  destruct (Fs.read (cwd w) "android/app/src/debug/AndroidManifest.xml")
    as [e|debug]; [cbn; tauto|].
  cbn [negb when pass bind exec print exit].
  destruct (info !! "package") as [package|]; [|cbn; tauto].
  cbn [bind exec].
  destruct (Py.contains package main);
    cbn [negb when pass bind exec print exit].
  2:{ cbn. intros [H|[H|[]]]; discriminate H. }
  destruct (Py.contains package debug);
    cbn [negb when pass bind exec print exit].
  - cbn. tauto.
  - cbn. intros [H|[H|[]]]; discriminate H.
Qed.

(** C3. The test for MainActivity.kt looks at the files of the directory
    the walk visited last, not at the package directory: with the file one
    directory too deep, every directory name is a component of the package
    and the test passes, there is no MainActivity.kt at the package path,
    and the run ends on the uncaught [FileNotFoundError] of [open], nothing
    printed. *)
Theorem main_activity_looked_for_in_last_directory :
  Fs.walk (cwd Sample.misplaced) "android/app/src/main/kotlin/"
  = [("android/app/src/main/kotlin/", ["com"], []);
     ("android/app/src/main/kotlin/com", ["example"], []);
     ("android/app/src/main/kotlin/com/example", ["woxxy"], []);
     ("android/app/src/main/kotlin/com/example/woxxy", ["woxxy"], []);
     ("android/app/src/main/kotlin/com/example/woxxy/woxxy", [], ["MainActivity.kt"])]
  /\ Py.split "." "com.example.woxxy" = ["com"; "example"; "woxxy"]
  /\ Fs.read (cwd Sample.misplaced)
       "android/app/src/main/kotlin/com/example/woxxy/MainActivity.kt"
     = inl (FileNotFoundError
              "android/app/src/main/kotlin/com/example/woxxy/MainActivity.kt")
  /\ exec Sample.misplaced (flutter_check Sample.all_checks)
     = ([Opened "lib/config/version.dart"; Opened "pubspec.yaml"; Loaded "app.json";
         Opened "android/app/src/main/AndroidManifest.xml";
         Opened "android/app/src/debug/AndroidManifest.xml";
         Walked "android/app/src/main/kotlin/";
         Opened "android/app/src/main/kotlin/com/example/woxxy/MainActivity.kt"],
        Raised (FileNotFoundError
                  "android/app/src/main/kotlin/com/example/woxxy/MainActivity.kt"))
  /\ stdout (fst (exec Sample.misplaced (flutter_check Sample.all_checks))) = [].
Proof. repeat split; vm_compute; reflexivity. Qed.

(** The same test the other way round: MainActivity.kt is where it belongs
    and holds what it must, and an empty directory next to it, named like
    a component of the package, is visited last; the checker reports the
    file as not found. *)
Example main_activity_reported_missing :
  Fs.read (cwd Sample.nested)
    "android/app/src/main/kotlin/com/example/woxxy/MainActivity.kt"
  = inr Sample.main_activity
  /\ exec Sample.nested (flutter_check Sample.all_checks)
     = ([Opened "lib/config/version.dart"; Opened "pubspec.yaml"; Loaded "app.json";
         Opened "android/app/src/main/AndroidManifest.xml";
         Opened "android/app/src/debug/AndroidManifest.xml";
         Walked "android/app/src/main/kotlin/";
         Printed "Error: MainActivity.kt not found in android/app/src/main/kotlin/"],
        Exited 1).
Proof. split; vm_compute; reflexivity. Qed.

(** The project with everything in order passes. *)
Example good_project_passes :
  exec Sample.good (flutter_check Sample.all_checks)
  = ([Opened "lib/config/version.dart"; Opened "pubspec.yaml"; Loaded "app.json";
      Opened "android/app/src/main/AndroidManifest.xml";
      Opened "android/app/src/debug/AndroidManifest.xml";
      Walked "android/app/src/main/kotlin/";
      Opened "android/app/src/main/kotlin/com/example/woxxy/MainActivity.kt";
      Opened "android/app/build.gradle";
      Opened "ios/Runner/Info.plist";
      Opened "ios/Runner.xcodeproj/project.pbxproj"], Returned tt).
Proof. vm_compute. reflexivity. Qed.

(** ** Trees, names and paths *)

Module TreeFacts.

Lemma node_nested_ind (P : node -> Prop) :
  (forall text, P (File text)) ->
  (forall entries, Forall (fun e => P (snd e)) entries -> P (Dir entries)) ->
  forall x, P x.
Proof.
  intros HF HD. fix IH 1. intros [text|entries]; [apply HF|].
  apply HD. induction entries as [|e es IHes]; constructor; [apply IH|exact IHes].
Qed.

Lemma mem_In (x : string) (xs : list string) : Py.mem x xs = true <-> In x xs.
Proof.
  unfold Py.mem. rewrite existsb_exists. split.
  - intros (y & Hy & Heq). apply String.eqb_eq in Heq. subst y. exact Hy.
  - intros H. exists x. split; [exact H|apply String.eqb_refl].
Qed.

Lemma lookup_In (name : string) (entries : list (string * node)) (x : node) :
  Fs.lookup name entries = Some x -> In (name, x) entries.
Proof.
  induction entries as [|[n y] es IH]; simpl; [discriminate|].
  destruct (String.eqb_spec n name) as [->|Hne].
  - intros [= ->]. left. reflexivity.
  - intros H. right. apply IH. exact H.
Qed.

Lemma In_lookup (name : string) (entries : list (string * node)) (x : node) :
  distinct (map fst entries) = true ->
  In (name, x) entries -> Fs.lookup name entries = Some x.
Proof.
  induction entries as [|[n y] es IH]; simpl; [intros _ []|].
  intros Hd [Heq|Hin].
  - injection Heq as -> ->. rewrite String.eqb_refl. reflexivity.
  - apply andb_true_iff in Hd as [Hfresh Hd].
    destruct (String.eqb_spec n name) as [->|Hne].
    + apply negb_true_iff in Hfresh.
      assert (Hmem : Py.mem name (map fst es) = true).
      { apply mem_In. apply (in_map fst) in Hin. exact Hin. }
      congruence.
    + apply IH; assumption.
Qed.

Lemma well_formed_Dir (entries : list (string * node)) :
  well_formed (Dir entries) = true ->
  distinct (map fst entries) = true
  /\ forall name child, In (name, child) entries ->
       good_name name = true /\ well_formed child = true.
Proof.
  cbn [well_formed]. intros H. apply andb_true_iff in H as [Hd Hall].
  split; [exact Hd|]. intros name child Hin.
  rewrite forallb_forall in Hall. specialize (Hall _ Hin).
  apply andb_true_iff in Hall. exact Hall.
Qed.

Lemma locate_app (x y : node) (c1 c2 : list string) :
  Fs.locate x c1 = Fs.Found y -> Fs.locate x (c1 ++ c2) = Fs.locate y c2.
Proof.
  revert x. induction c1 as [|name c1 IH]; intros x; simpl.
  - intros [= ->]. reflexivity.
  - destruct x as [text|entries]; [discriminate|].
    destruct (Fs.lookup name entries) as [z|]; [|discriminate].
    apply IH.
Qed.

(** What a path names below a well-formed directory is well formed, and
    the path is made of good names. *)
Lemma locate_good (x y : node) (c : list string) :
  well_formed x = true -> Fs.locate x c = Fs.Found y ->
  Forall (fun name => good_name name = true) c /\ well_formed y = true.
Proof.
  revert x. induction c as [|name c IH]; intros x Hwf; simpl.
  - intros [= ->]. split; [constructor|exact Hwf].
  - destruct x as [text|entries]; [discriminate|].
    destruct (Fs.lookup name entries) as [z|] eqn:Hz; [|discriminate].
    intros Hloc. apply lookup_In in Hz.
    destruct (well_formed_Dir _ Hwf) as [_ Hall].
    destruct (Hall _ _ Hz) as [Hname Hchild].
    destruct (IH z Hchild Hloc) as [Hc Hy].
    split; [constructor; assumption|exact Hy].
Qed.

(** A file has nothing below it. *)
Lemma locate_below_file (x : node) (c more : list string) (text text' : string) :
  Fs.locate x c = Fs.Found (File text) ->
  Fs.locate x (c ++ more) = Fs.Found (File text') ->
  more = [] /\ text' = text.
Proof.
  intros Hc Hmore. rewrite (locate_app _ _ _ more Hc) in Hmore.
  destruct more as [|name more]; simpl in Hmore; [|discriminate].
  injection Hmore as ->. auto.
Qed.

End TreeFacts.

Module NameFacts.

Import Py.

Lemma split_no_sep (sep : ascii) (s : string) :
  contains (chr sep) s = false -> split sep s = [s].
Proof.
  induction s as [|c s IH]; [reflexivity|].
  cbn [contains split]. rewrite PyFacts.prefix_chr, Ascii.eqb_sym.
  intros H. apply orb_false_iff in H as [Hc Hs].
  rewrite Hc, (IH Hs). reflexivity.
Qed.

Lemma components_good (name : string) :
  good_name name = true -> Fs.components name = [name].
Proof.
  unfold good_name, Fs.components. intros H.
  apply andb_true_iff in H as [Hvoid Hslash].
  apply negb_true_iff in Hslash.
  rewrite (split_no_sep "/" name Hslash). cbn [List.filter].
  rewrite Hvoid. reflexivity.
Qed.

Lemma good_not_absolute (name : string) :
  good_name name = true -> startswith name "/" = false.
Proof.
  unfold good_name, startswith. intros H.
  apply andb_true_iff in H as [_ Hslash]. apply negb_true_iff in Hslash.
  destruct (String.prefix "/" name) eqn:Hp; [|reflexivity].
  apply PyFacts.prefix_contains in Hp. congruence.
Qed.

Lemma endswith_append (s : string) (c : ascii) :
  endswith s c = true -> exists s', s = s' +:+ chr c.
Proof.
  induction s as [|d s IH]; [discriminate|].
  destruct s as [|d' s].
  - cbn [endswith]. intros H. apply Ascii.eqb_eq in H. subst d.
    exists EmptyString. reflexivity.
  - intros H. destruct (IH H) as [s' Hs']. exists (String d s').
    change (String d s' +:+ chr c) with (String d (s' +:+ chr c)).
    rewrite <- Hs'. reflexivity.
Qed.

Lemma append_assoc (a b c : string) : (a +:+ b) +:+ c = a +:+ (b +:+ c).
Proof.
  induction a as [|x a IH]; [reflexivity|].
  change (String x ((a +:+ b) +:+ c) = String x (a +:+ (b +:+ c))).
  rewrite IH. reflexivity.
Qed.

Lemma components_path_join (top name : string) :
  good_name name = true ->
  Fs.components (Fs.path_join top name) = Fs.components top ++ [name].
Proof.
  intros Hgood. unfold Fs.path_join.
  rewrite (good_not_absolute name Hgood).
  destruct (String.eqb_spec top EmptyString) as [->|Hne]; cbn [orb].
  - change (EmptyString +:+ name) with name. apply components_good. exact Hgood.
  - destruct (endswith top "/") eqn:Hend.
    + destruct (endswith_append _ _ Hend) as [top' ->].
      rewrite append_assoc.
      change (chr "/" +:+ name) with (String "/" name).
      change (top' +:+ chr "/") with (top' +:+ String "/" EmptyString).
      rewrite !PathFacts.components_append, (components_good name Hgood).
      change (Fs.components EmptyString) with (@nil string).
      rewrite app_nil_r. reflexivity.
    + change (top +:+ "/" +:+ name) with (top +:+ String "/" name).
      rewrite PathFacts.components_append, (components_good name Hgood).
      reflexivity.
Qed.

Lemma strip_common_app (l c : list string) :
  Fs.strip_common (l ++ c) l = (c, []).
Proof.
  induction l as [|x l IH]; simpl.
  - destruct c; reflexivity.
  - rewrite String.eqb_refl. exact IH.
Qed.

(** The name a file gets in the archive: its components below the start
    directory, joined by slashes. *)
Lemma relpath_below (path start : string) (c : list string) :
  Fs.components path = Fs.components start ++ c -> c <> [] ->
  Fs.relpath path start = join "/" c.
Proof.
  intros Hc Hne. unfold Fs.relpath. rewrite Hc, strip_common_app.
  cbn [map app]. destruct c; [contradiction|reflexivity].
Qed.

Lemma components_join (c : list string) :
  Forall (fun name => good_name name = true) c ->
  Fs.components (join "/" c) = c.
Proof.
  induction 1 as [|name c Hname Hc IH]; [reflexivity|].
  destruct c as [|name' c].
  - apply components_good. exact Hname.
  - change (join "/" (name :: name' :: c))
      with (name +:+ String "/" (join "/" (name' :: c))).
    rewrite PathFacts.components_append, IH, (components_good name Hname).
    reflexivity.
Qed.

End NameFacts.

(** ** The version tokens in the text of the two files *)

Module TokenFacts.

Import Py Token.

Lemma append_nil_r (s : string) : s +:+ EmptyString = s.
Proof.
  induction s as [|c s IH]; [reflexivity|].
  change (String c (s +:+ EmptyString) = String c s). rewrite IH. reflexivity.
Qed.

(** A string up to its first separator: the whole string when it has
    none. *)
Lemma split_cut (q : ascii) (s : string) :
  exists piece,
    contains (chr q) piece = false
    /\ ((s = piece /\ split q s = [piece])
        \/ exists rest, s = piece +:+ String q rest
                        /\ split q s = piece :: split q rest).
Proof.
  induction s as [|c s IH].
  - exists EmptyString. split; [reflexivity|]. left. split; reflexivity.
  - destruct (Ascii.eqb c q) eqn:Hc.
    + apply Ascii.eqb_eq in Hc. subst c.
      exists EmptyString. split; [reflexivity|]. right. exists s.
      split; [reflexivity|]. cbn [split]. rewrite Ascii.eqb_refl. reflexivity.
    + destruct IH as (piece & Hfree & Hs).
      exists (String c piece). split.
      { cbn [contains]. rewrite PyFacts.prefix_chr, Ascii.eqb_sym, Hc. exact Hfree. }
      destruct Hs as [[-> Hs]|(rest & -> & Hs)].
      * left. split; [reflexivity|]. cbn [split]. rewrite Hc, Hs. reflexivity.
      * right. exists rest. split; [reflexivity|].
        change (String c (piece +:+ String q rest))
          with (String c piece +:+ String q rest) in *.
        change (split q (String c (piece +:+ String q rest))
                = String c piece :: split q rest).
        cbn [split]. rewrite Hc, Hs. reflexivity.
Qed.

(** The text between the first two separators is the second piece of the
    split, and the other way round. *)
Lemma between_split (q : ascii) (line token : string) :
  between q line token <-> nth_error (split q line) 1 = Some token.
Proof.
  split.
  - intros (before & after & -> & Hb & Ht & Ha).
    rewrite PathFacts.split_append, (NameFacts.split_no_sep _ _ Hb).
    cbn [app nth_error]. destruct Ha as [->|[rest ->]].
    + rewrite append_nil_r, (NameFacts.split_no_sep _ _ Ht). reflexivity.
    + rewrite PathFacts.split_append, (NameFacts.split_no_sep _ _ Ht).
      reflexivity.
  - intros H.
    destruct (split_cut q line) as (before & Hb & [[-> Hs]|(rest & -> & Hs)]);
      rewrite Hs in H; [discriminate H|].
    cbn [nth_error] in H.
    destruct (split_cut q rest) as (piece & Hp & [[-> Hs']|(rest' & -> & Hs')]);
      rewrite Hs' in H; injection H as <-.
    + exists before, EmptyString. rewrite append_nil_r. auto.
    + exists before, (String q rest'). split; [reflexivity|].
      split; [exact Hb|]. split; [exact Hp|]. right. exists rest'. reflexivity.
Qed.

Lemma between_contains (q : ascii) (line token : string) :
  between q line token -> contains (chr q) line = true.
Proof.
  intros (before & after & -> & _). apply PyFacts.contains_append.
  cbn [contains]. rewrite PyFacts.prefix_chr, Ascii.eqb_refl. reflexivity.
Qed.

Lemma first_line_exists (marked : string -> bool) (lines : list string) :
  exists found, first_line marked lines found.
Proof.
  induction lines as [|line rest [found IH]].
  - exists None. constructor.
  - destruct (marked line) eqn:Hline.
    + exists (Some line), [], rest. split; [reflexivity|]. split; [constructor|exact Hline].
    + destruct found as [l|].
      * destruct IH as (before & after & -> & Hb & Hl).
        exists (Some l), (line :: before), after.
        split; [reflexivity|]. split; [constructor; assumption|exact Hl].
      * exists None. constructor; assumption.
Qed.

End TokenFacts.

(** The loop over version.dart leaves the token the text shows. *)
Lemma scan_version_dart_token (text token : string) :
  Token.version_dart text token ->
  scan_version_dart (Py.readlines text) = Ret token.
Proof.
  intros ([line|] & Hfound & Htoken).
  - destruct Hfound as (before & after & -> & Hb & Hline).
    rewrite (scan_version_dart_first before after line Hb Hline).
    cbn [scan_version_dart]. rewrite Hline.
    destruct Htoken as [Hs|[(Hs & Hd)|(Hs & Hd & ->)]].
    + rewrite (TokenFacts.between_contains _ _ _ Hs).
      apply TokenFacts.between_split in Hs. unfold index. rewrite Hs. reflexivity.
    + rewrite Hs, (TokenFacts.between_contains _ _ _ Hd).
      apply TokenFacts.between_split in Hd. unfold index. rewrite Hd. reflexivity.
    + rewrite Hs, Hd. reflexivity.
  - subst token. apply scan_version_dart_none. exact Hfound.
Qed.

Lemma scan_version_pubspec_token (text token : string) :
  Token.pubspec text token ->
  scan_version_pubspec (Py.readlines text) = Ret token.
Proof.
  intros ([line|] & Hfound & Htoken).
  - destruct Hfound as (before & after & -> & Hb & Hline).
    rewrite (scan_version_pubspec_first before after line Hb Hline).
    cbn [scan_version_pubspec]. rewrite Hline.
    destruct Htoken as (field & Hfield & ->).
    apply TokenFacts.between_split in Hfield. unfold index. rewrite Hfield.
    reflexivity.
  - subst token. apply scan_version_pubspec_none. exact Hfound.
Qed.

(** Every text has its tokens. *)
Lemma version_dart_token_exists (text : string) :
  exists token, Token.version_dart text token.
Proof.
  destruct (TokenFacts.first_line_exists (Py.contains "APP_VERSION")
              (Py.readlines text)) as [[line|] Hfound].
  - destruct (Py.contains (Py.chr Py.SQUOTE) line) eqn:Hs.
    { destruct (PyFacts.split_second _ _ Hs) as [token Htoken].
      apply TokenFacts.between_split in Htoken.
      exists token, (Some line). auto. }
    destruct (Py.contains (Py.chr Py.DQUOTE) line) eqn:Hd.
    { destruct (PyFacts.split_second _ _ Hd) as [token Htoken].
      apply TokenFacts.between_split in Htoken.
      exists token, (Some line). auto. }
    exists EmptyString, (Some line). auto 6.
  - exists EmptyString, None. auto.
Qed.

Lemma pubspec_token_exists (text : string) :
  exists token, Token.pubspec text token.
Proof.
  destruct (TokenFacts.first_line_exists (fun line => Py.startswith line "version:")
              (Py.readlines text)) as [[line|] Hfound].
  - assert (Hc : Py.contains (Py.chr ":") line = true).
    { destruct Hfound as (_ & _ & _ & _ & Hp).
      destruct (PyFacts.prefix_append _ _ Hp) as [tail ->].
      apply (PyFacts.contains_append _ "version" (String ":" tail)).
      cbn [Py.contains]. rewrite PyFacts.prefix_chr. reflexivity. }
    destruct (PyFacts.split_second _ _ Hc) as [field Hfield].
    apply TokenFacts.between_split in Hfield.
    exists (Py.strip field), (Some line). split; [exact Hfound|].
    exists field. auto.
  - exists EmptyString, None. auto.
Qed.

(** C1. The version check reads one token from the text of each file:
    from version.dart, on the first line that holds the APP_VERSION marker,
    the text between the first pair of quotes; from pubspec.yaml, on the
    first line that starts with [version:], the text after the colon, white
    space at its ends removed.  Each text has exactly one such token, and
    it is the value the loop of the script leaves.  When the two tokens are
    the same string the checker goes on to the descriptor and the platform
    checks; when they differ it prints both values and ends with
    status 1. *)
Theorem version_check_compares (w : world) (dart pubspec : string) :
  Fs.read (cwd w) "lib/config/version.dart" = inr dart ->
  Fs.read (cwd w) "pubspec.yaml" = inr pubspec ->
  exists VERSION_DART VERSION_PUBSPEC,
    Token.version_dart dart VERSION_DART
    /\ Token.pubspec pubspec VERSION_PUBSPEC
    /\ (forall token, Token.version_dart dart token -> token = VERSION_DART)
    /\ (forall token, Token.pubspec pubspec token -> token = VERSION_PUBSPEC)
    /\ scan_version_dart (Py.readlines dart) = Ret VERSION_DART
    /\ scan_version_pubspec (Py.readlines pubspec) = Ret VERSION_PUBSPEC
    /\ (VERSION_DART = VERSION_PUBSPEC ->
        forall a,
          exec w (flutter_check a)
          = ([Opened "lib/config/version.dart"; Opened "pubspec.yaml"]
               ++ fst (exec w (platform_checks a)),
             snd (exec w (platform_checks a))))
    /\ (VERSION_DART <> VERSION_PUBSPEC ->
        forall a,
          exec w (flutter_check a)
          = ([Opened "lib/config/version.dart"; Opened "pubspec.yaml";
              Printed "Error: version number in version.dart and pubspec.yaml are different";
              Printed ("       version.dart: " +:+ VERSION_DART);
              Printed ("       pubspec.yaml: " +:+ VERSION_PUBSPEC)], Exited 1)).
Proof.
  intros Hd Hp.
  destruct (version_dart_token_exists dart) as [vd Htd].
  destruct (pubspec_token_exists pubspec) as [vp Htp].
  pose proof (scan_version_dart_token dart vd Htd) as Hvd.
  pose proof (scan_version_pubspec_token pubspec vp Htp) as Hvp.
  exists vd, vp. split; [exact Htd|]. split; [exact Htp|].
  split; [|split; [|split; [exact Hvd|split; [exact Hvp|split]]]].
  - intros token Ht. apply scan_version_dart_token in Ht. congruence.
  - intros token Ht. apply scan_version_pubspec_token in Ht. congruence.
  - intros Heq a.
    rewrite (exec_flutter_check_version a w dart pubspec vd vp Hd Hp Hvd Hvp).
    apply String.eqb_eq in Heq. rewrite Heq. reflexivity.
  - intros Hne a.
    rewrite (exec_flutter_check_version a w dart pubspec vd vp Hd Hp Hvd Hvp).
    apply String.eqb_neq in Hne. rewrite Hne. reflexivity.
Qed.

Lemma version_check_compares_witness :
  Fs.read (cwd Sample.good) "lib/config/version.dart" = inr Sample.version_dart
  /\ Fs.read (cwd Sample.good) "pubspec.yaml" = inr (Sample.pubspec "1.0.0")
  /\ exists VERSION_DART VERSION_PUBSPEC,
       Token.version_dart Sample.version_dart VERSION_DART
       /\ Token.pubspec (Sample.pubspec "1.0.0") VERSION_PUBSPEC
       /\ VERSION_DART = "1.0.0" /\ VERSION_PUBSPEC = "1.0.0".
Proof.
  split; [reflexivity|]. split; [reflexivity|].
  destruct (version_check_compares Sample.good Sample.version_dart
              (Sample.pubspec "1.0.0") eq_refl eq_refl)
    as (vd & vp & Htd & Htp & _ & _ & Hvd & Hvp & _).
  exists vd, vp. split; [exact Htd|]. split; [exact Htp|].
  vm_compute in Hvd, Hvp. split; congruence.
Defined.

(** ** The archive of the release folder *)

Module WalkFacts.

Import TreeFacts NameFacts.

Lemma In_filenames (file : string) (entries : list (string * node)) :
  In file (Fs.filenames entries) <-> exists text, In (file, File text) entries.
Proof.
  unfold Fs.filenames. rewrite in_flat_map. split.
  - intros ([name [text|sub]] & Hin & Hfile); simpl in Hfile;
      [|contradiction].
    destruct Hfile as [->|[]]. exists text. exact Hin.
  - intros [text Hin]. exists (file, File text). split; [exact Hin|].
    left. reflexivity.
Qed.

(** Every file the walk lists is a file of the tree, at the path the walk
    gives for it. *)
Lemma walk_dir_sound (x : node) :
  forall (top root : string) (dirs files : list string) (file : string),
    well_formed x = true ->
    In (root, dirs, files) (Fs.walk_dir top x) -> In file files ->
    exists c text,
      c <> []
      /\ Fs.components (Fs.path_join root file) = Fs.components top ++ c
      /\ Fs.locate x c = Fs.Found (File text).
Proof.
  induction x as [text|entries IH] using node_nested_ind;
    intros top root dirs files file Hwf Hitem Hfile; [destruct Hitem|].
  destruct (well_formed_Dir _ Hwf) as [Hdistinct Hall].
  cbn [Fs.walk_dir] in Hitem. destruct Hitem as [Heq|Hbelow].
  - injection Heq as <- <- <-.
    apply In_filenames in Hfile as [text Hin].
    destruct (Hall _ _ Hin) as [Hgood _].
    exists [file], text. split; [discriminate|]. split.
    + apply components_path_join. exact Hgood.
    + cbn [Fs.locate]. rewrite (In_lookup _ _ _ Hdistinct Hin). reflexivity.
  - apply in_flat_map in Hbelow as ([name child] & Hin & Hitem).
    cbn [fst snd] in Hitem.
    destruct (Hall _ _ Hin) as [Hgood Hchild].
    rewrite List.Forall_forall in IH.
    destruct (IH _ Hin _ _ _ _ _ Hchild Hitem Hfile) as (c & text & Hc & Hcomps & Hloc).
    exists (name :: c), text. split; [discriminate|]. split.
    + rewrite Hcomps, (components_path_join top name Hgood), <- app_assoc.
      reflexivity.
    + cbn [Fs.locate]. rewrite (In_lookup _ _ _ Hdistinct Hin). exact Hloc.
Qed.

(** Every file of the tree is listed by the walk. *)
Lemma walk_dir_complete (x : node) :
  forall (top : string) (c : list string) (text : string),
    well_formed x = true -> c <> [] ->
    Fs.locate x c = Fs.Found (File text) ->
    exists root dirs files file,
      In (root, dirs, files) (Fs.walk_dir top x) /\ In file files
      /\ Fs.components (Fs.path_join root file) = Fs.components top ++ c.
Proof.
  induction x as [text0|entries IH] using node_nested_ind;
    intros top c text Hwf Hc Hloc.
  { destruct c; [contradiction|discriminate]. }
  destruct c as [|name c]; [contradiction|]. clear Hc.
  destruct (well_formed_Dir _ Hwf) as [Hdistinct Hall].
  cbn [Fs.locate] in Hloc.
  destruct (Fs.lookup name entries) as [y|] eqn:Hy; [|discriminate].
  apply lookup_In in Hy. destruct (Hall _ _ Hy) as [Hgood Hchild].
  destruct c as [|name' c].
  - injection Hloc as ->.
    exists top, (Fs.dirnames entries), (Fs.filenames entries), name.
    split; [left; reflexivity|]. split.
    + apply In_filenames. exists text. exact Hy.
    + apply components_path_join. exact Hgood.
  - rewrite List.Forall_forall in IH.
    destruct (IH _ Hy (Fs.path_join top name) (name' :: c) text Hchild
                ltac:(discriminate) Hloc)
      as (root & dirs & files & file & Hitem & Hfile & Hcomps).
    exists root, dirs, files, file. split; [|split; [exact Hfile|]].
    + cbn [Fs.walk_dir]. right. apply in_flat_map.
      exists (name, y). split; [exact Hy|exact Hitem].
    + rewrite Hcomps, (components_path_join top name Hgood), <- app_assoc.
      reflexivity.
Qed.

End WalkFacts.

Import BuildWindows.

Lemma archive_app (t t' : list event) : archive (t ++ t') = archive t ++ archive t'.
Proof. unfold archive. rewrite !flat_map_concat_map, map_app, concat_app. reflexivity. Qed.

Lemma exec_zip_files (w : world) (root : string) (files : list string) :
  (forall file, In file files ->
     exists text, Fs.read (cwd w) (Fs.path_join root file) = inr text) ->
  exists t,
    exec w (zip_files root files) = (t, Returned tt)
    /\ forall arcname text,
         In (arcname, text) (archive t) <->
         exists file,
           In file files
           /\ arcname = Fs.relpath (Fs.path_join root file) BASE_DIR
           /\ Fs.read (cwd w) (Fs.path_join root file) = inr text.
Proof.
  induction files as [|file rest IH]; intros Hread.
  - exists []. split; [reflexivity|]. intros arcname text. split.
    + intros [].
    + intros (file & [] & _).
  - destruct (Hread file (or_introl eq_refl)) as [text0 Htext0].
    destruct IH as (t & Ht & Hmembers).
    { intros f Hf. apply Hread. right. exact Hf. }
    exists (Printed ("Zipping " +:+ Fs.path_join root file)
            :: Stored (Fs.relpath (Fs.path_join root file) BASE_DIR) text0 :: t).
    split.
    + cbn [zip_files bind exec print zip_write]. rewrite Htext0, Ht. reflexivity.
    + intros arcname text. cbn [archive flat_map app In]. split.
      * intros [Heq|Hin].
        -- injection Heq as <- <-. exists file. auto.
        -- apply Hmembers in Hin as (f & Hf & Hname & Hr). exists f. auto.
      * intros (f & [<-|Hf] & Hname & Hr).
        -- left. rewrite Htext0 in Hr. injection Hr as <-. rewrite Hname.
           reflexivity.
        -- right. apply Hmembers. exists f. auto.
Qed.

Lemma exec_zip_tree (w : world) (items : list Fs.walk_item) :
  (forall root dirs files file,
     In (root, dirs, files) items -> In file files ->
     exists text, Fs.read (cwd w) (Fs.path_join root file) = inr text) ->
  exists t,
    exec w (zip_tree items) = (t, Returned tt)
    /\ forall arcname text,
         In (arcname, text) (archive t) <->
         exists root dirs files file,
           In (root, dirs, files) items /\ In file files
           /\ arcname = Fs.relpath (Fs.path_join root file) BASE_DIR
           /\ Fs.read (cwd w) (Fs.path_join root file) = inr text.
Proof.
  induction items as [|[[root dirs] files] rest IH]; intros Hread.
  - exists []. split; [reflexivity|]. intros arcname text. split.
    + intros [].
    + intros (r & d & f & file & [] & _).
  - destruct (exec_zip_files w root files) as (t1 & Ht1 & Hm1).
    { intros file Hfile. apply (Hread root dirs files file); [left; reflexivity|exact Hfile]. }
    destruct IH as (t2 & Ht2 & Hm2).
    { intros r d f file Hin Hfile. apply (Hread r d f file); [right; exact Hin|exact Hfile]. }
    exists (t1 ++ t2). split.
    + cbn [zip_tree].
      rewrite (exec_bind_returned w (zip_files root files) (fun _ => zip_tree rest)
                 t1 tt Ht1), Ht2. reflexivity.
    + intros arcname text. rewrite archive_app, in_app_iff, Hm1, Hm2. split.
      * intros [(file & Hfile & Hrest)|(r & d & f & file & Hin & Hrest)].
        -- exists root, dirs, files, file. split; [left; reflexivity|].
           split; [exact Hfile|exact Hrest].
        -- exists r, d, f, file. split; [right; exact Hin|exact Hrest].
      * intros (r & d & f & file & [Heq|Hin] & Hfile & Hrest).
        -- injection Heq as <- <- <-. left. exists file. auto.
        -- right. exists r, d, f, file. auto.
Qed.

Lemma exec_os_walk_bind {A : Type} (w : world) (top : string)
    (k : list Fs.walk_item -> script A) :
  exec w (bind (os_walk top) k)
  = (Walked top :: fst (exec w (k (Fs.walk (cwd w) top))),
     snd (exec w (k (Fs.walk (cwd w) top)))).
Proof.
  unfold os_walk. cbn [bind exec].
  destruct (exec w (k (Fs.walk (cwd w) top))). reflexivity.
Qed.

Lemma exec_zip_release_folder (w : world) :
  exec w zip_release_folder
  = (Walked BASE_DIR :: fst (exec w (zip_tree (Fs.walk (cwd w) BASE_DIR))),
     snd (exec w (zip_tree (Fs.walk (cwd w) BASE_DIR)))).
Proof. unfold zip_release_folder. apply exec_os_walk_bind. Qed.

Lemma walk_bundle (w : world) (bundle : list (string * node)) :
  Fs.locate (Dir (cwd w)) (Fs.components BASE_DIR) = Fs.Found (Dir bundle) ->
  Fs.walk (cwd w) BASE_DIR = Fs.walk_dir BASE_DIR (Dir bundle).
Proof. intros H. unfold Fs.walk. rewrite H. reflexivity. Qed.

Lemma read_bundle (w : world) (bundle : list (string * node))
    (c : list string) (path : string) :
  Fs.locate (Dir (cwd w)) (Fs.components BASE_DIR) = Fs.Found (Dir bundle) ->
  Fs.components path = Fs.components BASE_DIR ++ c ->
  Fs.read (cwd w) path
  = match Fs.locate (Dir bundle) c with
    | Fs.Found (File text) => inr text
    | Fs.Found (Dir _) => inl (IsADirectoryError path)
    | Fs.Missing => inl (FileNotFoundError path)
    | Fs.ThroughFile => inl (NotADirectoryError path)
    end.
Proof.
  intros Hbundle Hpath. unfold Fs.read.
  rewrite Hpath, (TreeFacts.locate_app _ _ _ c Hbundle). reflexivity.
Qed.

(** The members of the archive are the files of the bundle, each under the
    slash-joined components of its path below the bundle. *)
Lemma zip_release_folder_members (w : world) (bundle : list (string * node)) :
  Fs.locate (Dir (cwd w)) (Fs.components BASE_DIR) = Fs.Found (Dir bundle) ->
  well_formed (Dir bundle) = true ->
  exists t,
    exec w zip_release_folder = (Walked BASE_DIR :: t, Returned tt)
    /\ forall arcname text,
         In (arcname, text) (archive t) <->
         exists c,
           c <> [] /\ arcname = Py.join "/" c
           /\ Fs.locate (Dir bundle) c = Fs.Found (File text).
Proof.
  intros Hbundle Hwf.
  destruct (exec_zip_tree w (Fs.walk_dir BASE_DIR (Dir bundle))) as (t & Ht & Hm).
  { intros root dirs files file Hitem Hfile.
    destruct (WalkFacts.walk_dir_sound _ _ _ _ _ _ Hwf Hitem Hfile)
      as (c & text & _ & Hcomps & Hloc).
    exists text. rewrite (read_bundle w bundle c _ Hbundle Hcomps), Hloc.
    reflexivity. }
  exists t. split.
  - rewrite exec_zip_release_folder, (walk_bundle w bundle Hbundle), Ht.
    reflexivity.
  - intros arcname text. rewrite Hm. split.
    + intros (root & dirs & files & file & Hitem & Hfile & Hname & Hr).
      destruct (WalkFacts.walk_dir_sound _ _ _ _ _ _ Hwf Hitem Hfile)
        as (c & text' & Hc & Hcomps & Hloc).
      exists c. split; [exact Hc|]. split.
      * rewrite Hname. apply NameFacts.relpath_below; assumption.
      * rewrite (read_bundle w bundle c _ Hbundle Hcomps), Hloc in Hr.
        injection Hr as ->. exact Hloc.
    + intros (c & Hc & Hname & Hloc).
      destruct (WalkFacts.walk_dir_complete _ BASE_DIR c text Hwf Hc Hloc)
        as (root & dirs & files & file & Hitem & Hfile & Hcomps).
      exists root, dirs, files, file. split; [exact Hitem|].
      split; [exact Hfile|]. split.
      * rewrite Hname. symmetry. apply NameFacts.relpath_below; assumption.
      * rewrite (read_bundle w bundle c _ Hbundle Hcomps), Hloc. reflexivity.
Qed.

(** ** Unpacking the archive *)

Module UnzipFacts.

Import Unzip.

Lemma lookup_put (name n : string) (x : node) (entries : list (string * node)) :
  Fs.lookup n (put name x entries)
  = if String.eqb name n then Some x else Fs.lookup n entries.
Proof.
  induction entries as [|[m y] es IH]; cbn [put Fs.lookup]; [reflexivity|].
  destruct (String.eqb_spec m name) as [->|Hm]; cbn [Fs.lookup].
  - destruct (String.eqb name n); reflexivity.
  - rewrite IH. destruct (String.eqb_spec m n) as [->|Hn]; [|reflexivity].
    apply String.eqb_neq in Hm. rewrite String.eqb_sym, Hm. reflexivity.
Qed.

Lemma kind_at_nil (entries : list (string * node)) : kind_at entries [] = IsDir.
Proof. reflexivity. Qed.

Lemma kind_at_cons (entries : list (string * node)) (n : string) (q : list string) :
  kind_at entries (n :: q)
  = match Fs.lookup n entries with
    | Some (Dir sub) => kind_at sub q
    | Some (File text) => match q with [] => IsFile text | _ :: _ => Nothing end
    | None => Nothing
    end.
Proof.
  unfold kind_at. cbn [Fs.locate].
  destruct (Fs.lookup n entries) as [[text|sub]|]; destruct q; reflexivity.
Qed.

Lemma kind_at_file (entries : list (string * node)) (c : list string) (text : string) :
  kind_at entries c = IsFile text <-> Fs.locate (Dir entries) c = Fs.Found (File text).
Proof.
  unfold kind_at.
  destruct (Fs.locate (Dir entries) c) as [[t|sub]| |]; split;
    congruence.
Qed.

Lemma initial_refl (c : list string) : initial c c = true.
Proof.
  induction c as [|x c IH]; [reflexivity|].
  cbn [initial]. rewrite String.eqb_refl. exact IH.
Qed.

Lemma initial_app (p c : list string) :
  initial p c = true <-> exists more, c = p ++ more.
Proof.
  revert c. induction p as [|x p IH]; intros c; cbn [initial].
  - split; [intros _; exists c; reflexivity|reflexivity].
  - destruct c as [|y c].
    + split; [discriminate|intros [more H]; discriminate H].
    + rewrite andb_true_iff, String.eqb_eq, IH. split.
      * intros [-> [more ->]]. exists more. reflexivity.
      * intros [more H]. injection H as -> ->. split; [reflexivity|].
        exists more. reflexivity.
Qed.

Lemma write_file_here (name text : string) (T : list (string * node)) :
  write_file [name] text T
  = match Fs.lookup name T with
    | Some (Dir _) => None
    | _ => Some (put name (File text) T)
    end.
Proof. reflexivity. Qed.

Lemma write_file_below (name r : string) (rest : list string) (text : string)
    (T : list (string * node)) :
  write_file (name :: r :: rest) text T
  = match Fs.lookup name T with
    | Some (File _) => None
    | Some (Dir sub) =>
        sub' ← write_file (r :: rest) text sub; Some (put name (Dir sub') T)
    | None =>
        sub' ← write_file (r :: rest) text []; Some (put name (Dir sub') T)
    end.
Proof. reflexivity. Qed.

(** Writing one member: the file is there, the directories on its way are
    there, and nothing else changed. *)
Lemma write_file_spec (c : list string) :
  forall (text : string) (T : list (string * node)),
    c <> [] ->
    (forall p t, initial p c = true -> p <> c -> kind_at T p <> IsFile t) ->
    kind_at T c <> IsDir ->
    exists T',
      write_file c text T = Some T'
      /\ kind_at T' c = IsFile text
      /\ (forall p, initial p c = true -> p <> c -> kind_at T' p = IsDir)
      /\ (forall q, initial q c = false -> kind_at T' q = kind_at T q).
Proof.
  induction c as [|name rest IH]; intros text T Hne Hfiles Hdir;
    [contradiction|]. clear Hne.
  destruct rest as [|r rest].
  - (* the file goes into this directory *)
    clear IH. rewrite write_file_here.
    rewrite kind_at_cons in Hdir.
    assert (Hwrite : match Fs.lookup name T with
                     | Some (Dir _) => None
                     | _ => Some (put name (File text) T)
                     end = Some (put name (File text) T)).
    { destruct (Fs.lookup name T) as [[t|sub]|]; try reflexivity.
      rewrite kind_at_nil in Hdir. contradiction. }
    exists (put name (File text) T). split; [exact Hwrite|]. split; [|split].
    + rewrite kind_at_cons, lookup_put, String.eqb_refl. reflexivity.
    + intros [|x p] Hp Hneq; [reflexivity|].
      cbn [initial] in Hp. apply andb_true_iff in Hp as [Hx Hp].
      apply String.eqb_eq in Hx. subst x.
      destruct p; [contradiction|discriminate].
    + intros [|n q] Hq; [discriminate|].
      rewrite !kind_at_cons, lookup_put.
      destruct (String.eqb_spec name n) as [<-|Hn]; [|reflexivity].
      cbn [initial] in Hq. rewrite String.eqb_refl in Hq.
      destruct q as [|n' q]; [discriminate|].
      destruct (Fs.lookup name T) as [[t|sub]|]; try reflexivity.
      rewrite kind_at_nil in Hdir. contradiction.
  - (* the file goes below the directory [name] *)
    rewrite write_file_below.
    assert (Hsub : exists sub,
               match Fs.lookup name T with
               | Some (File _) => None
               | Some (Dir sub) =>
                   sub' ← write_file (r :: rest) text sub;
                   Some (put name (Dir sub') T)
               | None =>
                   sub' ← write_file (r :: rest) text [];
                   Some (put name (Dir sub') T)
               end
               = (sub' ← write_file (r :: rest) text sub;
                  Some (put name (Dir sub') T))
               /\ forall q, q <> [] -> kind_at T (name :: q) = kind_at sub q).
    { destruct (Fs.lookup name T) as [[t|sub]|] eqn:Hlook.
      - exfalso. apply (Hfiles [name] t).
        + cbn [initial]. rewrite String.eqb_refl. reflexivity.
        + discriminate.
        + rewrite kind_at_cons, Hlook. reflexivity.
      - exists sub. split; [reflexivity|]. intros q _.
        rewrite kind_at_cons, Hlook. reflexivity.
      - exists []. split; [reflexivity|]. intros q Hq.
        rewrite kind_at_cons, Hlook. destruct q as [|n q]; [contradiction|].
        rewrite kind_at_cons. reflexivity. }
    destruct Hsub as (sub & -> & Hsame).
    destruct (IH text sub) as (sub' & Hwrite & Hfile & Hdirs & Hrest).
    + discriminate.
    + intros p t Hp Hneq Hkind.
      destruct p as [|x p].
      * rewrite kind_at_nil in Hkind. discriminate.
      * apply (Hfiles (name :: x :: p) t).
        -- cbn [initial]. rewrite String.eqb_refl. exact Hp.
        -- congruence.
        -- rewrite Hsame; [exact Hkind|discriminate].
    + rewrite <- Hsame; [exact Hdir|discriminate].
    + rewrite Hwrite. cbn [mbind option_bind].
      exists (put name (Dir sub') T). split; [reflexivity|]. split; [|split].
      * rewrite kind_at_cons, lookup_put, String.eqb_refl. exact Hfile.
      * intros [|x p] Hp Hneq; [reflexivity|].
        cbn [initial] in Hp. apply andb_true_iff in Hp as [Hx Hp].
        apply String.eqb_eq in Hx. subst x.
        rewrite kind_at_cons, lookup_put, String.eqb_refl.
        apply Hdirs; [exact Hp|congruence].
      * intros [|n q] Hq; [discriminate|].
        rewrite kind_at_cons, lookup_put.
        destruct (String.eqb_spec name n) as [<-|Hn].
        -- cbn [initial] in Hq. rewrite String.eqb_refl in Hq.
           rewrite (Hrest q Hq). symmetry. apply Hsame.
           intros ->. discriminate.
        -- rewrite kind_at_cons. reflexivity.
Qed.

End UnzipFacts.

Section Extraction.

Import Unzip UnzipFacts.

Variable bundle : list (string * node).

(** Two files of one tree: neither path leads through the other. *)
Lemma file_compat (c c' : list string) (t t' : string) :
  kind_at bundle c = IsFile t -> kind_at bundle c' = IsFile t' ->
  initial c' c = true -> c' = c /\ t' = t.
Proof.
  intros Hc Hc' Hi. apply kind_at_file in Hc, Hc'.
  apply initial_app in Hi as [more ->].
  destruct (TreeFacts.locate_below_file _ _ _ _ _ Hc' Hc) as [-> ->].
  rewrite app_nil_r. auto.
Qed.

Lemma extract_into_cons (arcname text : string) (members : list (string * string))
    (T : list (string * node)) :
  extract_into ((arcname, text) :: members) T
  = (T' ← write_file (Fs.components arcname) text T; extract_into members T').
Proof. reflexivity. Qed.

(** Unpacking members that are files of the bundle, into a tree [T] that
    holds the files [S] of the bundle and the directories above them:
    the result holds the files of [S] and of the members, and the
    directories above them. *)
Lemma extract_into_spec (members : list (string * string)) :
  forall (T : list (string * node)) (S : list (list string * string)),
    (forall arcname text, In (arcname, text) members ->
       Fs.components arcname <> []
       /\ kind_at bundle (Fs.components arcname) = IsFile text) ->
    (forall c text, In (c, text) S -> kind_at bundle c = IsFile text) ->
    (forall q text, kind_at T q = IsFile text <-> In (q, text) S) ->
    (forall q, kind_at T q = IsDir <->
       q = [] \/ exists c text, In (c, text) S /\ initial q c = true /\ q <> c) ->
    exists T',
      extract_into members T = Some T'
      /\ (forall q text,
            kind_at T' q = IsFile text <->
            In (q, text) S
            \/ exists arcname, In (arcname, text) members /\ Fs.components arcname = q)
      /\ (forall q,
            kind_at T' q = IsDir <->
            q = []
            \/ exists c text,
                 (In (c, text) S
                  \/ exists arcname,
                       In (arcname, text) members /\ Fs.components arcname = c)
                 /\ initial q c = true /\ q <> c).
Proof.
  induction members as [|[a text] ms IH]; intros T S Hmem HS HF HD.
  - exists T. split; [reflexivity|]. split.
    + intros q t. rewrite HF. split; [auto|].
      intros [H|(arcname & [] & _)]. exact H.
    + intros q. rewrite HD. split.
      * intros [->|(c & t & Hin & Hi & Hne)]; [left; reflexivity|].
        right. exists c, t. auto.
      * intros [->|(c & t & [Hin|(arcname & [] & _)] & Hi & Hne)];
          [left; reflexivity|]. right. exists c, t. auto.
  - destruct (Hmem a text (or_introl eq_refl)) as [Hc_ne Hc_file].
    set (c := Fs.components a) in *.
    destruct (write_file_spec c text T Hc_ne) as (T1 & Hw & Hfile1 & Hdirs1 & Hrest1).
    { intros p t Hi Hne Hkind. apply HF, HS in Hkind.
      destruct (file_compat c p text t Hc_file Hkind Hi) as [-> _].
      contradiction. }
    { intros Hkind. apply HD in Hkind as [->|(c' & t' & Hin & Hi & Hne)];
        [contradiction|].
      apply HS in Hin.
      destruct (file_compat c' c t' text Hin Hc_file Hi) as [-> _].
      contradiction. }
    destruct (IH T1 ((c, text) :: S)) as (T' & Hx & HF' & HD').
    + intros arcname t Hin. apply Hmem. right. exact Hin.
    + intros c' t' [[= <- <-]|Hin]; [exact Hc_file|apply HS; exact Hin].
    + intros q t. cbn [In].
      destruct (decide (q = c)) as [->|Hqc].
      * rewrite Hfile1. split.
        -- intros [= ->]. left. reflexivity.
        -- intros [[= ->]|Hin]; [reflexivity|].
           apply HS in Hin. congruence.
      * destruct (initial q c) eqn:Hi.
        -- rewrite (Hdirs1 q Hi Hqc). split; [discriminate|].
           intros [[= Heq _]|Hin]; [congruence|].
           apply HS in Hin.
           destruct (file_compat c q text t Hc_file Hin Hi) as [-> _].
           contradiction.
        -- rewrite (Hrest1 q Hi), HF. split; [auto|].
           intros [[= Heq _]|Hin]; [congruence|exact Hin].
    + intros q. cbn [In].
      destruct (decide (q = c)) as [->|Hqc].
      * rewrite Hfile1. split; [discriminate|].
        intros [->|(c' & t' & [[= <- <-]|Hin] & Hi & Hne)];
          [contradiction|contradiction|].
        apply HS in Hin.
        destruct (file_compat c' c t' text Hin Hc_file Hi) as [-> _].
        contradiction.
      * destruct (initial q c) eqn:Hi.
        -- rewrite (Hdirs1 q Hi Hqc). split; [|reflexivity].
           intros _. right. exists c, text. auto.
        -- rewrite (Hrest1 q Hi), HD. split.
           ++ intros [->|(c' & t' & Hin & Hi' & Hne)]; [left; reflexivity|].
              right. exists c', t'. auto.
           ++ intros [->|(c' & t' & [[= <- <-]|Hin] & Hi' & Hne)];
                [left; reflexivity|congruence|].
              right. exists c', t'. auto.
    + exists T'. split; [rewrite extract_into_cons; fold c; rewrite Hw; exact Hx|].
      split.
      * intros q t. rewrite HF'. cbn [In]. split.
        -- intros [[[= <- <-]|Hin]|(arcname & Hin & Hq)].
           ++ right. exists a. auto.
           ++ left. exact Hin.
           ++ right. exists arcname. auto.
        -- intros [Hin|(arcname & [[= <- <-]|Hin] & Hq)].
           ++ left. right. exact Hin.
           ++ left. left. rewrite <- Hq. reflexivity.
           ++ right. exists arcname. auto.
      * intros q. rewrite HD'. cbn [In]. split.
        -- intros [->|(c' & t' & Hwhere & Hi & Hne)]; [left; reflexivity|].
           right. exists c', t'. split; [|auto].
           destruct Hwhere as [[[= <- <-]|Hin]|(arcname & Hin & Hq)].
           ++ right. exists a. auto.
           ++ left. exact Hin.
           ++ right. exists arcname. auto.
        -- intros [->|(c' & t' & Hwhere & Hi & Hne)]; [left; reflexivity|].
           right. exists c', t'. split; [|auto].
           destruct Hwhere as [Hin|(arcname & [[= <- <-]|Hin] & Hq)].
           ++ left. right. exact Hin.
           ++ left. left. rewrite <- Hq. reflexivity.
           ++ right. exists arcname. auto.
Qed.

End Extraction.

(** ** Unpacking the archive of the Linux packager *)

Module TarFacts.

Import Unzip UnzipFacts Tar.

Lemma put_put (name : string) (x y : node) (T : list (string * node)) :
  put name x (put name y T) = put name x T.
Proof.
  induction T as [|[n z] T IH]; cbn [put].
  - rewrite String.eqb_refl. reflexivity.
  - destruct (String.eqb n name) eqn:Hn; cbn [put]; rewrite ?String.eqb_refl, ?Hn.
    + reflexivity.
    + rewrite IH. reflexivity.
Qed.

Lemma put_fresh (name : string) (x : node) (T : list (string * node)) :
  Fs.lookup name T = None -> put name x T = T ++ [(name, x)].
Proof.
  induction T as [|[n z] T IH]; cbn [put Fs.lookup app]; [reflexivity|].
  destruct (String.eqb n name); [discriminate|].
  intros H. rewrite (IH H). reflexivity.
Qed.

Lemma lookup_app_fresh (name n : string) (x : node) (T : list (string * node)) :
  Fs.lookup name T = None -> n <> name -> Fs.lookup name (T ++ [(n, x)]) = None.
Proof.
  intros HT Hn. induction T as [|[m z] T IH]; cbn [app Fs.lookup] in *.
  - apply String.eqb_neq in Hn. rewrite Hn. reflexivity.
  - destruct (String.eqb m name); [discriminate|]. apply IH. exact HT.
Qed.

(** A member that goes below the directory [name] changes nothing but
    that directory. *)
Lemma place_below (name : string) (t : list string * option string)
    (sub T : list (string * node)) :
  place (name :: fst t, snd t) (put name (Dir sub) T)
  = (sub' ← place t sub; Some (put name (Dir sub') T)).
Proof.
  destruct t as [c [text|]]; unfold place; cbn [fst snd].
  - destruct c as [|r rest].
    + rewrite write_file_here, lookup_put, String.eqb_refl. reflexivity.
    + rewrite write_file_below, lookup_put, String.eqb_refl.
      destruct (write_file (r :: rest) text sub) as [sub'|]; cbn [mbind option_bind];
        [|reflexivity].
      rewrite put_put. reflexivity.
  - cbn [make_dir]. rewrite lookup_put, String.eqb_refl.
    destruct (make_dir c sub) as [sub'|]; cbn [mbind option_bind]; [|reflexivity].
    rewrite put_put. reflexivity.
Qed.

Lemma extract_into_app (ts rest : list (list string * option string))
    (T : list (string * node)) :
  extract_into (ts ++ rest) T = (T' ← extract_into ts T; extract_into rest T').
Proof.
  revert T. induction ts as [|t ts IH]; intros T; cbn [app extract_into];
    [reflexivity|].
  destruct (place t T) as [T'|]; cbn [mbind option_bind]; [apply IH|reflexivity].
Qed.

Lemma extract_into_below (name : string) (ts : list (list string * option string))
    (sub T : list (string * node)) :
  extract_into (map (fun t => (name :: fst t, snd t)) ts) (put name (Dir sub) T)
  = (sub' ← extract_into ts sub; Some (put name (Dir sub') T)).
Proof.
  revert sub. induction ts as [|t ts IH]; intros sub; cbn [map extract_into];
    [reflexivity|].
  rewrite place_below.
  destruct (place t sub) as [sub'|]; cbn [mbind option_bind]; [apply IH|reflexivity].
Qed.

(** Unpacking what the entries of a directory brought into the archive,
    after the entries [done] that came before them. *)
Lemma extract_entries (entries : list (string * node)) :
  Forall (fun e =>
            well_formed (snd e) = true ->
            forall name T, Fs.lookup name T = None ->
              extract_into (map (fun t => (name :: fst t, snd t)) (listing (snd e))) T
              = Some (T ++ [(name, snd e)])) entries ->
  forall done : list (string * node),
    distinct (map fst entries) = true ->
    (forall e, In e entries -> well_formed (snd e) = true) ->
    (forall e, In e entries -> Fs.lookup (fst e) done = None) ->
    extract_into
      (flat_map (fun e => map (fun t => (fst e :: fst t, snd t)) (listing (snd e)))
         entries) done
    = Some (done ++ entries).
Proof.
  induction 1 as [|[n child] es Hchild _ IH]; intros done Hd Hwf Hfresh;
    cbn [flat_map].
  - rewrite app_nil_r. reflexivity.
  - cbn [map distinct fst snd] in *. apply andb_true_iff in Hd as [Hn Hd].
    rewrite extract_into_app.
    rewrite (Hchild (Hwf (n, child) (or_introl eq_refl)) n done
               (Hfresh (n, child) (or_introl eq_refl))).
    cbn [mbind option_bind].
    rewrite (IH (done ++ [(n, child)]) Hd).
    + rewrite <- app_assoc. reflexivity.
    + intros e He. apply Hwf. right. exact He.
    + intros [m z] He. cbn [fst]. apply lookup_app_fresh.
      * apply (Hfresh (m, z)). right. exact He.
      * intros ->. apply negb_true_iff in Hn.
        assert (Hmem : Py.mem m (map fst es) = true).
        { apply TreeFacts.mem_In. apply (in_map fst) in He. exact He. }
        congruence.
Qed.

(** Unpacking what a tree brought into the archive, under a name that is
    new where it goes, adds the tree under that name. *)
Lemma extract_listing (x : node) :
  well_formed x = true ->
  forall name T, Fs.lookup name T = None ->
    extract_into (map (fun t => (name :: fst t, snd t)) (listing x)) T
    = Some (T ++ [(name, x)]).
Proof.
  induction x as [text|entries IH] using TreeFacts.node_nested_ind;
    intros Hwf name T Hname.
  - cbn [listing map extract_into fst snd]. unfold place. cbn [fst snd].
    rewrite write_file_here, Hname. cbn [mbind option_bind].
    rewrite (put_fresh _ _ _ Hname). reflexivity.
  - destruct (TreeFacts.well_formed_Dir _ Hwf) as [Hd Hall].
    cbn [listing map extract_into fst snd]. unfold place at 1. cbn [fst snd make_dir].
    rewrite Hname. cbn [make_dir mbind option_bind].
    rewrite extract_into_below, (extract_entries entries IH [] Hd).
    + cbn [mbind option_bind app]. rewrite (put_fresh _ _ _ Hname).
      reflexivity.
    + intros [n child] He. apply (Hall n child He).
    + intros e _. reflexivity.
Qed.

(** The members of the archive, by the components of their names, are what
    the tree holds. *)
Lemma target_create (x : node) :
  well_formed x = true ->
  forall name,
    map target (create name x)
    = map (fun t => (Fs.components name ++ fst t, snd t)) (listing x).
Proof.
  induction x as [text|entries IH] using TreeFacts.node_nested_ind;
    intros Hwf name.
  - cbn [create listing map target fst snd]. rewrite app_nil_r. reflexivity.
  - destruct (TreeFacts.well_formed_Dir _ Hwf) as [_ Hall].
    cbn [create listing map target fst snd].
    change (name +:+ "/") with (name +:+ String "/" EmptyString).
    rewrite PathFacts.components_append.
    change (Fs.components EmptyString) with (@nil string).
    f_equal.
    clear Hwf. induction IH as [|[n child] es Hchild _ IHes]; [reflexivity|].
    cbn [flat_map fst snd]. rewrite !map_app. f_equal.
    + destruct (Hall n child (or_introl eq_refl)) as [Hn Hc].
      rewrite (Hchild Hc).
      change (name +:+ "/" +:+ n) with (name +:+ String "/" n).
      rewrite PathFacts.components_append, (NameFacts.components_good n Hn).
      rewrite map_map. apply map_ext. intros [c k]. cbn [fst snd].
      rewrite <- app_assoc. reflexivity.
    + apply IHes. intros m z He. apply Hall. right. exact He.
Qed.

Lemma join_snoc (top : list string) (name : string) :
  top <> [] -> Py.join "/" top +:+ "/" +:+ name = Py.join "/" (top ++ [name]).
Proof.
  intros Hne. induction top as [|x top IH]; [contradiction|]. clear Hne.
  destruct top as [|y top]; [reflexivity|].
  change (Py.join "/" (x :: y :: top))
    with (x +:+ String "/" (Py.join "/" (y :: top))).
  change ((x :: y :: top) ++ [name]) with (x :: y :: (top ++ [name])).
  change (Py.join "/" (x :: y :: top ++ [name]))
    with (x +:+ String "/" (Py.join "/" ((y :: top) ++ [name]))).
  rewrite <- IH; [|discriminate].
  rewrite NameFacts.append_assoc. reflexivity.
Qed.

(** The names of the members: the path from where [tar] was started,
    components joined by slashes, a directory with a slash after it. *)
Lemma create_named (x : node) :
  forall top, top <> [] ->
    create (Py.join "/" top) x = map (named top) (listing x).
Proof.
  induction x as [text|entries IH] using TreeFacts.node_nested_ind;
    intros top Htop.
  - cbn [create listing map]. unfold named. cbn [fst snd].
    rewrite app_nil_r. reflexivity.
  - cbn [create listing map]. unfold named at 1. cbn [fst snd].
    rewrite app_nil_r. f_equal.
    induction IH as [|[n child] es Hchild _ IHes]; [reflexivity|].
    cbn [flat_map fst snd]. rewrite map_app, IHes. f_equal.
    rewrite (join_snoc top n Htop), Hchild.
    + rewrite map_map. apply map_ext. intros [c k].
      unfold named. cbn [fst snd]. rewrite <- app_assoc. reflexivity.
    + destruct top; discriminate.
Qed.

Lemma target_create_root (bundle : list (string * node)) :
  well_formed (Dir bundle) = true ->
  map target (create "." (Dir bundle)) = listing (Dir bundle).
Proof.
  intros Hwf. rewrite (target_create _ Hwf).
  change (Fs.components ".") with (@nil string).
  rewrite <- (map_id (listing (Dir bundle))) at 2.
  apply map_ext. intros [c k]. reflexivity.
Qed.

(** What the listing of a tree holds is what the paths name in it. *)
Lemma In_listing (x : node) :
  well_formed x = true ->
  forall c k,
    In (c, k) (listing x) <->
    exists y, Fs.locate x c = Fs.Found y
              /\ k = match y with File text => Some text | Dir _ => None end.
Proof.
  induction x as [text|entries IH] using TreeFacts.node_nested_ind;
    intros Hwf c k.
  - cbn [listing In]. split.
    + intros [[= <- <-]|[]]. exists (File text). auto.
    + intros (y & Hy & ->). destruct c; [|discriminate].
      injection Hy as <-. left. reflexivity.
  - destruct (TreeFacts.well_formed_Dir _ Hwf) as [Hd Hall].
    cbn [listing In]. rewrite in_flat_map. split.
    + intros [[= <- <-]|([n child] & He & Hin)].
      * exists (Dir entries). auto.
      * apply in_map_iff in Hin as ([c' k'] & [= <- <-] & Hin).
        cbn [fst snd] in *.
        rewrite List.Forall_forall in IH.
        apply (IH (n, child) He (proj2 (Hall n child He))) in Hin
          as (y & Hy & ->).
        exists y. split; [|reflexivity].
        cbn [Fs.locate]. rewrite (TreeFacts.In_lookup _ _ _ Hd He). exact Hy.
    + intros (y & Hy & ->). destruct c as [|n c].
      * injection Hy as <-. left. reflexivity.
      * right. cbn [Fs.locate] in Hy.
        destruct (Fs.lookup n entries) as [child|] eqn:Hchild; [|discriminate].
        apply TreeFacts.lookup_In in Hchild.
        exists (n, child). split; [exact Hchild|].
        apply in_map_iff. exists (c, match y with File text => Some text | Dir _ => None end).
        split; [reflexivity|].
        rewrite List.Forall_forall in IH.
        apply (IH (n, child) Hchild (proj2 (Hall n child Hchild))).
        exists y. auto.
Qed.

End TarFacts.

(** The archive of the Windows packager holds one member for every file of
    the release bundle and no other member, each under the file's path
    relative to the bundle, components joined by slashes, with the file's
    contents.  Unpacking the archive succeeds and gives back every file of
    the bundle at its relative path with its contents, and no other file;
    the directories it gives back are the root and those of the bundle that
    hold a file at some depth. *)
Lemma zip_archive_round_trip
    (w : world) (bundle : list (string * node)) :
  Fs.locate (Dir (cwd w)) (Fs.components BASE_DIR) = Fs.Found (Dir bundle) ->
  well_formed (Dir bundle) = true ->
  exists (t : list event) (extracted : list (string * node)),
    exec w zip_release_folder = (t, Returned tt)
    /\ (forall arcname text,
          In (arcname, text) (archive t) <->
          exists c, c <> [] /\ arcname = Py.join "/" c
                    /\ kind_at bundle c = IsFile text)
    /\ Unzip.extractall (archive t) = Some extracted
    /\ (forall c text,
          kind_at extracted c = IsFile text <-> kind_at bundle c = IsFile text)
    /\ (forall c,
          kind_at extracted c = IsDir <->
          c = [] \/ exists more text,
                      more <> [] /\ kind_at bundle (c ++ more) = IsFile text).
Proof.
  intros Hbundle Hwf.
  destruct (zip_release_folder_members w bundle Hbundle Hwf) as (t & Ht & Hm).
  assert (Hjoin : forall c text,
             kind_at bundle c = IsFile text ->
             c <> [] /\ Fs.components (Py.join "/" c) = c
             /\ In (Py.join "/" c, text) (archive t)).
  { intros c text Hkind. apply UnzipFacts.kind_at_file in Hkind.
    assert (Hc : c <> []) by (intros ->; discriminate Hkind).
    split; [exact Hc|]. split.
    - apply NameFacts.components_join.
      apply (TreeFacts.locate_good _ _ _ Hwf Hkind).
    - apply Hm. exists c. auto. }
  assert (Hmember : forall arcname text,
             In (arcname, text) (archive t) ->
             Fs.components arcname <> []
             /\ kind_at bundle (Fs.components arcname) = IsFile text).
  { intros arcname text Hin. apply Hm in Hin as (c & Hc & -> & Hloc).
    apply UnzipFacts.kind_at_file in Hloc.
    destruct (Hjoin c text Hloc) as (_ & -> & _). auto. }
  destruct (extract_into_spec bundle (archive t) [] [] Hmember)
    as (extracted & Hx & HF & HD).
  { intros c text []. }
  { intros q text. split; [|intros []].
    destruct q as [|n q]; [discriminate|].
    rewrite UnzipFacts.kind_at_cons. discriminate. }
  { intros q. split.
    - destruct q as [|n q]; [left; reflexivity|].
      rewrite UnzipFacts.kind_at_cons. discriminate.
    - intros [->|(c & text & [] & _)]. reflexivity. }
  exists (Walked BASE_DIR :: t), extracted.
  change (archive (Walked BASE_DIR :: t)) with (archive t).
  split; [exact Ht|]. split; [|split; [exact Hx|split]].
  - intros arcname text. rewrite Hm. split.
    + intros (c & Hc & Hname & Hloc). exists c.
      rewrite UnzipFacts.kind_at_file. auto.
    + intros (c & Hc & Hname & Hkind). exists c.
      rewrite <- UnzipFacts.kind_at_file. auto.
  - intros c text. rewrite HF. split.
    + intros [[]|(arcname & Hin & <-)]. apply (Hmember _ _ Hin).
    + intros Hkind. right. exists (Py.join "/" c).
      destruct (Hjoin c text Hkind) as (_ & Hcomps & Hin). auto.
  - intros c. rewrite HD. split.
    + intros [->|(c' & text & [[]|(arcname & Hin & <-)] & Hi & Hne)];
        [left; reflexivity|].
      right. apply UnzipFacts.initial_app in Hi as [more Hmore].
      exists more, text. split.
      * intros ->. rewrite app_nil_r in Hmore. congruence.
      * rewrite <- Hmore. apply (Hmember _ _ Hin).
    + intros [->|(more & text & Hmore & Hkind)]; [left; reflexivity|].
      right. exists (c ++ more), text.
      destruct (Hjoin _ text Hkind) as (_ & Hcomps & Hin).
      split; [right; exists (Py.join "/" (c ++ more)); auto|]. split.
      * apply UnzipFacts.initial_app. exists more. reflexivity.
      * intros Heq. apply Hmore.
        rewrite <- (app_nil_r c) in Heq at 1.
        apply app_inv_head in Heq. congruence.
Qed.

(** The archive of the Linux packager holds one member for every file and
    for every directory of the release bundle, the root included, and no
    other member, each under the path relative to the bundle, written from
    the dot with slashes, a file with its contents and a directory with a
    slash after its name.  Unpacking the archive succeeds and gives back
    the bundle itself. *)
Lemma tar_archive_round_trip
    (w : world) (bundle : list (string * node)) :
  Fs.locate (Dir (cwd w)) (Fs.components BuildLinux.BASE_DIR)
  = Fs.Found (Dir bundle) ->
  well_formed (Dir bundle) = true ->
  exists (t : list event) (members : list Tar.member),
    BuildLinux.zip_release_folder w = (t, Returned members)
    /\ (forall name text,
          In (Tar.Regular name text) members <->
          exists c, name = Py.join "/" ("." :: c) /\ kind_at bundle c = IsFile text)
    /\ (forall name,
          In (Tar.Directory name) members <->
          exists c, name = Py.join "/" ("." :: c) +:+ "/"
                    /\ kind_at bundle c = IsDir)
    /\ exists extracted,
         Tar.extract members = Some extracted
         /\ extracted = bundle
         /\ same_tree extracted bundle.
Proof.
  intros Hbundle Hwf.
  pose proof (TarFacts.target_create_root bundle Hwf) as Htargets.
  assert (Hnames : Tar.create "." (Dir bundle)
                   = map (Tar.named ["."]) (Tar.listing (Dir bundle))).
  { apply (TarFacts.create_named (Dir bundle) ["."]). discriminate. }
  pose proof (TarFacts.In_listing (Dir bundle) Hwf) as Hin.
  exists (map (fun m => Printed (Tar.name_of m)) (Tar.create "." (Dir bundle))),
    (Tar.create "." (Dir bundle)).
  split; [|split; [|split]].
  - unfold BuildLinux.zip_release_folder, AppVersion.path_exists.
    rewrite Hbundle. reflexivity.
  - intros name text. rewrite Hnames, in_map_iff. unfold kind_at. split.
    + intros ([c [text'|]] & Heq & Ht); unfold Tar.named in Heq;
        cbn [fst snd] in Heq; [|discriminate].
      injection Heq as <- <-. exists c. split; [reflexivity|].
      apply Hin in Ht as (y & -> & Hy). destruct y; [|discriminate].
      injection Hy as ->. reflexivity.
    + intros (c & -> & Hkind).
      destruct (Fs.locate (Dir bundle) c) as [[text'|sub]| |] eqn:Hloc;
        try discriminate.
      injection Hkind as ->. exists (c, Some text). split; [reflexivity|].
      apply Hin. exists (File text). auto.
  - intros name. rewrite Hnames, in_map_iff. unfold kind_at. split.
    + intros ([c [text'|]] & Heq & Ht); unfold Tar.named in Heq;
        cbn [fst snd] in Heq; [discriminate|].
      injection Heq as <-. exists c. split; [reflexivity|].
      apply Hin in Ht as (y & -> & Hy). destruct y; [discriminate|reflexivity].
    + intros (c & -> & Hkind).
      destruct (Fs.locate (Dir bundle) c) as [[text'|sub]| |] eqn:Hloc;
        try discriminate.
      exists (c, None). split; [reflexivity|].
      apply Hin. exists (Dir sub). auto.
  - exists bundle. split; [|split; [reflexivity|intros c; reflexivity]].
    unfold Tar.extract. rewrite Htargets.
    destruct (TreeFacts.well_formed_Dir _ Hwf) as [Hd Hall].
    cbn [Tar.listing Tar.extract_into]. unfold Tar.place at 1.
    cbn [fst snd Tar.make_dir mbind option_bind].
    apply (TarFacts.extract_entries bundle).
    + apply List.Forall_forall. intros [n child] _.
      apply TarFacts.extract_listing.
    + exact Hd.
    + intros [n child] He. apply (Hall n child He).
    + intros e _. reflexivity.
Qed.

(** C8, as amended.  The archive of either packager holds one member for
    every file of the release bundle, under a name that is the file's path
    relative to the bundle, with the file's contents, and no other file;
    unpacking it succeeds and gives back every file of the bundle at its
    relative path, and no other file.  The tar archive of the Linux packager
    holds the directories as well, and unpacking it gives back the tree of
    the bundle exactly.  The zip archive of the Windows packager holds files
    only: unpacking it gives back the directories of the bundle that hold a
    file at some depth, and no directory that holds none. *)
Theorem zip_release_folder_round_trip
    (w : world) (bundle : list (string * node)) :
  well_formed (Dir bundle) = true ->
  (Fs.locate (Dir (cwd w)) (Fs.components BuildLinux.BASE_DIR)
   = Fs.Found (Dir bundle) ->
   exists (t : list event) (members : list Tar.member),
     BuildLinux.zip_release_folder w = (t, Returned members)
     /\ (forall name text,
           In (Tar.Regular name text) members <->
           exists c, name = Py.join "/" ("." :: c) /\ kind_at bundle c = IsFile text)
     /\ (forall name,
           In (Tar.Directory name) members <->
           exists c, name = Py.join "/" ("." :: c) +:+ "/"
                     /\ kind_at bundle c = IsDir)
     /\ exists extracted,
          Tar.extract members = Some extracted
          /\ extracted = bundle
          /\ same_tree extracted bundle)
  /\ (Fs.locate (Dir (cwd w)) (Fs.components BuildWindows.BASE_DIR)
      = Fs.Found (Dir bundle) ->
      exists (t : list event) (extracted : list (string * node)),
        exec w BuildWindows.zip_release_folder = (t, Returned tt)
        /\ (forall arcname text,
              In (arcname, text) (archive t) <->
              exists c, c <> [] /\ arcname = Py.join "/" c
                        /\ kind_at bundle c = IsFile text)
        /\ Unzip.extractall (archive t) = Some extracted
        /\ (forall c text,
              kind_at extracted c = IsFile text <-> kind_at bundle c = IsFile text)
        /\ (forall c,
              kind_at extracted c = IsDir <->
              c = [] \/ exists more text,
                          more <> [] /\ kind_at bundle (c ++ more) = IsFile text)).
Proof.
  intros Hwf. split; intros Hbundle.
  - exact (tar_archive_round_trip w bundle Hbundle Hwf).
  - exact (zip_archive_round_trip w bundle Hbundle Hwf).
Qed.

Lemma zip_release_folder_round_trip_witness :
  well_formed (Dir Sample.bundle) = true
  /\ Fs.locate (Dir (cwd Cases.built_for_linux)) (Fs.components BuildLinux.BASE_DIR)
     = Fs.Found (Dir Sample.bundle)
  /\ Fs.locate (Dir (cwd Sample.good)) (Fs.components BuildWindows.BASE_DIR)
     = Fs.Found (Dir Sample.bundle)
  /\ (exists (t : list event) (members : list Tar.member),
        BuildLinux.zip_release_folder Cases.built_for_linux = (t, Returned members)
        /\ Tar.extract members = Some Sample.bundle)
  /\ (exists (t : list event) (extracted : list (string * node)),
        exec Sample.good BuildWindows.zip_release_folder = (t, Returned tt)
        /\ Unzip.extractall (archive t) = Some extracted
        /\ kind_at extracted ["data"; "flutter_assets"; "AssetManifest.json"]
           = IsFile "{}").
Proof.
  split; [reflexivity|]. split; [reflexivity|]. split; [reflexivity|]. split.
  - destruct (proj1 (zip_release_folder_round_trip Cases.built_for_linux
                       Sample.bundle eq_refl) eq_refl)
      as (t & members & Ht & _ & _ & extracted & Hx & -> & _).
    exists t, members. auto.
  - destruct (proj2 (zip_release_folder_round_trip Sample.good Sample.bundle
                       eq_refl) eq_refl)
      as (t & extracted & Ht & _ & Hx & Hfiles & _).
    exists t, extracted. split; [exact Ht|]. split; [exact Hx|].
    apply Hfiles. reflexivity.
Defined.

(** C8, as the specification states it, fails: the sample bundle is well
    formed and is where the packager looks for it, the archive is written
    and unpacks, and the tree that comes out is not the bundle's, whose
    empty directory [logs] is in no member of the archive. *)
Lemma zip_release_folder_drops_empty_directories :
  Fs.locate (Dir (cwd Sample.good)) (Fs.components BASE_DIR)
  = Fs.Found (Dir Sample.bundle)
  /\ well_formed (Dir Sample.bundle) = true
  /\ exec Sample.good zip_release_folder
     = ([Walked "build/windows/x64/runner/Release";
         Printed "Zipping build/windows/x64/runner/Release/woxxy.exe";
         Stored "woxxy.exe" "MZ";
         Printed "Zipping build/windows/x64/runner/Release/data/app.so";
         Stored "data/app.so" "ELF";
         Printed "Zipping build/windows/x64/runner/Release/data/flutter_assets/AssetManifest.json";
         Stored "data/flutter_assets/AssetManifest.json" "{}"], Returned tt)
  /\ exists extracted,
       Unzip.extractall (archive (fst (exec Sample.good zip_release_folder)))
       = Some extracted
       /\ kind_at Sample.bundle ["logs"] = IsDir
       /\ kind_at extracted ["logs"] = Nothing
       /\ ~ same_tree extracted Sample.bundle.
Proof.
  split; [reflexivity|]. split; [reflexivity|]. split; [vm_compute; reflexivity|].
  eexists. split; [vm_compute; reflexivity|].
  split; [reflexivity|]. split; [reflexivity|].
  intros Hsame. specialize (Hsame ["logs"]). discriminate Hsame.
Qed.

(** * More properties of the scripts *)

(** ** The blocks of the checker, case by case *)

(** The run of the manifest block once both manifests are read. *)
Lemma exec_android_manifest_checks
    (w : world) (info : gmap string string)
    (name package android_manifest android_debug_manifest : string) :
  info !! "name" = Some name ->
  info !! "package" = Some package ->
  Fs.read (cwd w) "android/app/src/main/AndroidManifest.xml" = inr android_manifest ->
  Fs.read (cwd w) "android/app/src/debug/AndroidManifest.xml"
  = inr android_debug_manifest ->
  exec w (android_manifest_checks info)
  = if negb (Py.contains name android_manifest) then
      ([Opened "android/app/src/main/AndroidManifest.xml";
        Printed "Error: app name not found in main / AndroidManifest.xml (android:label)";
        Printed "       check: android/app/src/main/AndroidManifest.xml"], Exited 1)
    else if negb (Py.contains package android_manifest) then
      ([Opened "android/app/src/main/AndroidManifest.xml";
        Opened "android/app/src/debug/AndroidManifest.xml";
        Printed "Error: package name not found in main / AndroidManifest.xml (package)";
        Printed "       check: android/app/src/main/AndroidManifest.xml"], Exited 1)
    else if negb (Py.contains package android_debug_manifest) then
      ([Opened "android/app/src/main/AndroidManifest.xml";
        Opened "android/app/src/debug/AndroidManifest.xml";
        Printed "Error: package name not found in debug / AndroidManifest.xml (package)";
        Printed "       check: android/app/src/debug/AndroidManifest.xml"], Exited 1)
    else
      ([Opened "android/app/src/main/AndroidManifest.xml";
        Opened "android/app/src/debug/AndroidManifest.xml"], Returned tt).
Proof.
  intros Hname Hpackage Hmain Hdebug.
  unfold android_manifest_checks, open_read, getitem. cbn [bind exec].
  rewrite Hmain, Hname. cbn [bind exec].
  destruct (Py.contains name android_manifest);
    cbn [negb when pass bind exec print exit]; [|reflexivity].
  rewrite Hdebug, Hpackage. cbn [bind exec].
  destruct (Py.contains package android_manifest);
    cbn [negb when pass bind exec print exit]; [|reflexivity].
  destruct (Py.contains package android_debug_manifest); reflexivity.
Qed.

(** The manifest block passes exactly when the main manifest holds the name
    and the package and the debug manifest holds the package; the failures
    come in that order, and the debug manifest is never searched for the
    name. *)
Theorem android_manifest_checks_table
    (w : world) (info : gmap string string)
    (name package android_manifest android_debug_manifest : string) :
  info !! "name" = Some name ->
  info !! "package" = Some package ->
  Fs.read (cwd w) "android/app/src/main/AndroidManifest.xml" = inr android_manifest ->
  Fs.read (cwd w) "android/app/src/debug/AndroidManifest.xml"
  = inr android_debug_manifest ->
  exec w (android_manifest_checks info)
  = if negb (Py.contains name android_manifest) then
      ([Opened "android/app/src/main/AndroidManifest.xml";
        Printed "Error: app name not found in main / AndroidManifest.xml (android:label)";
        Printed "       check: android/app/src/main/AndroidManifest.xml"], Exited 1)
    else if negb (Py.contains package android_manifest) then
      ([Opened "android/app/src/main/AndroidManifest.xml";
        Opened "android/app/src/debug/AndroidManifest.xml";
        Printed "Error: package name not found in main / AndroidManifest.xml (package)";
        Printed "       check: android/app/src/main/AndroidManifest.xml"], Exited 1)
    else if negb (Py.contains package android_debug_manifest) then
      ([Opened "android/app/src/main/AndroidManifest.xml";
        Opened "android/app/src/debug/AndroidManifest.xml";
        Printed "Error: package name not found in debug / AndroidManifest.xml (package)";
        Printed "       check: android/app/src/debug/AndroidManifest.xml"], Exited 1)
    else
      ([Opened "android/app/src/main/AndroidManifest.xml";
        Opened "android/app/src/debug/AndroidManifest.xml"], Returned tt).
Proof.
  exact (exec_android_manifest_checks w info name package android_manifest
           android_debug_manifest).
Qed.

Lemma android_manifest_checks_table_witness :
  exec (Cases.with_debug_manifest Cases.manifest_other)
       (android_manifest_checks Sample.woxxy)
  = ([Opened "android/app/src/main/AndroidManifest.xml";
      Opened "android/app/src/debug/AndroidManifest.xml";
      Printed "Error: package name not found in debug / AndroidManifest.xml (package)";
      Printed "       check: android/app/src/debug/AndroidManifest.xml"], Exited 1).
Proof.
  exact (android_manifest_checks_table
           (Cases.with_debug_manifest Cases.manifest_other) Sample.woxxy
           "Woxxy" "com.example.woxxy" Sample.manifest Cases.manifest_other
           eq_refl eq_refl eq_refl eq_refl).
Defined.

(** A descriptor without the key [name] ends the Android block, and the
    iOS block, on an uncaught [KeyError] right after the block's first
    file is opened: nothing is printed. *)
Theorem descriptor_without_name
    (w : world) (info : gmap string string) :
  info !! "name" = None ->
  (forall android_manifest,
     Fs.read (cwd w) "android/app/src/main/AndroidManifest.xml" = inr android_manifest ->
     exec w (android_manifest_checks info)
     = ([Opened "android/app/src/main/AndroidManifest.xml"], Raised (KeyError "name")))
  /\ (forall info_plist,
        Fs.read (cwd w) "ios/Runner/Info.plist" = inr info_plist ->
        exec w (ios_checks info)
        = ([Opened "ios/Runner/Info.plist"], Raised (KeyError "name"))).
Proof.
  intros Hname. split.
  - intros android_manifest Hread.
    unfold android_manifest_checks, open_read, getitem. cbn [bind exec].
    rewrite Hread, Hname. reflexivity.
  - intros info_plist Hread.
    unfold ios_checks, open_read, getitem. cbn [bind exec].
    rewrite Hread, Hname. reflexivity.
Qed.

Lemma descriptor_without_name_witness :
  exec (Cases.with_descriptor Cases.nameless)
       (flutter_check Sample.all_checks)
  = ([Opened "lib/config/version.dart"; Opened "pubspec.yaml"; Loaded "app.json";
      Opened "android/app/src/main/AndroidManifest.xml"], Raised (KeyError "name"))
  /\ exec (Cases.with_descriptor Cases.nameless) (ios_checks Cases.nameless)
     = ([Opened "ios/Runner/Info.plist"], Raised (KeyError "name")).
Proof.
  split; [vm_compute; reflexivity|].
  exact (proj2 (descriptor_without_name (Cases.with_descriptor Cases.nameless)
                  Cases.nameless eq_refl) _ eq_refl).
Defined.

(** ** The Kotlin block *)

Lemma find_app {X : Type} (f : X -> bool) (l1 l2 : list X) :
  List.find f (l1 ++ l2)
  = match List.find f l1 with Some x => Some x | None => List.find f l2 end.
Proof.
  induction l1 as [|x l1 IH]; [reflexivity|]. simpl.
  destruct (f x); [reflexivity|exact IH].
Qed.

Lemma last_cons_default {X : Type} (x : X) (l : list X) (d d' : X) :
  List.last (x :: l) d = List.last (x :: l) d'.
Proof.
  revert x. induction l as [|y l IH]; intros x; [reflexivity|].
  exact (IH y).
Qed.

Lemma exec_check_dirs (w : world) (split_package dirs : list string) :
  exec w (check_dirs split_package dirs)
  = match List.find (fun dir => negb (Py.mem dir split_package)) dirs with
    | Some dir =>
        ([Printed ("Error: package name not found in folder structure (android/app/src/main/kotlin/"
                   +:+ dir +:+ ")")], Exited 1)
    | None => ([], Returned tt)
    end.
Proof.
  induction dirs as [|dir rest IH]; [reflexivity|].
  cbn [check_dirs List.find].
  destruct (negb (Py.mem dir split_package)).
  - reflexivity.
  - cbn [when pass bind]. exact IH.
Qed.

Lemma exec_check_tree (w : world) (split_package : list string)
    (items : list Fs.walk_item) (files : option (list string)) :
  exec w (check_tree split_package items files)
  = match List.find (fun dir => negb (Py.mem dir split_package)) (walked_dirs items) with
    | Some dir =>
        ([Printed ("Error: package name not found in folder structure (android/app/src/main/kotlin/"
                   +:+ dir +:+ ")")], Exited 1)
    | None =>
        ([], Returned (List.last (map (fun item => Some (snd item)) items) files))
    end.
Proof.
  revert files.
  induction items as [|[[root dirs] files'] rest IH]; intros files;
    [reflexivity|].
  cbn [check_tree]. unfold walked_dirs. cbn [flat_map fst snd].
  rewrite exec_bind, exec_check_dirs, find_app.
  destruct (List.find (fun dir => negb (Py.mem dir split_package)) dirs);
    [reflexivity|].
  rewrite IH. fold (walked_dirs rest).
  destruct (List.find (fun dir => negb (Py.mem dir split_package)) (walked_dirs rest));
    [reflexivity|].
  cbn [app map]. f_equal. f_equal.
  destruct rest as [|item rest]; [reflexivity|].
  cbn [map]. rewrite (last_cons_default _ _ (Some files') files).
  reflexivity.
Qed.

(** The run of the Kotlin block up to the test for MainActivity.kt. *)
Lemma exec_kotlin_checks (w : world) (info : gmap string string) (package : string) :
  info !! "package" = Some package ->
  exec w (kotlin_checks info)
  = match List.find (fun dir => negb (Py.mem dir (Py.split "." package)))
            (walked_dirs (Fs.walk (cwd w) "android/app/src/main/kotlin/")) with
    | Some dir =>
        ([Walked "android/app/src/main/kotlin/";
          Printed ("Error: package name not found in folder structure (android/app/src/main/kotlin/"
                   +:+ dir +:+ ")")], Exited 1)
    | None =>
        match last_files (Fs.walk (cwd w) "android/app/src/main/kotlin/") with
        | None => ([Walked "android/app/src/main/kotlin/"], Raised (NameError "files"))
        | Some files =>
            if negb (Py.mem "MainActivity.kt" files) then
              ([Walked "android/app/src/main/kotlin/";
                Printed "Error: MainActivity.kt not found in android/app/src/main/kotlin/"],
               Exited 1)
            else
              match Fs.read (cwd w)
                      (("android/app/src/main/kotlin/" +:+ Py.replace "." "/" package)
                       +:+ "/MainActivity.kt") with
              | inl e =>
                  ([Walked "android/app/src/main/kotlin/";
                    Opened (("android/app/src/main/kotlin/" +:+ Py.replace "." "/" package)
                            +:+ "/MainActivity.kt")], Raised e)
              | inr main_activity =>
                  if negb (Py.contains package main_activity) then
                    ([Walked "android/app/src/main/kotlin/";
                      Opened (("android/app/src/main/kotlin/" +:+ Py.replace "." "/" package)
                              +:+ "/MainActivity.kt");
                      Printed ("Error: package name not found in MainActivity.kt (package "
                               +:+ package +:+ ")")], Exited 1)
                  else if negb (Py.contains "FlutterFragmentActivity" main_activity) then
                    ([Walked "android/app/src/main/kotlin/";
                      Opened (("android/app/src/main/kotlin/" +:+ Py.replace "." "/" package)
                              +:+ "/MainActivity.kt");
                      Printed "Error: FlutterFragmentActivity not found in MainActivity.kt";
                      Printed ("       check: android/app/src/main/kotlin/"
                               +:+ ("android/app/src/main/kotlin/"
                                    +:+ Py.replace "." "/" package)
                               +:+ "/MainActivity.kt")], Exited 1)
                  else
                    ([Walked "android/app/src/main/kotlin/";
                      Opened (("android/app/src/main/kotlin/" +:+ Py.replace "." "/" package)
                              +:+ "/MainActivity.kt")], Returned tt)
              end
        end
    end.
Proof.
  intros Hpackage. unfold kotlin_checks.
  rewrite exec_os_walk_bind.
  set (items := Fs.walk (cwd w) "android/app/src/main/kotlin/").
  unfold getitem. rewrite Hpackage. cbn [bind]. cbv zeta.
  rewrite exec_bind, exec_check_tree. unfold last_files.
  destruct (List.find (fun dir => negb (Py.mem dir (Py.split "." package)))
              (walked_dirs items)); [reflexivity|].
  destruct (List.last (map (fun item => Some (snd item)) items) None)
    as [files|]; [|reflexivity].
  cbn [bind exec app fst snd].
  destruct (Py.mem "MainActivity.kt" files);
    cbn [negb when pass bind exec print exit open_read]; [|reflexivity].
  destruct (Fs.read (cwd w)
              (("android/app/src/main/kotlin/" +:+ Py.replace "." "/" package)
               +:+ "/MainActivity.kt")) as [e|main_activity]; [reflexivity|].
  destruct (Py.contains package main_activity);
    cbn [negb when pass bind exec print exit]; [|reflexivity].
  destruct (Py.contains "FlutterFragmentActivity" main_activity); reflexivity.
Qed.

(** Of the directories below the Kotlin root whose name is no component
    of the package, the first one in the order of the walk is reported,
    and the run ends there with status 1. *)
Theorem kotlin_first_stray_directory
    (w : world) (info : gmap string string) (package dir : string) :
  info !! "package" = Some package ->
  List.find (fun dir => negb (Py.mem dir (Py.split "." package)))
    (walked_dirs (Fs.walk (cwd w) "android/app/src/main/kotlin/")) = Some dir ->
  exec w (kotlin_checks info)
  = ([Walked "android/app/src/main/kotlin/";
      Printed ("Error: package name not found in folder structure (android/app/src/main/kotlin/"
               +:+ dir +:+ ")")], Exited 1).
Proof.
  intros Hpackage Hfind. rewrite (exec_kotlin_checks w info package Hpackage), Hfind.
  reflexivity.
Qed.

Lemma kotlin_first_stray_directory_witness :
  walked_dirs (Fs.walk (cwd (Cases.with_kotlin Cases.kotlin_stray))
                 "android/app/src/main/kotlin/")
  = ["com"; "legacy"; "example"; "woxxy"; "tmp"]
  /\ exec (Cases.with_kotlin Cases.kotlin_stray) (kotlin_checks Sample.woxxy)
     = ([Walked "android/app/src/main/kotlin/";
         Printed "Error: package name not found in folder structure (android/app/src/main/kotlin/legacy)"],
        Exited 1).
Proof.
  split; [reflexivity|].
  exact (kotlin_first_stray_directory (Cases.with_kotlin Cases.kotlin_stray)
           Sample.woxxy "com.example.woxxy" "legacy" eq_refl eq_refl).
Defined.

Lemma walk_nothing (root : list (string * node)) (top : string) :
  (forall entries, Fs.locate (Dir root) (Fs.components top) <> Fs.Found (Dir entries)) ->
  Fs.walk root top = [].
Proof.
  intros H. unfold Fs.walk.
  destruct (Fs.locate (Dir root) (Fs.components top)) as [[text|entries]| |];
    try reflexivity.
  destruct (H entries eq_refl).
Qed.

(** When the Kotlin root is missing, or is not a directory, the walk has
    no item, the loop never binds [files], and the test for MainActivity.kt
    ends the run on an uncaught [NameError]: nothing is printed. *)
Theorem kotlin_root_missing
    (w : world) (info : gmap string string) (package : string) :
  info !! "package" = Some package ->
  (forall entries,
     Fs.locate (Dir (cwd w)) (Fs.components "android/app/src/main/kotlin/")
     <> Fs.Found (Dir entries)) ->
  exec w (kotlin_checks info)
  = ([Walked "android/app/src/main/kotlin/"], Raised (NameError "files")).
Proof.
  intros Hpackage Hroot.
  rewrite (exec_kotlin_checks w info package Hpackage), (walk_nothing _ _ Hroot).
  reflexivity.
Qed.

Lemma kotlin_root_missing_witness :
  exec Cases.without_kotlin (flutter_check Sample.all_checks)
  = ([Opened "lib/config/version.dart"; Opened "pubspec.yaml"; Loaded "app.json";
      Opened "android/app/src/main/AndroidManifest.xml";
      Opened "android/app/src/debug/AndroidManifest.xml";
      Walked "android/app/src/main/kotlin/"], Raised (NameError "files"))
  /\ exec Cases.without_kotlin (kotlin_checks Sample.woxxy)
     = ([Walked "android/app/src/main/kotlin/"], Raised (NameError "files")).
Proof.
  split; [vm_compute; reflexivity|].
  apply (kotlin_root_missing Cases.without_kotlin Sample.woxxy "com.example.woxxy").
  - reflexivity.
  - intros entries H. vm_compute in H. discriminate H.
Defined.

(** When every directory below the Kotlin root is named like a component
    of the package, MainActivity.kt is looked for among the files of the
    directory the walk visited last: without it there the run reports the
    file as not found and ends with status 1, with it there the run goes on
    to open MainActivity.kt in the package directory. *)
Theorem main_activity_presence_test
    (w : world) (info : gmap string string) (package : string)
    (files : list string) :
  info !! "package" = Some package ->
  List.find (fun dir => negb (Py.mem dir (Py.split "." package)))
    (walked_dirs (Fs.walk (cwd w) "android/app/src/main/kotlin/")) = None ->
  last_files (Fs.walk (cwd w) "android/app/src/main/kotlin/") = Some files ->
  (Py.mem "MainActivity.kt" files = false ->
   exec w (kotlin_checks info)
   = ([Walked "android/app/src/main/kotlin/";
       Printed "Error: MainActivity.kt not found in android/app/src/main/kotlin/"],
      Exited 1))
  /\ (Py.mem "MainActivity.kt" files = true ->
      exists t r,
        exec w (kotlin_checks info)
        = (Walked "android/app/src/main/kotlin/"
           :: Opened (("android/app/src/main/kotlin/" +:+ Py.replace "." "/" package)
                      +:+ "/MainActivity.kt") :: t, r)).
Proof.
  intros Hpackage Hfind Hlast.
  rewrite (exec_kotlin_checks w info package Hpackage), Hfind, Hlast.
  split; intros Hmem; rewrite Hmem; cbn [negb]; [reflexivity|].
  destruct (Fs.read (cwd w) _) as [e|main_activity]; [eexists _, _; reflexivity|].
  destruct (Py.contains package main_activity); cbn [negb];
    [|eexists _, _; reflexivity].
  destruct (Py.contains "FlutterFragmentActivity" main_activity);
    eexists _, _; reflexivity.
Qed.

Lemma main_activity_presence_test_witness :
  Fs.read (cwd Sample.nested)
    "android/app/src/main/kotlin/com/example/woxxy/MainActivity.kt"
  = inr Sample.main_activity
  /\ last_files (Fs.walk (cwd Sample.nested) "android/app/src/main/kotlin/") = Some []
  /\ exec Sample.nested (kotlin_checks Sample.woxxy)
     = ([Walked "android/app/src/main/kotlin/";
         Printed "Error: MainActivity.kt not found in android/app/src/main/kotlin/"],
        Exited 1).
Proof.
  split; [reflexivity|]. split; [reflexivity|].
  exact (proj1 (main_activity_presence_test Sample.nested Sample.woxxy
                  "com.example.woxxy" [] eq_refl eq_refl eq_refl) eq_refl).
Defined.

(** Once MainActivity.kt of the package directory is read, it is searched
    for the package and then for [FlutterFragmentActivity]; the line that
    tells where to look for the missing base class gives the Kotlin root
    twice, the name of the directory already holding it. *)
Theorem main_activity_contents_table
    (w : world) (info : gmap string string) (package : string)
    (files : list string) (main_activity : string) :
  info !! "package" = Some package ->
  List.find (fun dir => negb (Py.mem dir (Py.split "." package)))
    (walked_dirs (Fs.walk (cwd w) "android/app/src/main/kotlin/")) = None ->
  last_files (Fs.walk (cwd w) "android/app/src/main/kotlin/") = Some files ->
  Py.mem "MainActivity.kt" files = true ->
  Fs.read (cwd w)
    (("android/app/src/main/kotlin/" +:+ Py.replace "." "/" package)
     +:+ "/MainActivity.kt") = inr main_activity ->
  exec w (kotlin_checks info)
  = if negb (Py.contains package main_activity) then
      ([Walked "android/app/src/main/kotlin/";
        Opened (("android/app/src/main/kotlin/" +:+ Py.replace "." "/" package)
                +:+ "/MainActivity.kt");
        Printed ("Error: package name not found in MainActivity.kt (package "
                 +:+ package +:+ ")")], Exited 1)
    else if negb (Py.contains "FlutterFragmentActivity" main_activity) then
      ([Walked "android/app/src/main/kotlin/";
        Opened (("android/app/src/main/kotlin/" +:+ Py.replace "." "/" package)
                +:+ "/MainActivity.kt");
        Printed "Error: FlutterFragmentActivity not found in MainActivity.kt";
        Printed ("       check: android/app/src/main/kotlin/android/app/src/main/kotlin/"
                 +:+ Py.replace "." "/" package +:+ "/MainActivity.kt")], Exited 1)
    else
      ([Walked "android/app/src/main/kotlin/";
        Opened (("android/app/src/main/kotlin/" +:+ Py.replace "." "/" package)
                +:+ "/MainActivity.kt")], Returned tt).
Proof.
  intros Hpackage Hfind Hlast Hmem Hread.
  rewrite (exec_kotlin_checks w info package Hpackage), Hfind, Hlast, Hmem, Hread.
  cbn [negb].
  destruct (Py.contains package main_activity); cbn [negb]; [|reflexivity].
  destruct (Py.contains "FlutterFragmentActivity" main_activity); cbn [negb];
    [reflexivity|].
  rewrite NameFacts.append_assoc. reflexivity.
Qed.

Lemma main_activity_contents_table_witness :
  exec (Cases.with_kotlin Cases.kotlin_plain) (kotlin_checks Sample.woxxy)
  = ([Walked "android/app/src/main/kotlin/";
      Opened "android/app/src/main/kotlin/com/example/woxxy/MainActivity.kt";
      Printed "Error: FlutterFragmentActivity not found in MainActivity.kt";
      Printed "       check: android/app/src/main/kotlin/android/app/src/main/kotlin/com/example/woxxy/MainActivity.kt"],
     Exited 1).
Proof.
  exact (main_activity_contents_table (Cases.with_kotlin Cases.kotlin_plain)
           Sample.woxxy "com.example.woxxy" ["MainActivity.kt"]
           Cases.main_activity_plain eq_refl eq_refl eq_refl eq_refl eq_refl).
Defined.

(** ** build.gradle, Info.plist and the descriptor *)

(** The run of the build.gradle block once the file is read. *)
Lemma exec_build_gradle_checks
    (w : world) (info : gmap string string) (package build_gradle : string) :
  info !! "package" = Some package ->
  Fs.read (cwd w) "android/app/build.gradle" = inr build_gradle ->
  exec w (build_gradle_checks info)
  = if negb (Py.contains "keystoreProperties" build_gradle) then
      ([Opened "android/app/build.gradle";
        Printed "Error: keystoreProperties not found in android/app/build.gradle";
        Printed keystore_snippet], Exited 1)
    else if negb (Py.contains "signingConfigs {" build_gradle) then
      ([Opened "android/app/build.gradle";
        Printed "Error: signingConfigs not found in android/app/build.gradle";
        Printed signing_snippet], Exited 1)
    else if negb (Py.contains package build_gradle) then
      ([Opened "android/app/build.gradle";
        Printed ("Error: package name not found in android/app/build.gradle (applicationId "
                 +:+ package +:+ ")")], Exited 1)
    else if Py.contains "flutterVersionCode.toInteger()" build_gradle then
      ([Opened "android/app/build.gradle";
        Printed "Error: versionCode must be a real number in android/app/build.gradle";
        Printed "       check: android/app/build.gradle  - change flutterVersionCode.toInteger() to a real number"],
       Exited 1)
    else ([Opened "android/app/build.gradle"], Returned tt).
Proof.
  intros Hpackage Hread.
  unfold build_gradle_checks, open_read, getitem. cbn [bind exec].
  rewrite Hread.
  destruct (Py.contains "keystoreProperties" build_gradle);
    cbn [negb when pass bind exec print exit]; [|reflexivity].
  destruct (Py.contains "signingConfigs {" build_gradle);
    cbn [negb when pass bind exec print exit]; [|reflexivity].
  rewrite Hpackage. cbn [bind exec].
  destruct (Py.contains package build_gradle);
    cbn [negb when pass bind exec print exit]; [|reflexivity].
  destruct (Py.contains "flutterVersionCode.toInteger()" build_gradle); reflexivity.
Qed.

(** The build.gradle block passes exactly when the file holds
    [keystoreProperties], [signingConfigs {] and the package and does not
    hold [flutterVersionCode.toInteger()]; the four failures come in that
    order, each with its own diagnostic. *)
Theorem build_gradle_checks_table
    (w : world) (info : gmap string string) (package build_gradle : string) :
  info !! "package" = Some package ->
  Fs.read (cwd w) "android/app/build.gradle" = inr build_gradle ->
  exec w (build_gradle_checks info)
  = if negb (Py.contains "keystoreProperties" build_gradle) then
      ([Opened "android/app/build.gradle";
        Printed "Error: keystoreProperties not found in android/app/build.gradle";
        Printed keystore_snippet], Exited 1)
    else if negb (Py.contains "signingConfigs {" build_gradle) then
      ([Opened "android/app/build.gradle";
        Printed "Error: signingConfigs not found in android/app/build.gradle";
        Printed signing_snippet], Exited 1)
    else if negb (Py.contains package build_gradle) then
      ([Opened "android/app/build.gradle";
        Printed ("Error: package name not found in android/app/build.gradle (applicationId "
                 +:+ package +:+ ")")], Exited 1)
    else if Py.contains "flutterVersionCode.toInteger()" build_gradle then
      ([Opened "android/app/build.gradle";
        Printed "Error: versionCode must be a real number in android/app/build.gradle";
        Printed "       check: android/app/build.gradle  - change flutterVersionCode.toInteger() to a real number"],
       Exited 1)
    else ([Opened "android/app/build.gradle"], Returned tt).
Proof. exact (exec_build_gradle_checks w info package build_gradle). Qed.

Lemma build_gradle_checks_table_witness :
  exec (Cases.with_gradle Cases.gradle_placeholder) (build_gradle_checks Sample.woxxy)
  = ([Opened "android/app/build.gradle";
      Printed "Error: versionCode must be a real number in android/app/build.gradle";
      Printed "       check: android/app/build.gradle  - change flutterVersionCode.toInteger() to a real number"],
     Exited 1).
Proof.
  exact (build_gradle_checks_table (Cases.with_gradle Cases.gradle_placeholder)
           Sample.woxxy "com.example.woxxy" Cases.gradle_placeholder
           eq_refl eq_refl).
Defined.

(** An Info.plist without the name ends the iOS block with its diagnostic
    and status 1 before the project file is opened and before the package
    is looked up in the descriptor. *)
Theorem info_plist_without_name
    (w : world) (info : gmap string string) (name info_plist : string) :
  info !! "name" = Some name ->
  Fs.read (cwd w) "ios/Runner/Info.plist" = inr info_plist ->
  Py.contains name info_plist = false ->
  exec w (ios_checks info)
  = ([Opened "ios/Runner/Info.plist";
      Printed "Error: app name not found in Info.plist (CFBundleDisplayName / CFBundleName)";
      Printed "       check: ios/Runner/Info.plist"], Exited 1).
Proof.
  intros Hname Hread Habsent.
  unfold ios_checks, open_read, getitem. cbn [bind exec].
  rewrite Hread, Hname. cbn [bind exec]. rewrite Habsent. reflexivity.
Qed.

Lemma info_plist_without_name_witness :
  exec Sample.good (ios_checks (<["name" := "Woxxy Pro"]> Cases.ios_only))
  = ([Opened "ios/Runner/Info.plist";
      Printed "Error: app name not found in Info.plist (CFBundleDisplayName / CFBundleName)";
      Printed "       check: ios/Runner/Info.plist"], Exited 1).
Proof.
  exact (info_plist_without_name Sample.good
           (<["name" := "Woxxy Pro"]> Cases.ios_only) "Woxxy Pro"
           "<key>CFBundleName</key><string>Woxxy</string>"
           eq_refl eq_refl eq_refl).
Defined.

(** The default of [app_info.get] is computed before the call: a
    descriptor without the key [package] ends the iOS block on an uncaught
    [KeyError] once Info.plist passed, whether or not it has the key
    [ios-package], and the project file is not opened. *)
Theorem ios_package_needs_package
    (w : world) (info : gmap string string) (name info_plist : string) :
  info !! "name" = Some name ->
  info !! "package" = None ->
  Fs.read (cwd w) "ios/Runner/Info.plist" = inr info_plist ->
  Py.contains name info_plist = true ->
  exec w (ios_checks info)
  = ([Opened "ios/Runner/Info.plist"], Raised (KeyError "package")).
Proof.
  intros Hname Hpackage Hread Hfound.
  unfold ios_checks, open_read, getitem. cbn [bind exec].
  rewrite Hread, Hname. cbn [bind exec]. rewrite Hfound.
  cbn [negb when pass bind exec]. rewrite Hpackage. reflexivity.
Qed.

Lemma ios_package_needs_package_witness :
  Cases.ios_only !! "ios-package" = Some "org.woxxy.ios"
  /\ exec (Cases.with_descriptor Cases.ios_only)
          (flutter_check (Args "app.json" false true false))
     = ([Opened "lib/config/version.dart"; Opened "pubspec.yaml"; Loaded "app.json";
         Opened "ios/Runner/Info.plist"], Raised (KeyError "package"))
  /\ exec (Cases.with_descriptor Cases.ios_only) (ios_checks Cases.ios_only)
     = ([Opened "ios/Runner/Info.plist"], Raised (KeyError "package")).
Proof.
  split; [reflexivity|]. split; [vm_compute; reflexivity|].
  exact (ios_package_needs_package (Cases.with_descriptor Cases.ios_only)
           Cases.ios_only "Woxxy" "<key>CFBundleName</key><string>Woxxy</string>"
           eq_refl eq_refl eq_refl eq_refl).
Defined.

(** With both platforms skipped the descriptor is still loaded and never
    looked into: when the two version tokens agree, the run passes for
    every descriptor that loads, whatever its keys, and ends on the
    exception of the load for one that does not. *)
Theorem both_platforms_skipped
    (a : args) (w : world) (dart pubspec version : string) :
  skip_android a = true ->
  skip_ios a = true ->
  Fs.read (cwd w) "lib/config/version.dart" = inr dart ->
  Fs.read (cwd w) "pubspec.yaml" = inr pubspec ->
  scan_version_dart (Py.readlines dart) = Ret version ->
  scan_version_pubspec (Py.readlines pubspec) = Ret version ->
  exec w (flutter_check a)
  = match descriptor w (app_info a) with
    | Some _ =>
        ([Opened "lib/config/version.dart"; Opened "pubspec.yaml";
          Loaded (app_info a)], Returned tt)
    | None =>
        ([Opened "lib/config/version.dart"; Opened "pubspec.yaml";
          Loaded (app_info a)], Raised (JSONLoadError (app_info a)))
    end.
Proof.
  intros Handroid Hios Hdart Hpubspec Hvd Hvp.
  rewrite (exec_flutter_check_version a w dart pubspec _ _ Hdart Hpubspec Hvd Hvp).
  rewrite String.eqb_refl.
  unfold platform_checks, json_load. rewrite Handroid, Hios.
  cbn [negb when pass bind exec].
  destruct (descriptor w (app_info a)); reflexivity.
Qed.

Lemma both_platforms_skipped_witness :
  exec (Cases.with_descriptor ∅) (flutter_check (Args "app.json" true true false))
  = ([Opened "lib/config/version.dart"; Opened "pubspec.yaml"; Loaded "app.json"],
     Returned tt)
  /\ exec (Cases.with_descriptor ∅) (flutter_check (Args "other.json" true true false))
     = ([Opened "lib/config/version.dart"; Opened "pubspec.yaml"; Loaded "other.json"],
        Raised (JSONLoadError "other.json")).
Proof.
  split.
  - exact (both_platforms_skipped (Args "app.json" true true false)
             (Cases.with_descriptor ∅) Sample.version_dart (Sample.pubspec "1.0.0")
             "1.0.0" eq_refl eq_refl eq_refl eq_refl eq_refl eq_refl).
  - exact (both_platforms_skipped (Args "other.json" true true false)
             (Cases.with_descriptor ∅) Sample.version_dart (Sample.pubspec "1.0.0")
             "1.0.0" eq_refl eq_refl eq_refl eq_refl eq_refl eq_refl).
Defined.

(** ** What the checker reads *)

Section Confined.

Variables R W : string -> Prop.

Lemma exec_confined {A : Type} (s : script A) (w w' : world) :
  confined R W s -> agree_on R W w w' -> exec w s = exec w' s.
Proof.
  intros Hs (Hread & Hwalk & Hjson).
  induction Hs as [a|path k Hp _ IH|top k Hp _ IH|path k _ IH
                  |text k _ IH|filename arcname k Hp _ IH|status|e];
    cbn [exec]; try reflexivity.
  - rewrite (Hread path Hp).
    destruct (Fs.read (cwd w') path) as [e|text]; [reflexivity|].
    rewrite IH. reflexivity.
  - rewrite (Hwalk top Hp), IH. reflexivity.
  - rewrite Hjson. destruct (descriptor w' path) as [info|]; [|reflexivity].
    rewrite IH. reflexivity.
  - rewrite IH. reflexivity.
  - rewrite (Hread filename Hp).
    destruct (Fs.read (cwd w') filename) as [e|text]; [reflexivity|].
    rewrite IH. reflexivity.
Qed.

Lemma touched_confined {A : Type} (s : script A) (w : world) :
  confined R W s ->
  Forall (fun path => R path \/ W path) (touched (fst (exec w s))).
Proof.
  intros Hs.
  induction Hs as [a|path k Hp _ IH|top k Hp _ IH|path k _ IH
                  |text k _ IH|filename arcname k Hp _ IH|status|e];
    cbn [exec]; try (constructor; fail).
  - destruct (Fs.read (cwd w) path) as [e|text].
    + repeat constructor. exact Hp.
    + specialize (IH text). destruct (exec w (k text)) as [t r].
      constructor; [left; exact Hp|exact IH].
  - specialize (IH (Fs.walk (cwd w) top)).
    destruct (exec w (k (Fs.walk (cwd w) top))) as [t r].
    constructor; [right; exact Hp|exact IH].
  - destruct (descriptor w path) as [info|]; [|constructor].
    specialize (IH info). destruct (exec w (k info)) as [t r]. exact IH.
  - destruct (exec w k) as [t r]. exact IH.
  - destruct (Fs.read (cwd w) filename) as [e|text]; [constructor|].
    destruct (exec w k) as [t r]. exact IH.
Qed.

Lemma confined_bind {A B : Type} (m : script A) (f : A -> script B) :
  confined R W m -> (forall a, confined R W (f a)) -> confined R W (bind m f).
Proof.
  intros Hm Hf.
  induction Hm as [a|path k Hp _ IH|top k Hp _ IH|path k _ IH
                  |text k _ IH|filename arcname k Hp _ IH|status|e];
    cbn [bind]; try (constructor; assumption).
  apply Hf.
Qed.

Lemma confined_when (cond : bool) (body : script unit) :
  confined R W body -> confined R W (when cond body).
Proof. intros H. destruct cond; [exact H|constructor]. Qed.

Lemma confined_getitem (info : gmap string string) (key : string) :
  confined R W (getitem info key).
Proof. unfold getitem. destruct (info !! key); constructor. Qed.

Lemma confined_scan_version_dart (lines : list string) :
  confined R W (scan_version_dart lines).
Proof. destruct (scan_version_dart_returns lines) as [v ->]. constructor. Qed.

Lemma confined_scan_version_pubspec (lines : list string) :
  confined R W (scan_version_pubspec lines).
Proof. destruct (scan_version_pubspec_returns lines) as [v ->]. constructor. Qed.

Lemma confined_check_dirs (split_package dirs : list string) :
  confined R W (check_dirs split_package dirs).
Proof.
  induction dirs as [|dir rest IH]; cbn [check_dirs]; [constructor|].
  apply confined_bind; [|intros _; exact IH].
  apply confined_when. repeat constructor.
Qed.

Lemma confined_check_tree (split_package : list string)
    (items : list Fs.walk_item) (files : option (list string)) :
  confined R W (check_tree split_package items files).
Proof.
  revert files.
  induction items as [|[[root dirs] files'] rest IH]; intros files;
    cbn [check_tree]; [constructor|].
  apply confined_bind; [apply confined_check_dirs|intros _; apply IH].
Qed.

End Confined.

Ltac confined_step :=
  lazymatch goal with
  | |- confined _ _ (bind _ _) => apply confined_bind; [|intros ?]
  | |- confined _ _ (when false _) => constructor
  | |- confined _ _ (when _ _) => apply confined_when
  | |- confined _ _ (open_read _) =>
      apply confined_Open; [cbn; tauto|intros ?; constructor]
  | |- confined _ _ (json_load _) => apply confined_JsonLoad; intros ?; constructor
  | |- confined _ _ (getitem _ _) => apply confined_getitem
  | |- confined _ _ (scan_version_dart _) => apply confined_scan_version_dart
  | |- confined _ _ (scan_version_pubspec _) => apply confined_scan_version_pubspec
  | |- confined _ _ (check_tree _ _ _) => apply confined_check_tree
  | |- confined _ _ (match ?x with _ => _ end) => destruct x
  | |- confined _ _ _ => constructor
  end.

Lemma confined_without_kotlin (a : args) :
  skip_kotlin a = true ->
  confined (fun path => In path fixed_artifacts) (fun _ => False) (flutter_check a).
Proof.
  intros Hskip.
  unfold flutter_check, platform_checks, version_check, android_checks,
    android_manifest_checks, build_gradle_checks, ios_checks.
  rewrite Hskip. cbn [negb]. cbv zeta.
  repeat confined_step.
Qed.

(** With [--skip-kotlin] the checker walks no directory and opens no file
    but the seven artifacts it names, so that it runs the same, event for
    event and to the same end, in any two projects that hold the same
    descriptors and give the same on reading those seven paths. *)
Theorem skip_kotlin_reads_seven_files (a : args) (w w' : world) :
  skip_kotlin a = true ->
  (forall path, In path fixed_artifacts ->
     Fs.read (cwd w) path = Fs.read (cwd w') path) ->
  (forall path, descriptor w path = descriptor w' path) ->
  Forall (fun path => In path fixed_artifacts) (touched (fst (exec w (flutter_check a))))
  /\ exec w (flutter_check a) = exec w' (flutter_check a).
Proof.
  intros Hskip Hread Hjson.
  pose proof (confined_without_kotlin a Hskip) as Hc.
  split.
  - pose proof (touched_confined _ _ (flutter_check a) w Hc) as Ht.
    rewrite List.Forall_forall in Ht |- *. intros path Hin.
    destruct (Ht path Hin) as [H|[]]. exact H.
  - apply (exec_confined _ _ (flutter_check a) w w' Hc).
    split; [exact Hread|]. split; [intros top []|exact Hjson].
Qed.

Lemma skip_kotlin_reads_seven_files_witness :
  exec Sample.misplaced (flutter_check (Args "app.json" false false true))
  = exec Sample.good (flutter_check (Args "app.json" false false true))
  /\ snd (exec Sample.good (flutter_check (Args "app.json" false false true)))
     = Returned tt.
Proof.
  split; [|reflexivity].
  apply (skip_kotlin_reads_seven_files (Args "app.json" false false true)
           Sample.misplaced Sample.good eq_refl).
  - intros path Hin. cbn in Hin.
    repeat (destruct Hin as [<-|Hin]; [reflexivity|]). destruct Hin.
  - reflexivity.
Defined.

Lemma confined_flutter_check (a : args) :
  confined
    (fun path =>
       In path fixed_artifacts
       \/ exists package,
            path = ("android/app/src/main/kotlin/" +:+ Py.replace "." "/" package)
                   +:+ "/MainActivity.kt")
    (fun top => top = "android/app/src/main/kotlin/")
    (flutter_check a).
Proof.
  unfold flutter_check, platform_checks, version_check, android_checks,
    android_manifest_checks, kotlin_checks, build_gradle_checks, ios_checks.
  cbv zeta.
  repeat lazymatch goal with
    | |- confined _ _ (bind _ _) => apply confined_bind; [|intros ?]
    | |- confined _ _ (when _ _) => apply confined_when
    | |- confined _ _ (open_read _) =>
        apply confined_Open;
        [first [left; cbn; tauto|right; eexists; reflexivity]|intros ?; constructor]
    | |- confined _ _ (os_walk _) =>
        apply confined_OsWalk; [reflexivity|intros ?; constructor]
    | |- confined _ _ (json_load _) => apply confined_JsonLoad; intros ?; constructor
    | |- confined _ _ (getitem _ _) => apply confined_getitem
    | |- confined _ _ (scan_version_dart _) => apply confined_scan_version_dart
    | |- confined _ _ (scan_version_pubspec _) => apply confined_scan_version_pubspec
    | |- confined _ _ (check_tree _ _ _) => apply confined_check_tree
    | |- confined _ _ (match ?x with _ => _ end) => destruct x
    | |- confined _ _ _ => constructor
    end.
Qed.

(** Whatever the flags, the checker walks nothing but the Kotlin root and
    opens nothing but its seven artifacts and a MainActivity.kt below the
    Kotlin root, at the path made from a package; it runs the same in any
    two projects that agree on those and hold the same descriptors. *)
Theorem checker_reads_only_its_artifacts (a : args) (w w' : world) :
  (forall path, In path fixed_artifacts ->
     Fs.read (cwd w) path = Fs.read (cwd w') path) ->
  (forall package,
     Fs.read (cwd w)
       (("android/app/src/main/kotlin/" +:+ Py.replace "." "/" package)
        +:+ "/MainActivity.kt")
     = Fs.read (cwd w')
         (("android/app/src/main/kotlin/" +:+ Py.replace "." "/" package)
          +:+ "/MainActivity.kt")) ->
  Fs.walk (cwd w) "android/app/src/main/kotlin/"
  = Fs.walk (cwd w') "android/app/src/main/kotlin/" ->
  (forall path, descriptor w path = descriptor w' path) ->
  Forall (fun path =>
            In path fixed_artifacts
            \/ path = "android/app/src/main/kotlin/"
            \/ exists package,
                 path = ("android/app/src/main/kotlin/" +:+ Py.replace "." "/" package)
                        +:+ "/MainActivity.kt")
    (touched (fst (exec w (flutter_check a))))
  /\ exec w (flutter_check a) = exec w' (flutter_check a).
Proof.
  intros Hfixed Hmain Hwalk Hjson.
  pose proof (confined_flutter_check a) as Hc.
  split.
  - pose proof (touched_confined _ _ (flutter_check a) w Hc) as Ht.
    rewrite List.Forall_forall in Ht |- *. intros path Hin.
    destruct (Ht path Hin) as [[H|H]|H]; auto.
  - apply (exec_confined _ _ (flutter_check a) w w' Hc).
    split; [|split; [intros top ->; exact Hwalk|exact Hjson]].
    intros path [H|[package ->]]; [apply Hfixed; exact H|apply Hmain].
Qed.

Lemma checker_reads_only_its_artifacts_witness :
  exec Cases.unbuilt (flutter_check Sample.all_checks)
  = exec Sample.good (flutter_check Sample.all_checks)
  /\ snd (exec Sample.good (flutter_check Sample.all_checks)) = Returned tt.
Proof.
  split; [|reflexivity].
  apply (checker_reads_only_its_artifacts Sample.all_checks Cases.unbuilt Sample.good).
  - intros path Hin. cbn in Hin.
    repeat (destruct Hin as [<-|Hin]; [reflexivity|]). destruct Hin.
  - intros package. unfold Fs.read.
    change (("android/app/src/main/kotlin/" +:+ Py.replace "." "/" package)
            +:+ "/MainActivity.kt")
      with ("android" +:+ String "/"
              (("app/src/main/kotlin/" +:+ Py.replace "." "/" package)
               +:+ "/MainActivity.kt")).
    rewrite PathFacts.components_append. reflexivity.
  - reflexivity.
  - reflexivity.
Defined.

(** ** The version as the packagers read it *)

Module SubstringFacts.

Import Py.

Lemma prefix_of_append (p rest : string) : String.prefix p (p +:+ rest) = true.
Proof.
  induction p as [|c p IH]; [destruct rest; reflexivity|].
  change (String c p +:+ rest) with (String c (p +:+ rest)). simpl.
  destruct (ascii_dec c c) as [_|Hne]; [exact IH|destruct (Hne eq_refl)].
Qed.

(** [sub in s]: [s] is some text, [sub], and some more text. *)
Lemma contains_iff (sub s : string) :
  contains sub s = true <-> exists pre post, s = pre +:+ sub +:+ post.
Proof.
  split.
  - induction s as [|c s IH]; cbn [contains]; intros H.
    + rewrite orb_false_r in H. apply PyFacts.prefix_append in H as [post ->].
      exists EmptyString, post. reflexivity.
    + apply orb_true_iff in H as [H|H].
      * apply PyFacts.prefix_append in H as [post ->].
        exists EmptyString, post. reflexivity.
      * destruct (IH H) as (pre & post & ->).
        exists (String c pre), post. reflexivity.
  - intros (pre & post & ->). apply PyFacts.contains_append.
    apply PyFacts.prefix_contains, prefix_of_append.
Qed.

Lemma contains_trans (a b c : string) :
  contains a b = true -> contains b c = true -> contains a c = true.
Proof.
  rewrite !contains_iff. intros (p1 & q1 & ->) (p2 & q2 & ->).
  exists (p2 +:+ p1), (q1 +:+ q2).
  rewrite !NameFacts.append_assoc. reflexivity.
Qed.

Lemma marker_in_declaration (line : string) :
  contains "const String APP_VERSION" line = true ->
  contains "APP_VERSION" line = true.
Proof. apply contains_trans. reflexivity. Qed.

End SubstringFacts.

Import AppVersion.

Lemma scan_app_version_first (before after : list string) (line : string)
    (APP_VERSION : option string) :
  Forall (fun l => Py.contains "const String APP_VERSION" l = false) before ->
  Py.contains "const String APP_VERSION" line = true ->
  scan_app_version (before ++ line :: after) APP_VERSION
  = (version <- index (Py.split Py.SQUOTE line) 1;; Ret (Some version)).
Proof.
  intros Hb Hl. induction Hb as [|l ls Hl' _ IH]; cbn [scan_app_version app].
  - rewrite Hl. reflexivity.
  - rewrite Hl'. exact IH.
Qed.

Lemma unmarked_undeclared (lines : list string) :
  Forall (fun l => Py.contains "APP_VERSION" l = false) lines ->
  Forall (fun l => Py.contains "const String APP_VERSION" l = false) lines.
Proof.
  apply List.Forall_impl. intros l Hl.
  destruct (Py.contains "const String APP_VERSION" l) eqn:H; [|reflexivity].
  apply SubstringFacts.marker_in_declaration in H. congruence.
Qed.

(** When the first line of version.dart that mentions [APP_VERSION] is the
    declaration and holds a single quote, the packagers and the checker
    read the same version, and the archive is named after it. *)
Theorem packagers_and_checker_agree
    (w : world) (suffix text line : string) (before after : list string) :
  Fs.read (cwd w) "lib/config/version.dart" = inr text ->
  Py.readlines text = before ++ line :: after ->
  Forall (fun l => Py.contains "APP_VERSION" l = false) before ->
  Py.contains "const String APP_VERSION" line = true ->
  Py.contains (Py.chr Py.SQUOTE) line = true ->
  exists version,
    scan_version_dart (Py.readlines text) = Ret version
    /\ exec w (get_app_version_for suffix)
       = ([Opened "lib/config/version.dart"],
          Returned (Some version, "woxxy-" +:+ version +:+ suffix)).
Proof.
  intros Hread Hlines Hbefore Hdecl Hquote.
  destruct (PyFacts.split_second _ _ Hquote) as [version Hversion].
  exists version. split.
  - rewrite Hlines,
      (scan_version_dart_first before after line Hbefore
         (SubstringFacts.marker_in_declaration line Hdecl)).
    cbn [scan_version_dart]. rewrite (SubstringFacts.marker_in_declaration line Hdecl), Hquote.
    unfold index. rewrite Hversion. reflexivity.
  - unfold get_app_version_for, open_read. cbn [bind exec].
    rewrite Hread, Hlines,
      (scan_app_version_first before after line None
         (unmarked_undeclared before Hbefore) Hdecl).
    unfold index. rewrite Hversion. reflexivity.
Qed.

Lemma packagers_and_checker_agree_witness :
  exec Sample.good BuildWindowsStart.get_app_version
  = ([Opened "lib/config/version.dart"],
     Returned (Some "1.0.0", "woxxy-1.0.0-windows-x64.zip"))
  /\ exists version,
       scan_version_dart (Py.readlines Sample.version_dart) = Ret version
       /\ exec Sample.good BuildLinuxStart.get_app_version
          = ([Opened "lib/config/version.dart"],
             Returned (Some version, "woxxy-" +:+ version +:+ "-linux-x64.tar.bz2")).
Proof.
  split; [reflexivity|].
  apply (packagers_and_checker_agree Sample.good "-linux-x64.tar.bz2"
           Sample.version_dart
           ("const String APP_VERSION = '1.0.0';" +:+ Sample.nl)
           ["// generated" +:+ Sample.nl] []).
  - reflexivity.
  - reflexivity.
  - repeat constructor.
  - reflexivity.
  - reflexivity.
Defined.

(** A declaration without a single quote, the version in double quotes
    say: the checker reads the version between the double quotes, and
    the packagers end on an uncaught [IndexError]. *)
Theorem double_quoted_version_stops_packagers
    (w : world) (suffix text line : string) (before after : list string) :
  Fs.read (cwd w) "lib/config/version.dart" = inr text ->
  Py.readlines text = before ++ line :: after ->
  Forall (fun l => Py.contains "APP_VERSION" l = false) before ->
  Py.contains "const String APP_VERSION" line = true ->
  Py.contains (Py.chr Py.SQUOTE) line = false ->
  Py.contains (Py.chr Py.DQUOTE) line = true ->
  exec w (get_app_version_for suffix)
  = ([Opened "lib/config/version.dart"], Raised IndexError)
  /\ exists version,
       nth_error (Py.split Py.DQUOTE line) 1 = Some version
       /\ scan_version_dart (Py.readlines text) = Ret version.
Proof.
  intros Hread Hlines Hbefore Hdecl Hsingle Hdouble. split.
  - unfold get_app_version_for, open_read. cbn [bind exec].
    rewrite Hread, Hlines,
      (scan_app_version_first before after line None
         (unmarked_undeclared before Hbefore) Hdecl).
    unfold index. rewrite (NameFacts.split_no_sep _ _ Hsingle). reflexivity.
  - destruct (PyFacts.split_second _ _ Hdouble) as [version Hversion].
    exists version. split; [exact Hversion|].
    rewrite Hlines,
      (scan_version_dart_first before after line Hbefore
         (SubstringFacts.marker_in_declaration line Hdecl)).
    cbn [scan_version_dart].
    rewrite (SubstringFacts.marker_in_declaration line Hdecl), Hsingle, Hdouble.
    unfold index. rewrite Hversion. reflexivity.
Qed.

Lemma double_quoted_version_stops_packagers_witness :
  exec (Cases.with_version_dart Cases.version_dart_double)
       BuildWindowsStart.get_app_version
  = ([Opened "lib/config/version.dart"], Raised IndexError)
  /\ scan_version_dart (Py.readlines Cases.version_dart_double) = Ret "1.0.0"
  /\ snd (exec (Cases.with_version_dart Cases.version_dart_double)
            (flutter_check Sample.all_checks)) = Returned tt.
Proof.
  split; [|split; [reflexivity|vm_compute; reflexivity]].
  apply (double_quoted_version_stops_packagers
           (Cases.with_version_dart Cases.version_dart_double) "-windows-x64.zip"
           Cases.version_dart_double Cases.version_dart_double [] []).
  - reflexivity.
  - reflexivity.
  - constructor.
  - reflexivity.
  - reflexivity.
  - reflexivity.
Defined.

(** Without any line that declares the version, [APP_VERSION] stays
    [None] and the packagers go on with an archive named after the word
    [None]: no error is raised. *)
Theorem undeclared_version_names_archive_none (w : world) (text : string) :
  Fs.read (cwd w) "lib/config/version.dart" = inr text ->
  Forall (fun l => Py.contains "const String APP_VERSION" l = false)
    (Py.readlines text) ->
  exec w BuildWindowsStart.get_app_version
  = ([Opened "lib/config/version.dart"], Returned (None, "woxxy-None-windows-x64.zip"))
  /\ exec w BuildLinuxStart.get_app_version
     = ([Opened "lib/config/version.dart"], Returned (None, "woxxy-None-linux-x64.tar.bz2")).
Proof.
  intros Hread Hnone.
  assert (Hscan : scan_app_version (Py.readlines text) None = Ret None).
  { induction Hnone as [|l ls Hl _ IH]; cbn [scan_app_version]; [reflexivity|].
    rewrite Hl. exact IH. }
  unfold BuildWindowsStart.get_app_version, BuildLinuxStart.get_app_version,
    get_app_version_for, open_read.
  cbn [bind exec]. rewrite Hread, Hscan. split; reflexivity.
Qed.

Lemma undeclared_version_names_archive_none_witness :
  exec Sample.unversioned BuildWindowsStart.get_app_version
  = ([Opened "lib/config/version.dart"], Returned (None, "woxxy-None-windows-x64.zip")).
Proof.
  apply (undeclared_version_names_archive_none Sample.unversioned
           Sample.version_dart_unquoted).
  - reflexivity.
  - repeat constructor.
Defined.

(** A packager started where there is no lib/config/version.dart prints
    one line and leaves with status 1 without opening anything; started
    anywhere else it never ends on a file that is not found: it returns the
    version and the name of the archive, or ends on [IsADirectoryError]
    (version.dart is a directory) or on [IndexError] (the declaration has no
    single quote). *)
Theorem packager_start_outcomes (suffix : string) (w : world) :
  (path_exists (cwd w) "lib/config/version.dart" = false ->
   start_for suffix w
   = ([Printed "Please run this script from the root of the project."], Exited 1))
  /\ (path_exists (cwd w) "lib/config/version.dart" = true ->
      fst (start_for suffix w) = [Opened "lib/config/version.dart"]
      /\ ((exists APP_VERSION,
             snd (start_for suffix w)
             = Returned (APP_VERSION, "woxxy-" +:+ format APP_VERSION +:+ suffix))
          \/ snd (start_for suffix w)
             = Raised (IsADirectoryError "lib/config/version.dart")
          \/ snd (start_for suffix w) = Raised IndexError)).
Proof.
  unfold start_for. split; intros Hexists; rewrite Hexists; cbn [negb];
    [reflexivity|].
  unfold get_app_version_for, open_read. cbn [bind exec].
  unfold path_exists in Hexists. unfold Fs.read.
  destruct (Fs.locate (Dir (cwd w)) (Fs.components "lib/config/version.dart"))
    as [[text|entries]| |]; try discriminate Hexists.
  - assert (Hscan : forall lines,
               (exists v, scan_app_version lines None = Ret v)
               \/ scan_app_version lines None = Raise IndexError).
    { induction lines as [|line rest IH]; cbn [scan_app_version].
      - left. eexists. reflexivity.
      - destruct (Py.contains "const String APP_VERSION" line); [|exact IH].
        unfold index. destruct (nth_error (Py.split Py.SQUOTE line) 1).
        + left. eexists. reflexivity.
        + right. reflexivity. }
    destruct (Hscan (Py.readlines text)) as [[v ->]| ->].
    + split; [reflexivity|]. left. exists v. reflexivity.
    + split; [reflexivity|]. right. right. reflexivity.
  - split; [reflexivity|]. right. left. reflexivity.
Qed.

Lemma packager_start_outcomes_witness :
  BuildWindowsStart.start Cases.elsewhere
  = ([Printed "Please run this script from the root of the project."], Exited 1)
  /\ fst (BuildLinuxStart.start Sample.good) = [Opened "lib/config/version.dart"].
Proof.
  split.
  - exact (proj1 (packager_start_outcomes "-windows-x64.zip" Cases.elsewhere) eq_refl).
  - exact (proj1 (proj2 (packager_start_outcomes "-linux-x64.tar.bz2" Sample.good)
                    eq_refl)).
Defined.

(** ** More on the archive of the release folder *)

(** When the release folder is missing, the build having failed say, the
    walk has no item: an archive without members is written and the
    function returns as if all were well, nothing printed. *)
Theorem zip_without_release_folder (w : world) :
  (forall entries,
     Fs.locate (Dir (cwd w)) (Fs.components BASE_DIR) <> Fs.Found (Dir entries)) ->
  exec w zip_release_folder = ([Walked BASE_DIR], Returned tt)
  /\ archive (fst (exec w zip_release_folder)) = [].
Proof.
  intros Hmissing.
  assert (H : exec w zip_release_folder = ([Walked BASE_DIR], Returned tt)).
  { rewrite exec_zip_release_folder, (walk_nothing _ _ Hmissing). reflexivity. }
  split; [exact H|]. rewrite H. reflexivity.
Qed.

Lemma zip_without_release_folder_witness :
  exec Cases.unbuilt zip_release_folder
  = ([Walked "build/windows/x64/runner/Release"], Returned tt).
Proof.
  apply (zip_without_release_folder Cases.unbuilt).
  intros entries H. vm_compute in H. discriminate H.
Defined.

Lemma join_not_absolute (c : list string) :
  c <> [] -> Forall (fun name => good_name name = true) c ->
  Py.startswith (Py.join "/" c) "/" = false.
Proof.
  intros Hne Hgood. destruct Hgood as [|name rest Hname _]; [contradiction|].
  pose proof (NameFacts.good_not_absolute name Hname) as Habs.
  assert (Hnonempty : name <> EmptyString).
  { intros ->. discriminate Hname. }
  destruct name as [|ch name]; [contradiction|].
  destruct rest as [|name' rest]; [exact Habs|].
  change (Py.join "/" (String ch name :: name' :: rest))
    with (String ch (name +:+ String "/" (Py.join "/" (name' :: rest)))).
  unfold Py.startswith in *.
  change (String.prefix (Py.chr "/") (String ch name) = false) in Habs.
  rewrite PyFacts.prefix_chr in Habs.
  change (String.prefix (Py.chr "/")
            (String ch (name +:+ String "/" (Py.join "/" (name' :: rest)))) = false).
  rewrite PyFacts.prefix_chr. exact Habs.
Qed.

(** The name of every member of the archive is a relative path in normal
    form: it does not start with a slash, and it is the slash-joined list
    of its components, none of them empty, a dot or with a slash inside,
    each the name of an entry of the bundle on the way to the file. *)
Theorem archive_names_are_normal_relative_paths
    (w : world) (bundle : list (string * node)) (arcname text : string) :
  Fs.locate (Dir (cwd w)) (Fs.components BASE_DIR) = Fs.Found (Dir bundle) ->
  well_formed (Dir bundle) = true ->
  In (arcname, text) (archive (fst (exec w zip_release_folder))) ->
  Fs.components arcname <> []
  /\ Forall (fun name => good_name name = true) (Fs.components arcname)
  /\ Py.join "/" (Fs.components arcname) = arcname
  /\ Py.startswith arcname "/" = false
  /\ kind_at bundle (Fs.components arcname) = IsFile text.
Proof.
  intros Hbundle Hwf Hin.
  destruct (zip_release_folder_members w bundle Hbundle Hwf) as (t & Ht & Hm).
  rewrite Ht in Hin. change (In (arcname, text) (archive t)) in Hin.
  apply Hm in Hin as (c & Hc & -> & Hloc).
  destruct (TreeFacts.locate_good _ _ _ Hwf Hloc) as [Hgood _].
  rewrite (NameFacts.components_join c Hgood).
  split; [exact Hc|]. split; [exact Hgood|]. split; [reflexivity|].
  split; [apply join_not_absolute; assumption|].
  apply UnzipFacts.kind_at_file. exact Hloc.
Qed.

Lemma archive_names_are_normal_relative_paths_witness :
  Fs.components "data/flutter_assets/AssetManifest.json"
  = ["data"; "flutter_assets"; "AssetManifest.json"]
  /\ Py.startswith "data/flutter_assets/AssetManifest.json" "/" = false
  /\ kind_at Sample.bundle (Fs.components "data/flutter_assets/AssetManifest.json")
     = IsFile "{}".
Proof.
  split; [reflexivity|].
  destruct (archive_names_are_normal_relative_paths Sample.good Sample.bundle
              "data/flutter_assets/AssetManifest.json" "{}" eq_refl eq_refl)
    as (_ & _ & _ & Habs & Hkind).
  - vm_compute. right. right. left. reflexivity.
  - split; [exact Habs|exact Hkind].
Defined.

Module ListFacts.

Lemma NoDup_app_intro {X : Type} (l1 l2 : list X) :
  List.NoDup l1 -> List.NoDup l2 ->
  (forall x, In x l1 -> In x l2 -> False) ->
  List.NoDup (l1 ++ l2).
Proof.
  intros H1 H2 Hdisjoint. induction H1 as [|x l1 Hx H1 IH]; [exact H2|].
  cbn [app]. constructor.
  - rewrite in_app_iff. intros [H|H]; [exact (Hx H)|].
    exact (Hdisjoint x (or_introl eq_refl) H).
  - apply IH. intros y Hy. apply Hdisjoint. right. exact Hy.
Qed.

Lemma map_flat_map {X Y Z : Type} (h : Y -> Z) (f : X -> list Y) (l : list X) :
  map h (flat_map f l) = flat_map (fun x => map h (f x)) l.
Proof.
  induction l as [|x l IH]; [reflexivity|].
  cbn [flat_map]. rewrite map_app, IH. reflexivity.
Qed.

Lemma flat_map_flat_map {X Y Z : Type} (f : Y -> list Z) (g : X -> list Y)
    (l : list X) :
  flat_map f (flat_map g l) = flat_map (fun x => flat_map f (g x)) l.
Proof.
  induction l as [|x l IH]; [reflexivity|].
  cbn [flat_map]. rewrite flat_map_app, IH. reflexivity.
Qed.

(** Pieces without repetition, told apart by a key that differs from piece
    to piece, make a list without repetition. *)
Lemma NoDup_flat_map_keyed {X Y Z : Type} (f : X -> list Y) (key : Y -> Z)
    (g : X -> Z) (l : list X) :
  (forall x, In x l -> List.NoDup (f x)) ->
  (forall x y, In x l -> In y (f x) -> key y = g x) ->
  List.NoDup (map g l) ->
  List.NoDup (flat_map f l).
Proof.
  induction l as [|x l IH]; intros Hpieces Hkey Hg; [constructor|].
  cbn [flat_map]. cbn [map] in Hg. inversion Hg as [|gx gl Hfresh Hg' [E1 E2]].
  apply NoDup_app_intro.
  - apply Hpieces. left. reflexivity.
  - apply IH.
    + intros x' Hx'. apply Hpieces. right. exact Hx'.
    + intros x' y Hx' Hy. apply Hkey; [right; exact Hx'|exact Hy].
    + exact Hg'.
  - intros y Hy Hy'. apply in_flat_map in Hy' as (x' & Hx' & Hy').
    apply Hfresh. rewrite <- (Hkey x y (or_introl eq_refl) Hy).
    rewrite (Hkey x' y (or_intror Hx') Hy'). apply in_map. exact Hx'.
Qed.

Lemma NoDup_map_in {X Y : Type} (f : X -> Y) (l : list X) :
  List.NoDup l ->
  (forall x y, In x l -> In y l -> f x = f y -> x = y) ->
  List.NoDup (map f l).
Proof.
  intros Hl. induction Hl as [|x l Hx Hl IH]; intros Hinj; [constructor|].
  cbn [map]. constructor.
  - intros Hin. apply in_map_iff in Hin as (y & Heq & Hy).
    assert (y = x).
    { apply Hinj; [right; exact Hy|left; reflexivity|exact Heq]. }
    subst y. exact (Hx Hy).
  - apply IH. intros a b Ha Hb. apply Hinj; right; assumption.
Qed.

(** A list whose images under [f] do not repeat has images under [g] that
    do not repeat either, when [g] tells apart what [f] tells apart. *)
Lemma NoDup_map_finer {X Y Z : Type} (f : X -> Y) (g : X -> Z) (l : list X) :
  List.NoDup (map f l) ->
  (forall x y, In x l -> In y l -> g x = g y -> f x = f y) ->
  List.NoDup (map g l).
Proof.
  induction l as [|x l IH]; intros Hf Hfiner; [constructor|].
  cbn [map] in *. inversion Hf as [|fx fl Hfresh Hf' [E1 E2]]. constructor.
  - intros Hin. apply in_map_iff in Hin as (y & Heq & Hy).
    apply Hfresh. rewrite (Hfiner x y (or_introl eq_refl) (or_intror Hy) (eq_sym Heq)).
    apply in_map. exact Hy.
  - apply IH; [exact Hf'|]. intros a b Ha Hb. apply Hfiner; right; assumption.
Qed.

End ListFacts.

Module ArchiveOrder.

Import TreeFacts NameFacts WalkFacts ListFacts.

Lemma distinct_NoDup (names : list string) :
  distinct names = true -> List.NoDup names.
Proof.
  induction names as [|n rest IH]; cbn [distinct]; intros H; [constructor|].
  apply andb_true_iff in H as [Hfresh Hrest]. constructor.
  - intros Hin. apply mem_In in Hin. rewrite Hin in Hfresh. discriminate.
  - apply IH. exact Hrest.
Qed.

Lemma filenames_NoDup (entries : list (string * node)) :
  distinct (map fst entries) = true -> List.NoDup (Fs.filenames entries).
Proof.
  induction entries as [|[name x] es IH]; cbn [map fst distinct]; intros H;
    [constructor|].
  apply andb_true_iff in H as [Hfresh Hrest].
  unfold Fs.filenames. cbn [flat_map fst snd].
  destruct x as [text|sub]; [|exact (IH Hrest)].
  cbn [app]. constructor; [|exact (IH Hrest)].
  intros Hin. apply In_filenames in Hin as [text' Hin].
  apply (in_map fst) in Hin. apply mem_In in Hin. cbn [fst] in Hin.
  rewrite Hin in Hfresh. discriminate.
Qed.

Lemma walked_files_Dir (top : string) (entries : list (string * node)) :
  walked_files (Fs.walk_dir top (Dir entries))
  = map (Fs.path_join top) (Fs.filenames entries)
    ++ flat_map (fun e => walked_files (Fs.walk_dir (Fs.path_join top (fst e)) (snd e)))
         entries.
Proof.
  cbn [Fs.walk_dir]. unfold walked_files at 1. cbn [flat_map fst snd].
  f_equal. apply flat_map_flat_map.
Qed.

(** Every path the walk gives to a file lies below the top of the walk. *)
Lemma walked_files_components (x : node) (top path : string) :
  well_formed x = true ->
  In path (walked_files (Fs.walk_dir top x)) ->
  exists c text,
    c <> [] /\ Fs.components path = Fs.components top ++ c
    /\ Fs.locate x c = Fs.Found (File text).
Proof.
  intros Hwf Hin. unfold walked_files in Hin.
  apply in_flat_map in Hin as ([[root dirs] files] & Hitem & Hin).
  cbn [fst snd] in Hin. apply in_map_iff in Hin as (file & <- & Hfile).
  exact (walk_dir_sound x top root dirs files file Hwf Hitem Hfile).
Qed.

(** No two files of the walk have the same components. *)
Lemma walked_files_NoDup (x : node) :
  forall top, well_formed x = true ->
    List.NoDup (map Fs.components (walked_files (Fs.walk_dir top x))).
Proof.
  induction x as [text|entries IH] using node_nested_ind; intros top Hwf;
    [constructor|].
  destruct (well_formed_Dir _ Hwf) as [Hdistinct Hall].
  rewrite walked_files_Dir, map_app. apply NoDup_app_intro.
  - rewrite map_map. apply NoDup_map_in; [apply filenames_NoDup; exact Hdistinct|].
    intros f g Hf Hg Heq.
    apply In_filenames in Hf as [tf Hf]. apply In_filenames in Hg as [tg Hg].
    rewrite (components_path_join top f (proj1 (Hall _ _ Hf))) in Heq.
    rewrite (components_path_join top g (proj1 (Hall _ _ Hg))) in Heq.
    apply app_inv_head in Heq. congruence.
  - rewrite map_flat_map.
    apply (NoDup_flat_map_keyed _
             (fun y => nth (length (Fs.components top)) y EmptyString) fst).
    + intros [name child] Hin. cbn [fst snd].
      rewrite List.Forall_forall in IH.
      apply (IH _ Hin). apply (Hall _ _ Hin).
    + intros [name child] y Hin Hy. cbn [fst snd] in *.
      apply in_map_iff in Hy as (path & <- & Hpath).
      destruct (Hall _ _ Hin) as [Hgood Hchild].
      destruct (walked_files_components child _ path Hchild Hpath)
        as (c & text & _ & -> & _).
      rewrite (components_path_join top name Hgood), <- app_assoc.
      cbn [app]. apply nth_middle.
    + apply distinct_NoDup. exact Hdistinct.
  - intros y Hfile Hbelow.
    rewrite map_map in Hfile. apply in_map_iff in Hfile as (f & <- & Hf).
    apply In_filenames in Hf as [tf Hf].
    rewrite (components_path_join top f (proj1 (Hall _ _ Hf))) in Hbelow.
    rewrite map_flat_map in Hbelow.
    apply in_flat_map in Hbelow as ([name child] & Hin & Hy). cbn [fst snd] in Hy.
    apply in_map_iff in Hy as (path & Heq & Hpath).
    destruct (Hall _ _ Hin) as [Hgood Hchild].
    destruct (walked_files_components child _ path Hchild Hpath)
      as (c & text & Hc & Hcomps & _).
    rewrite Hcomps, (components_path_join top name Hgood), <- app_assoc in Heq.
    apply app_inv_head in Heq. cbn [app] in Heq.
    injection Heq as _ Hnil. exact (Hc Hnil).
Qed.

End ArchiveOrder.

Lemma archive_names_zip_files (w : world) (root : string) (files : list string) :
  (forall file, In file files ->
     exists text, Fs.read (cwd w) (Fs.path_join root file) = inr text) ->
  snd (exec w (zip_files root files)) = Returned tt
  /\ map fst (archive (fst (exec w (zip_files root files))))
     = map (fun file => Fs.relpath (Fs.path_join root file) BASE_DIR) files.
Proof.
  induction files as [|file rest IH]; intros Hread; [split; reflexivity|].
  destruct (Hread file (or_introl eq_refl)) as [text Htext].
  destruct IH as [Hend Hnames].
  { intros f Hf. apply Hread. right. exact Hf. }
  cbn [zip_files bind exec print zip_write]. rewrite Htext.
  destruct (exec w (zip_files root rest)) as [t r]. cbn [fst snd] in *.
  split; [exact Hend|]. cbn [archive flat_map app map fst].
  fold (archive t). rewrite Hnames. reflexivity.
Qed.

Lemma archive_names_zip_tree (w : world) (items : list Fs.walk_item) :
  (forall root dirs files file,
     In (root, dirs, files) items -> In file files ->
     exists text, Fs.read (cwd w) (Fs.path_join root file) = inr text) ->
  snd (exec w (zip_tree items)) = Returned tt
  /\ map fst (archive (fst (exec w (zip_tree items))))
     = map (fun path => Fs.relpath path BASE_DIR) (walked_files items).
Proof.
  induction items as [|[[root dirs] files] rest IH]; intros Hread;
    [split; reflexivity|].
  destruct (archive_names_zip_files w root files) as [Hend1 Hnames1].
  { intros file Hfile. apply (Hread root dirs files file); [left; reflexivity|exact Hfile]. }
  destruct IH as [Hend2 Hnames2].
  { intros r d f file Hin Hfile. apply (Hread r d f file); [right; exact Hin|exact Hfile]. }
  cbn [zip_tree]. rewrite exec_bind.
  destruct (exec w (zip_files root files)) as [t1 r1]. cbn [fst snd] in *.
  subst r1.
  destruct (exec w (zip_tree rest)) as [t2 r2]. cbn [fst snd] in *.
  split; [exact Hend2|].
  rewrite archive_app, map_app, Hnames1, Hnames2.
  unfold walked_files. cbn [flat_map fst snd]. rewrite map_app, map_map.
  reflexivity.
Qed.

(** No two members of the archive have the same name: every file of the
    bundle is stored once. *)
Theorem archive_names_do_not_repeat (w : world) (bundle : list (string * node)) :
  Fs.locate (Dir (cwd w)) (Fs.components BASE_DIR) = Fs.Found (Dir bundle) ->
  well_formed (Dir bundle) = true ->
  List.NoDup (map fst (archive (fst (exec w zip_release_folder)))).
Proof.
  intros Hbundle Hwf.
  rewrite exec_zip_release_folder, (walk_bundle w bundle Hbundle). cbn [fst].
  change (archive (Walked BASE_DIR
                   :: fst (exec w (zip_tree (Fs.walk_dir BASE_DIR (Dir bundle))))))
    with (archive (fst (exec w (zip_tree (Fs.walk_dir BASE_DIR (Dir bundle)))))).
  destruct (archive_names_zip_tree w (Fs.walk_dir BASE_DIR (Dir bundle)))
    as [_ ->].
  { intros root dirs files file Hitem Hfile.
    destruct (WalkFacts.walk_dir_sound _ _ _ _ _ _ Hwf Hitem Hfile)
      as (c & text & _ & Hcomps & Hloc).
    exists text. rewrite (read_bundle w bundle c _ Hbundle Hcomps), Hloc.
    reflexivity. }
  apply (ListFacts.NoDup_map_finer Fs.components).
  - apply ArchiveOrder.walked_files_NoDup. exact Hwf.
  - intros p q Hp Hq Heq.
    destruct (ArchiveOrder.walked_files_components _ _ _ Hwf Hp)
      as (c & tc & Hc & Hpc & Hlc).
    destruct (ArchiveOrder.walked_files_components _ _ _ Hwf Hq)
      as (d & td & Hd & Hqd & Hld).
    rewrite (NameFacts.relpath_below p BASE_DIR c Hpc Hc) in Heq.
    rewrite (NameFacts.relpath_below q BASE_DIR d Hqd Hd) in Heq.
    apply (f_equal Fs.components) in Heq.
    rewrite (NameFacts.components_join c (proj1 (TreeFacts.locate_good _ _ _ Hwf Hlc))) in Heq.
    rewrite (NameFacts.components_join d (proj1 (TreeFacts.locate_good _ _ _ Hwf Hld))) in Heq.
    rewrite Hpc, Hqd, Heq. reflexivity.
Qed.

Lemma archive_names_do_not_repeat_witness :
  map fst (archive (fst (exec Sample.good zip_release_folder)))
  = ["woxxy.exe"; "data/app.so"; "data/flutter_assets/AssetManifest.json"]
  /\ List.NoDup (map fst (archive (fst (exec Sample.good zip_release_folder)))).
Proof.
  split; [vm_compute; reflexivity|].
  exact (archive_names_do_not_repeat Sample.good Sample.bundle eq_refl eq_refl).
Defined.

(** ** When the checker accepts a project *)

Lemma find_none_forallb (split_package dirs : list string) :
  List.find (fun dir => negb (Py.mem dir split_package)) dirs = None
  <-> forallb (fun dir => Py.mem dir split_package) dirs = true.
Proof.
  induction dirs as [|dir rest IH]; cbn [List.find forallb]; [tauto|].
  destruct (Py.mem dir split_package); cbn [negb andb]; [exact IH|].
  split; discriminate.
Qed.

Lemma exec_ios_checks (w : world) (info : gmap string string)
    (name package info_plist project_pbxproj : string) :
  info !! "name" = Some name ->
  info !! "package" = Some package ->
  Fs.read (cwd w) "ios/Runner/Info.plist" = inr info_plist ->
  Fs.read (cwd w) "ios/Runner.xcodeproj/project.pbxproj" = inr project_pbxproj ->
  snd (exec w (ios_checks info)) = Returned tt
  <-> Accepts.ios name (default package (info !! "ios-package"))
        info_plist project_pbxproj = true.
Proof.
  intros Hname Hpackage Hplist Hproject.
  unfold ios_checks, open_read, getitem, Accepts.ios. cbn [bind exec].
  rewrite Hplist, Hname. cbn [bind exec].
  destruct (Py.contains name info_plist);
    cbn [negb when pass bind exec print exit andb snd]; [|split; discriminate].
  rewrite Hpackage. cbn [bind exec]. rewrite Hproject.
  destruct (Py.contains (default package (info !! "ios-package")) project_pbxproj);
    cbn [negb when pass bind exec print exit snd]; split; congruence.
Qed.

Lemma exec_android_checks (a : args) (w : world) (info : gmap string string)
    (name package android_manifest android_debug_manifest main_activity
       build_gradle : string) :
  info !! "name" = Some name ->
  info !! "package" = Some package ->
  Fs.read (cwd w) "android/app/src/main/AndroidManifest.xml" = inr android_manifest ->
  Fs.read (cwd w) "android/app/src/debug/AndroidManifest.xml"
  = inr android_debug_manifest ->
  Fs.read (cwd w)
    (("android/app/src/main/kotlin/" +:+ Py.replace "." "/" package)
     +:+ "/MainActivity.kt") = inr main_activity ->
  Fs.read (cwd w) "android/app/build.gradle" = inr build_gradle ->
  snd (exec w (android_checks a info)) = Returned tt
  <-> Accepts.manifests name package android_manifest android_debug_manifest
      && (skip_kotlin a
          || Accepts.kotlin package (Fs.walk (cwd w) "android/app/src/main/kotlin/")
               main_activity)
      && Accepts.build_gradle package build_gradle = true.
Proof.
  intros Hname Hpackage Hmain Hdebug Hactivity Hgradle.
  unfold android_checks. rewrite exec_bind.
  rewrite (exec_android_manifest_checks w info name package _ _
             Hname Hpackage Hmain Hdebug).
  unfold Accepts.manifests.
  destruct (Py.contains name android_manifest); cbn [negb andb snd];
    [|split; discriminate].
  destruct (Py.contains package android_manifest); cbn [negb andb snd];
    [|split; discriminate].
  destruct (Py.contains package android_debug_manifest); cbn [negb andb snd];
    [|split; discriminate].
  rewrite exec_bind.
  assert (Hk : snd (exec w (when (negb (skip_kotlin a)) (kotlin_checks info)))
               = Returned tt
               <-> skip_kotlin a
                   || Accepts.kotlin package
                        (Fs.walk (cwd w) "android/app/src/main/kotlin/")
                        main_activity = true).
  { destruct (skip_kotlin a); cbn [negb when orb]; [split; reflexivity|].
    rewrite (exec_kotlin_checks w info package Hpackage). unfold Accepts.kotlin.
    destruct (List.find _ _) as [dir|] eqn:Hfind.
    - assert (Hno : forallb (fun dir => Py.mem dir (Py.split "." package))
                      (walked_dirs (Fs.walk (cwd w) "android/app/src/main/kotlin/"))
                    = false).
      { apply not_true_is_false. intros H.
        apply find_none_forallb in H. congruence. }
      rewrite Hno. split; discriminate.
    - apply find_none_forallb in Hfind. rewrite Hfind. cbn [andb].
      destruct (last_files _) as [files|]; [|split; discriminate].
      destruct (Py.mem "MainActivity.kt" files); cbn [negb andb];
        [|split; discriminate].
      rewrite Hactivity.
      destruct (Py.contains package main_activity); cbn [negb andb];
        [|split; discriminate].
      destruct (Py.contains "FlutterFragmentActivity" main_activity);
        cbn [negb snd]; split; congruence. }
  destruct (exec w (when (negb (skip_kotlin a)) (kotlin_checks info)))
    as [t [[]|status|e]]; cbn [snd] in *.
  - rewrite (proj1 Hk eq_refl). cbn [andb].
    rewrite (exec_build_gradle_checks w info package build_gradle Hpackage Hgradle).
    unfold Accepts.build_gradle.
    destruct (Py.contains "keystoreProperties" build_gradle); cbn [negb andb snd];
      [|split; discriminate].
    destruct (Py.contains "signingConfigs {" build_gradle); cbn [negb andb snd];
      [|split; discriminate].
    destruct (Py.contains package build_gradle); cbn [negb andb snd];
      [|split; discriminate].
    destruct (Py.contains "flutterVersionCode.toInteger()" build_gradle);
      cbn [negb snd]; split; congruence.
  - split; [discriminate|]. intros H.
    apply andb_true_iff in H as [H _]. apply Hk in H. discriminate H.
  - split; [discriminate|]. intros H.
    apply andb_true_iff in H as [H _]. apply Hk in H. discriminate H.
Qed.

(** For a project whose artifacts can all be read and whose descriptor
    has a name and a package, the checker ends with status 0 exactly when
    the two version tokens are the same string and every block that is not
    skipped finds what it looks for; in every other case it ends with
    status 1. *)
Theorem flutter_check_accepts
    (a : args) (w : world) (info : gmap string string)
    (dart pubspec VERSION_DART VERSION_PUBSPEC name package : string)
    (android_manifest android_debug_manifest main_activity build_gradle
       info_plist project_pbxproj : string) :
  Fs.read (cwd w) "lib/config/version.dart" = inr dart ->
  Fs.read (cwd w) "pubspec.yaml" = inr pubspec ->
  scan_version_dart (Py.readlines dart) = Ret VERSION_DART ->
  scan_version_pubspec (Py.readlines pubspec) = Ret VERSION_PUBSPEC ->
  descriptor w (app_info a) = Some info ->
  info !! "name" = Some name ->
  info !! "package" = Some package ->
  Fs.read (cwd w) "android/app/src/main/AndroidManifest.xml" = inr android_manifest ->
  Fs.read (cwd w) "android/app/src/debug/AndroidManifest.xml"
  = inr android_debug_manifest ->
  Fs.read (cwd w)
    (("android/app/src/main/kotlin/" +:+ Py.replace "." "/" package)
     +:+ "/MainActivity.kt") = inr main_activity ->
  Fs.read (cwd w) "android/app/build.gradle" = inr build_gradle ->
  Fs.read (cwd w) "ios/Runner/Info.plist" = inr info_plist ->
  Fs.read (cwd w) "ios/Runner.xcodeproj/project.pbxproj" = inr project_pbxproj ->
  let accepted :=
    String.eqb VERSION_DART VERSION_PUBSPEC
    && (skip_android a
        || Accepts.manifests name package android_manifest android_debug_manifest
           && (skip_kotlin a
               || Accepts.kotlin package
                    (Fs.walk (cwd w) "android/app/src/main/kotlin/") main_activity)
           && Accepts.build_gradle package build_gradle)
    && (skip_ios a
        || Accepts.ios name (default package (info !! "ios-package"))
             info_plist project_pbxproj) in
  (snd (exec w (flutter_check a)) = Returned tt <-> accepted = true)
  /\ exit_status (snd (exec w (flutter_check a))) = (if accepted then 0 else 1)%Z.
Proof.
  intros Hdart Hpubspec Hvd Hvp Hjson Hname Hpackage Hmain Hdebug Hactivity
    Hgradle Hplist Hproject accepted.
  assert (Hiff : snd (exec w (flutter_check a)) = Returned tt <-> accepted = true).
  { subst accepted.
    rewrite (exec_flutter_check_version a w dart pubspec _ _ Hdart Hpubspec Hvd Hvp).
    destruct (String.eqb VERSION_DART VERSION_PUBSPEC); cbn [andb snd];
      [|split; discriminate].
    unfold platform_checks, json_load. cbn [bind exec]. rewrite Hjson.
    pose proof (exec_android_checks a w info name package _ _ _ _
                  Hname Hpackage Hmain Hdebug Hactivity Hgradle) as Handroid.
    pose proof (exec_ios_checks w info name package _ _
                  Hname Hpackage Hplist Hproject) as Hios.
    rewrite exec_bind.
    assert (Ha : snd (exec w (when (negb (skip_android a)) (android_checks a info)))
                 = Returned tt
                 <-> skip_android a
                     || Accepts.manifests name package android_manifest
                          android_debug_manifest
                        && (skip_kotlin a
                            || Accepts.kotlin package
                                 (Fs.walk (cwd w) "android/app/src/main/kotlin/")
                                 main_activity)
                        && Accepts.build_gradle package build_gradle = true).
    { destruct (skip_android a); cbn [negb when orb];
        [split; reflexivity|exact Handroid]. }
    assert (Hi : snd (exec w (when (negb (skip_ios a)) (ios_checks info)))
                 = Returned tt
                 <-> skip_ios a
                     || Accepts.ios name (default package (info !! "ios-package"))
                          info_plist project_pbxproj = true).
    { destruct (skip_ios a); cbn [negb when orb];
        [split; reflexivity|exact Hios]. }
    destruct (exec w (when (negb (skip_android a)) (android_checks a info)))
      as [t [[]|status|e]]; cbn [snd] in *.
    - rewrite (proj1 Ha eq_refl). cbn [andb].
      destruct (exec w (when (negb (skip_ios a)) (ios_checks info))) as [t' r'].
      cbn [snd] in *. exact Hi.
    - split; [discriminate|]. intros H.
      apply andb_true_iff in H as [H _]. apply Ha in H. discriminate H.
    - split; [discriminate|]. intros H.
      apply andb_true_iff in H as [H _]. apply Ha in H. discriminate H. }
  split; [exact Hiff|].
  pose proof (orderly_flutter_check a w) as Hends.
  destruct (exec w (flutter_check a)) as [t [[]|status|e]]; cbn [snd] in *.
  - rewrite (proj1 Hiff eq_refl). reflexivity.
  - destruct accepted; [destruct Hiff as [_ H]; discriminate (H eq_refl)|].
    destruct Hends as [-> _]. reflexivity.
  - destruct accepted; [destruct Hiff as [_ H]; discriminate (H eq_refl)|].
    reflexivity.
Qed.

Lemma flutter_check_accepts_witness :
  snd (exec Sample.good (flutter_check Sample.all_checks)) = Returned tt
  /\ exit_status (snd (exec (Cases.with_gradle Cases.gradle_placeholder)
                         (flutter_check Sample.all_checks))) = 1%Z.
Proof.
  split.
  - apply (proj1 (flutter_check_accepts Sample.all_checks Sample.good Sample.woxxy
                    Sample.version_dart (Sample.pubspec "1.0.0") "1.0.0" "1.0.0"
                    "Woxxy" "com.example.woxxy" Sample.manifest Sample.manifest
                    Sample.main_activity Sample.gradle
                    "<key>CFBundleName</key><string>Woxxy</string>" Sample.pbxproj
                    eq_refl eq_refl eq_refl eq_refl eq_refl eq_refl eq_refl
                    eq_refl eq_refl eq_refl eq_refl eq_refl eq_refl)).
    vm_compute. reflexivity.
  - exact (proj2 (flutter_check_accepts Sample.all_checks
                    (Cases.with_gradle Cases.gradle_placeholder) Sample.woxxy
                    Sample.version_dart (Sample.pubspec "1.0.0") "1.0.0" "1.0.0"
                    "Woxxy" "com.example.woxxy" Sample.manifest Sample.manifest
                    Sample.main_activity Cases.gradle_placeholder
                    "<key>CFBundleName</key><string>Woxxy</string>" Sample.pbxproj
                    eq_refl eq_refl eq_refl eq_refl eq_refl eq_refl eq_refl
                    eq_refl eq_refl eq_refl eq_refl eq_refl eq_refl)).
Defined.

(** ** The shape of the version read from pubspec.yaml *)

Module StripFacts.

Import Py.

Lemma contains_chr_cons (c d : ascii) (s : string) :
  contains (chr c) (String d s) = Ascii.eqb c d || contains (chr c) s.
Proof. cbn [contains]. rewrite PyFacts.prefix_chr. reflexivity. Qed.

Lemma split_pieces_free (sep : ascii) (s : string) :
  Forall (fun piece => contains (chr sep) piece = false) (split sep s).
Proof.
  induction s as [|c s IH]; cbn [split]; [repeat constructor|].
  destruct (Ascii.eqb c sep) eqn:Hc.
  - constructor; [reflexivity|exact IH].
  - destruct (split sep s) as [|piece pieces].
    + constructor; [|constructor].
      change (chr c) with (String c EmptyString).
      rewrite contains_chr_cons, Ascii.eqb_sym, Hc. reflexivity.
    + inversion IH as [|x l Hpiece Hpieces]. constructor; [|exact Hpieces].
      rewrite contains_chr_cons, Ascii.eqb_sym, Hc. exact Hpiece.
Qed.

Lemma lstrip_free (c : ascii) (s : string) :
  contains (chr c) s = false -> contains (chr c) (lstrip s) = false.
Proof.
  induction s as [|d s IH]; [auto|]. intros H. cbn [lstrip].
  destruct (isspace d); [|exact H].
  rewrite contains_chr_cons in H. apply orb_false_iff in H as [_ H].
  exact (IH H).
Qed.

Lemma rstrip_cons (d : ascii) (s : string) :
  rstrip (String d s)
  = match rstrip s with
    | EmptyString => if isspace d then EmptyString else chr d
    | kept => String d kept
    end.
Proof. reflexivity. Qed.

Lemma rstrip_free (c : ascii) (s : string) :
  contains (chr c) s = false -> contains (chr c) (rstrip s) = false.
Proof.
  induction s as [|d s IH]; [auto|]. intros H. rewrite rstrip_cons.
  rewrite contains_chr_cons in H. apply orb_false_iff in H as [Hd H].
  specialize (IH H). destruct (rstrip s) as [|e kept].
  - destruct (isspace d); [reflexivity|].
    change (chr d) with (String d EmptyString).
    rewrite contains_chr_cons, Hd. reflexivity.
  - rewrite contains_chr_cons, Hd. exact IH.
Qed.

Lemma lstrip_idem (s : string) : lstrip (lstrip s) = lstrip s.
Proof.
  induction s as [|d s IH]; [reflexivity|]. cbn [lstrip].
  destruct (isspace d) eqn:Hd; [exact IH|]. cbn [lstrip]. rewrite Hd.
  reflexivity.
Qed.

Lemma rstrip_idem (s : string) : rstrip (rstrip s) = rstrip s.
Proof.
  induction s as [|d s IH]; [reflexivity|]. rewrite rstrip_cons.
  destruct (rstrip s) as [|e kept] eqn:Hr.
  - destruct (isspace d) eqn:Hd; [reflexivity|].
    unfold chr. rewrite rstrip_cons. cbn [rstrip]. rewrite Hd. reflexivity.
  - rewrite rstrip_cons, IH. reflexivity.
Qed.

Lemma rstrip_lstrip (s : string) : rstrip (lstrip s) = lstrip (rstrip s).
Proof.
  induction s as [|d s IH]; [reflexivity|].
  rewrite rstrip_cons. cbn [lstrip].
  destruct (isspace d) eqn:Hd.
  - rewrite IH. destruct (rstrip s) as [|e kept]; [reflexivity|].
    cbn [lstrip]. rewrite Hd. reflexivity.
  - rewrite rstrip_cons.
    destruct (rstrip s) as [|e kept]; unfold chr; cbn [lstrip]; rewrite Hd;
      reflexivity.
Qed.

Lemma strip_idem (s : string) : strip (strip s) = strip s.
Proof.
  unfold strip.
  rewrite (rstrip_lstrip (rstrip s)), rstrip_idem, lstrip_idem.
  reflexivity.
Qed.

Lemma strip_free (c : ascii) (s : string) :
  contains (chr c) s = false -> contains (chr c) (strip s) = false.
Proof. intros H. apply lstrip_free, rstrip_free. exact H. Qed.

End StripFacts.

Lemma scan_version_pubspec_shape (lines : list string) (version : string) :
  scan_version_pubspec lines = Ret version ->
  Py.contains ":" version = false /\ Py.strip version = version.
Proof.
  induction lines as [|line rest IH]; cbn [scan_version_pubspec].
  - intros [= <-]. split; reflexivity.
  - destruct (Py.startswith line "version:"); [|exact IH].
    unfold index.
    destruct (nth_error (Py.split ":" line) 1) as [field|] eqn:Hfield;
      cbn [bind]; [|discriminate].
    intros [= <-]. split.
    + apply (StripFacts.strip_free ":").
      pose proof (StripFacts.split_pieces_free ":" line) as Hfree.
      rewrite List.Forall_forall in Hfree. apply Hfree.
      apply nth_error_In in Hfield. exact Hfield.
    + apply StripFacts.strip_idem.
Qed.

(** The version read from pubspec.yaml holds no colon and no blank at
    either end.  So a version in version.dart with a colon in it, or with
    a blank at an end, is matched by no pubspec.yaml: the version check
    fails whatever the manifest says. *)
Theorem version_never_matched
    (w : world) (dart pubspec VERSION_DART : string) :
  Fs.read (cwd w) "lib/config/version.dart" = inr dart ->
  Fs.read (cwd w) "pubspec.yaml" = inr pubspec ->
  scan_version_dart (Py.readlines dart) = Ret VERSION_DART ->
  Py.contains ":" VERSION_DART = true \/ Py.strip VERSION_DART <> VERSION_DART ->
  exists VERSION_PUBSPEC,
    scan_version_pubspec (Py.readlines pubspec) = Ret VERSION_PUBSPEC
    /\ Py.contains ":" VERSION_PUBSPEC = false
    /\ Py.strip VERSION_PUBSPEC = VERSION_PUBSPEC
    /\ exec w version_check
       = ([Opened "lib/config/version.dart"; Opened "pubspec.yaml";
           Printed "Error: version number in version.dart and pubspec.yaml are different";
           Printed ("       version.dart: " +:+ VERSION_DART);
           Printed ("       pubspec.yaml: " +:+ VERSION_PUBSPEC)], Exited 1).
Proof.
  intros Hdart Hpubspec Hvd Hodd.
  destruct (scan_version_pubspec_returns (Py.readlines pubspec)) as [vp Hvp].
  destruct (scan_version_pubspec_shape _ _ Hvp) as [Hcolon Hstrip].
  exists vp. split; [exact Hvp|]. split; [exact Hcolon|]. split; [exact Hstrip|].
  rewrite (exec_version_check w dart pubspec _ _ Hdart Hpubspec Hvd Hvp).
  assert (Hne : String.eqb VERSION_DART vp = false).
  { apply String.eqb_neq. intros ->. destruct Hodd as [H|H]; congruence. }
  rewrite Hne. reflexivity.
Qed.

Lemma version_never_matched_witness :
  exec (World (Sample.project Cases.version_dart_blank (Sample.pubspec "1.0.0 ")
                 Sample.manifest Sample.kotlin Sample.gradle Sample.pbxproj)
              (Sample.load Sample.woxxy))
       version_check
  = ([Opened "lib/config/version.dart"; Opened "pubspec.yaml";
      Printed "Error: version number in version.dart and pubspec.yaml are different";
      Printed "       version.dart: 1.0.0 ";
      Printed "       pubspec.yaml: 1.0.0"], Exited 1).
Proof.
  destruct (version_never_matched
              (World (Sample.project Cases.version_dart_blank (Sample.pubspec "1.0.0 ")
                        Sample.manifest Sample.kotlin Sample.gradle Sample.pbxproj)
                     (Sample.load Sample.woxxy))
              Cases.version_dart_blank (Sample.pubspec "1.0.0 ") "1.0.0 "
              eq_refl eq_refl eq_refl)
    as (vp & Hvp & _ & _ & Hrun).
  - right. discriminate.
  - vm_compute in Hvp. injection Hvp as <-. exact Hrun.
Defined.

(** * The checks of a run, one by one *)

Section Agrees.

Import Checklist.

Variable a : args.
Variable w : world.














Section Descriptor.

Variable info : gmap string string.
Hypothesis Hinfo : descriptor w (app_info a) = Some info.

Section Android.

Hypothesis Handroid : skip_android a = false.






Hypothesis Hkotlin : skip_kotlin a = false.


End Android.


End Descriptor.



End Agrees.


